(** * Bin interval matcher

    A shallow embedding of [src/utils/intervalParser.ts] (the interval
    predicate [isValueInInterval]) and of the [findMatch] handler of the
    application component (the row matcher), together with the part of the
    JavaScript run-time they rely on: strings as sequences of UTF-16 code
    units, [String.prototype.trim], [parseFloat], the relational operators on
    numbers, truthiness, and a backtracking matcher for the regular
    expression of the interval grammar.

    Modelling conventions.
    - A string is a [list N] of code units; [js "..."] turns an ASCII literal
      into one.
    - A number is a double: [NaN], an infinity, or a finite value carried as
      the rational it is equal to. [parseFloat] rounds the value of the text
      it reads to the nearest double, to an infinity beyond the range.
    - Exceptions and the visible effects ([console.warn], [alert],
      [preventDefault]) are threaded through a small error-and-log monad. *)

From Stdlib Require Import ZArith QArith Qpower Qfield Lqa Bool List Lia String Ascii.
From stdpp Require Import base gmap strings list.

(** ** The JavaScript run-time used by the program *)
Module JS.

Abbreviation jsstring := (list N).

(** An ASCII literal as a sequence of code units. *)
Definition js (s : string) : jsstring :=
  map N_of_ascii (Stdlib.Strings.String.list_ascii_of_string s).

Section CodeUnits.
Local Open Scope N_scope.

(** WhiteSpace and LineTerminator code points: what [trim], the regular
    expression class [\s] and the prefix skipped by [parseFloat] all use. *)
Definition isWhiteSpace (c : N) : bool :=
  ((9 <=? c) && (c <=? 13)) || (c =? 32) || (c =? 160) || (c =? 5760)
  || ((8192 <=? c) && (c <=? 8202)) || (c =? 8232) || (c =? 8233)
  || (c =? 8239) || (c =? 8287) || (c =? 12288) || (c =? 65279).

(** The class [\d]. *)
Definition isDigit (c : N) : bool := (48 <=? c) && (c <=? 57).

Definition digitValue (c : N) : Z := (Z.of_N c - 48)%Z.

End CodeUnits.

(** The value of a run of decimal digits, most significant first. *)
Definition digitsValue (ds : jsstring) : Z :=
  fold_left (fun acc c => (10 * acc + digitValue c)%Z) ds 0%Z.

(** [String.prototype.trimStart], [trimEnd] and [trim]. *)
Fixpoint trimStart (s : jsstring) : jsstring :=
  match s with
  | c :: s' => if isWhiteSpace c then trimStart s' else s
  | [] => []
  end.

Definition trimEnd (s : jsstring) : jsstring := rev (trimStart (rev s)).

Definition trim (s : jsstring) : jsstring := trimEnd (trimStart s).

(** The longest prefix made of characters of a class, and what follows it. *)
Fixpoint span (p : N -> bool) (s : jsstring) : jsstring * jsstring :=
  match s with
  | c :: s' =>
      if p c then let (a, b) := span p s' in (c :: a, b) else ([], s)
  | [] => ([], [])
  end.

Fixpoint startsWith (pre s : jsstring) : bool :=
  match pre, s with
  | [], _ => true
  | a :: pre', b :: s' => (a =? b)%N && startsWith pre' s'
  | _ :: _, [] => false
  end.

Definition nonEmpty (s : jsstring) : bool :=
  match s with [] => false | _ :: _ => true end.

(** *** Numbers

    A double: [NaN], an infinity, or a finite value, carried as the rational
    it is equal to. The two zeros are carried as one: the program compares
    numbers and tests them for [NaN], and neither tells the zeros apart. *)

Inductive number :=
| NaN
| PosInfinity
| NegInfinity
| Fin (q : Q).

(** *** The number value of a rational

    The double nearest to a rational, the one with the even significand when
    two are equally near, and an infinity when the magnitude rounds to 2^1024
    or beyond. A double has 53 significant bits, and its unit in the last
    place lies between 2^-1074 (the subnormal numbers) and 2^971. *)

Section Rounding.
Local Open Scope Z_scope.

(** The integer nearest to [n / d], for [0 <= n] and [0 < d]; of two equally
    near ones, the even one. *)
Definition roundHalfEven (n d : Z) : Z :=
  let f := n / d in
  match 2 * (n mod d) ?= d with
  | Lt => f
  | Gt => f + 1
  | Eq => if Z.even f then f else f + 1
  end.

(** The exponent [e] with [2^e <= n / d < 2^(e+1)], for positive [n] and
    [d]. *)
Definition floorLog2 (n d : Z) : Z :=
  let e := Z.log2 n - Z.log2 d in
  if (if 0 <=? e then d * 2 ^ e <=? n else d <=? n * 2 ^ (- e))
  then e else e - 1.

(** The magnitude [n / d] rounded to a multiple of its unit in the last
    place; [None] when the result is out of range. *)
Definition roundMagnitude (n d : Z) : option Q :=
  let u := Z.max (floorLog2 n d - 52) (-1074) in
  if 0 <=? u then
    let z := roundHalfEven n (d * 2 ^ u) * 2 ^ u in
    if 2 ^ 1024 <=? z then None else Some (inject_Z z)
  else
    Some (Qred (Qmake (roundHalfEven (n * 2 ^ (- u)) d) (Z.to_pos (2 ^ (- u))))).

Definition roundDouble (q : Q) : number :=
  let r := Qred q in
  match Qnum r with
  | Z0 => Fin 0
  | Zpos n =>
      match roundMagnitude (Zpos n) (Zpos (Qden r)) with
      | Some m => Fin m
      | None => PosInfinity
      end
  | Zneg n =>
      match roundMagnitude (Zpos n) (Zpos (Qden r)) with
      | Some m => Fin (- m)
      | None => NegInfinity
      end
  end.

End Rounding.

Definition Qltb (a b : Q) : bool :=
  (Qnum a * QDen b <? Qnum b * QDen a)%Z.

(** [Number::lessThan]: [None] is the specification's [undefined], the
    answer when an operand is [NaN]. *)
Definition lessThan (x y : number) : option bool :=
  match x, y with
  | NaN, _ | _, NaN => None
  | PosInfinity, _ => Some false
  | _, PosInfinity => Some true
  | _, NegInfinity => Some false
  | NegInfinity, _ => Some true
  | Fin a, Fin b => Some (Qltb a b)
  end.

Definition isSome_true (o : option bool) : bool :=
  match o with Some true => true | _ => false end.

Definition isSome_false (o : option bool) : bool :=
  match o with Some false => true | _ => false end.

(** The four relational operators [<], [>], [<=], [>=]. *)
Definition lt (a b : number) : bool := isSome_true (lessThan a b).
Definition gt (a b : number) : bool := isSome_true (lessThan b a).
Definition le (a b : number) : bool := isSome_false (lessThan b a).
Definition ge (a b : number) : bool := isSome_false (lessThan a b).

Definition isNaN (n : number) : bool :=
  match n with NaN => true | _ => false end.

(** *** [parseFloat] *)

(** An optional leading ['+'] or ['-']: whether the sign is negative, and
    the rest. *)
Definition parseSign (s : jsstring) : bool * jsstring :=
  match s with
  | c :: r =>
      if (c =? 45)%N then (true, r)
      else if (c =? 43)%N then (false, r)
      else (false, s)
  | [] => (false, s)
  end.

(** Integer digits, then an optional ['.'] with fraction digits; at least one
    digit overall. Returns the two digit runs and the unread rest. *)
Definition parseMantissa (s : jsstring)
  : option (jsstring * jsstring * jsstring) :=
  let (ip, r1) := span isDigit s in
  let (fp, r2) :=
    match r1 with
    | c :: r => if (c =? 46)%N then span isDigit r else ([], r1)
    | [] => ([], r1)
    end in
  if nonEmpty ip || nonEmpty fp then Some (ip, fp, r2) else None.

(** The exponent part [e], [E] with an optional sign and at least one digit;
    0 when there is none. *)
Definition parseExponent (s : jsstring) : Z :=
  match s with
  | c :: r =>
      if (c =? 101)%N || (c =? 69)%N then
        let (neg, r') := parseSign r in
        let (es, _) := span isDigit r' in
        if nonEmpty es
        then (if neg then - digitsValue es else digitsValue es)%Z
        else 0%Z
      else 0%Z
  | [] => 0%Z
  end.

(** [parseFloat]: leading white space is skipped, the longest prefix that is
    a decimal literal is read, and the result is the number value of what
    the literal denotes; [NaN] when there is no such prefix. The language
    lets an engine ignore the digits after the twentieth; the engines round
    the value of the whole literal, as is done here. *)
Definition parseFloat (s : jsstring) : number :=
  let t := trimStart s in
  let (neg, u) := parseSign t in
  if startsWith (js "Infinity") u then
    (if neg then NegInfinity else PosInfinity)
  else
    match parseMantissa u with
    | None => NaN
    | Some (ip, fp, r) =>
        let e := parseExponent r in
        let q := (inject_Z (digitsValue (ip ++ fp))
                  * Qpower (10 # 1) (e - Z.of_nat (length fp)))%Q in
        roundDouble (if neg then (- q)%Q else q)
    end.

(** *** Values *)

Inductive value :=
| VUndefined
| VNull
| VBoolean (b : bool)
| VNumber (n : number)
| VString (s : jsstring).

(** [ToBoolean]. *)
Definition truthy (v : value) : bool :=
  match v with
  | VUndefined | VNull => false
  | VBoolean b => b
  | VNumber NaN => false
  | VNumber (Fin q) => negb (Qeq_bool q 0)
  | VNumber _ => true
  | VString s => nonEmpty s
  end.

(** [a || b]. *)
Definition or_else (a b : value) : value := if truthy a then a else b.

Definition isString (v : value) : bool :=
  match v with VString _ => true | _ => false end.

(** *** Effects *)

Inductive effect :=
| ConsoleWarn (msg : jsstring)
| Alert (msg : jsstring)
| PreventDefault.

Inductive exn := TypeError.

Inductive outcome (A : Type) :=
| Ok (a : A)
| Throw (e : exn).
Arguments Ok {A} a.
Arguments Throw {A} e.

(** A computation yields a value or throws, and leaves a log of effects. *)
Definition M (A : Type) : Type := outcome A * list effect.

Definition ret {A} (a : A) : M A := (Ok a, []).
Definition throw {A} (e : exn) : M A := (Throw e, []).
Definition emit (e : effect) : M unit := (Ok tt, [e]).

Definition bind {A B} (c : M A) (k : A -> M B) : M B :=
  match c with
  | (Ok a, l1) => let (r, l2) := k a in (r, l1 ++ l2)
  | (Throw e, l1) => (Throw e, l1)
  end.

End JS.

Notation "x <- c ;; k" := (JS.bind c (fun x => k))
  (at level 100, c at next level, right associativity).
Notation "c ;;; k" := (JS.bind c (fun _ => k))
  (at level 100, right associativity).

(** ** Regular expressions

    The fragment of the regular-expression language that the interval
    pattern uses, with the backtracking semantics of the language: a matcher
    maps a state to the list of states it can end in, in the order in which
    a backtracking engine tries them (a greedy quantifier tries the longer
    repetition first). Every quantifier of the pattern applies to a
    one-character atom, so the quantifiers take a character class. *)
Module Regex.
Import JS.

Inductive regex :=
| Bol                              (* ^ *)
| Eol                              (* $ *)
| Class (p : N -> bool)            (* one character of a class *)
| Opt (p : N -> bool)              (* c? *)
| Star (p : N -> bool)             (* c* *)
| Plus (p : N -> bool)             (* c+ *)
| Seq (r1 r2 : regex)
| Group (i : nat) (r : regex).     (* the i-th capturing group *)

(** The index reached in the input, the input from there on, and the array
    of captures (slot 0 is kept for the whole match). *)
Record mstate := MState {
  pos : nat;
  rest : jsstring;
  caps : list (option jsstring)
}.

Definition class (p : N -> bool) (st : mstate) : list mstate :=
  match rest st with
  | c :: s' => if p c then [MState (S (pos st)) s' (caps st)] else []
  | [] => []
  end.

Fixpoint star (p : N -> bool) (n : nat) (s : jsstring)
    (cs : list (option jsstring)) : list mstate :=
  match s with
  | c :: s' =>
      if p c then star p (S n) s' cs ++ [MState n s cs] else [MState n s cs]
  | [] => [MState n s cs]
  end.

Definition capture (i : nat) (st st' : mstate) : mstate :=
  MState (pos st') (rest st')
         (<[i := Some (take (pos st' - pos st) (rest st))]> (caps st')).

Fixpoint run (r : regex) (st : mstate) : list mstate :=
  match r with
  | Bol => if Nat.eqb (pos st) 0 then [st] else []
  | Eol => match rest st with [] => [st] | _ :: _ => [] end
  | Class p => class p st
  | Opt p => class p st ++ [st]
  | Star p => star p (pos st) (rest st) (caps st)
  | Plus p =>
      flat_map (fun st1 => star p (pos st1) (rest st1) (caps st1)) (class p st)
  | Seq r1 r2 => flat_map (run r2) (run r1 st)
  | Group i r => map (capture i st) (run r st)
  end.

(** One attempt at start index [n]: the first way through wins. *)
Definition matchAt (r : regex) (ngroups n : nat) (s : jsstring)
  : option (list (option jsstring)) :=
  match run r (MState n (drop n s) (replicate (S ngroups) None)) with
  | st :: _ => Some (<[0%nat := Some (take (pos st - n) (drop n s))]> (caps st))
  | [] => None
  end.

Fixpoint firstMatch (r : regex) (ngroups : nat) (s : jsstring)
    (starts : list nat) : option (list (option jsstring)) :=
  match starts with
  | [] => None
  | n :: ns =>
      match matchAt r ngroups n s with
      | Some a => Some a
      | None => firstMatch r ngroups s ns
      end
  end.

(** [s.match(r)] for a pattern without flags: the match array of the
    leftmost start index that matches, or [None] for [null]. *)
Definition exec (r : regex) (ngroups : nat) (s : jsstring)
  : option (list (option jsstring)) :=
  firstMatch r ngroups s (seq 0 (S (length s))).

End Regex.

(** ** [src/utils/intervalParser.ts] *)
Module IntervalParser.
Import JS Regex.

Definition isChar (k c : N) : bool := (c =? k)%N.

(** The two bracket classes. *)
Definition isOpen (c : N) : bool := isChar 40 c || isChar 91 c.
Definition isClose (c : N) : bool := isChar 41 c || isChar 93 c.

(** The number pattern: -?\d+\.?\d* *)
Definition numberRe : regex :=
  Seq (Opt (isChar 45)) (Seq (Plus isDigit) (Seq (Opt (isChar 46)) (Star isDigit))).

(** The pattern of the source: the start anchor, an opening bracket
    (group 1), white space, a number (group 2), white space, a comma, white
    space, a number (group 3), white space, a closing bracket (group 4) and
    the end anchor. *)
Definition regex : regex :=
  Seq Bol                               (* ^ *)
 (Seq (Group 1 (Class isOpen))          (* ( [(\[] ) *)
 (Seq (Star isWhiteSpace)               (* \s* *)
 (Seq (Group 2 numberRe)                (* ( -?\d+\.?\d* ) *)
 (Seq (Star isWhiteSpace)               (* \s* *)
 (Seq (Class (isChar 44))               (* , *)
 (Seq (Star isWhiteSpace)               (* \s* *)
 (Seq (Group 3 numberRe)                (* ( -?\d+\.?\d* ) *)
 (Seq (Star isWhiteSpace)               (* \s* *)
 (Seq (Group 4 (Class isClose))         (* ( [)\]] ) *)
      Eol))))))))).                     (* $ *)

(** An element of the match array read by destructuring: [None] is
    [undefined], for an index out of range or a group that did not take
    part. *)
Definition element (arr : list (option jsstring)) (i : nat)
  : option jsstring :=
  mjoin (arr !! i).

(** [parseFloat] of such an element: [undefined] is first turned into
    text. *)
Definition parseFloatOf (o : option jsstring) : number :=
  parseFloat (default (js "undefined") o).

(** [x === lit] for such an element and a string literal. *)
Definition strictEq (o : option jsstring) (lit : jsstring) : bool :=
  bool_decide (o = Some lit).

Definition isValueInInterval (value : number) (intervalStr : JS.value)
  : M bool :=
  if negb (truthy intervalStr) || negb (isString intervalStr) then ret false
  else
    match intervalStr with
    | VString str =>
        let cleanStr := trim str in
        match exec regex 4 cleanStr with
        | None =>
            emit (ConsoleWarn
                    (js "Invalid interval format encountered: " ++ str)) ;;;
            ret false
        | Some arr =>
            let startBracket := element arr 1 in
            let startValStr := element arr 2 in
            let endValStr := element arr 3 in
            let endBracket := element arr 4 in
            let startVal := parseFloatOf startValStr in
            let endVal := parseFloatOf endValStr in
            if isNaN startVal || isNaN endVal then ret false
            else
              let isGreaterThanStart :=
                if strictEq startBracket (js "(") then gt value startVal
                else if strictEq startBracket (js "[") then ge value startVal
                else false in
              let isLessThanEnd :=
                if strictEq endBracket (js ")") then lt value endVal
                else if strictEq endBracket (js "]") then le value endVal
                else false in
              ret (isGreaterThanStart && isLessThanEnd)
        end
    | _ => throw TypeError   (* [.trim] is not there to call *)
    end.

End IntervalParser.

(** ** The application component: rows, inputs and [findMatch] *)
Module App.
Import JS IntervalParser.

(** A row of the sheet: an object from column names to cells. *)
Abbreviation ExcelRow := (gmap jsstring value).

Record SearchInputs := {
  s5 : jsstring;
  s10 : jsstring;
  s20 : jsstring
}.

Record MatchResult := {
  found : bool;
  row : option ExcelRow;
  error : option jsstring
}.

(** The state of the component. *)
Record AppState := {
  data : list ExcelRow;
  fileName : option jsstring;
  isLoading : bool;
  isAutoLoaded : bool;
  inputs : SearchInputs;
  matchResult : option MatchResult
}.

Definition setMatchResult (r : option MatchResult) (st : AppState)
  : AppState :=
  {| data := data st; fileName := fileName st; isLoading := isLoading st;
     isAutoLoaded := isAutoLoaded st; inputs := inputs st;
     matchResult := r |}.

(** [row[key]]: [undefined] for a key the object does not have. *)
Definition get (r : ExcelRow) (key : jsstring) : value :=
  default VUndefined (r !! key).

(** The text of the alert raised for an input that is not a number. *)
Definition invalidNumberMessage : jsstring :=
  [35831; 36755; 20837; 26377; 25928; 30340; 25968; 23383; 12290]%N.

(** [Array.prototype.find] with a callback that runs in the monad. *)
Fixpoint find (f : ExcelRow -> M bool) (l : list ExcelRow)
  : M (option ExcelRow) :=
  match l with
  | [] => ret None
  | x :: l' => b <- f x ;; if b then ret (Some x) else find f l'
  end.

Section Matcher.

(** The conversion of a number to text is the language's; the matcher is
    modelled for any such conversion. *)
Variable numberToString : number -> jsstring.

(** [String(v)]. *)
Definition ToString (v : value) : jsstring :=
  match v with
  | VUndefined => js "undefined"
  | VNull => js "null"
  | VBoolean true => js "true"
  | VBoolean false => js "false"
  | VNumber n => numberToString n
  | VString s => s
  end.

(** [String(row[k1] || row[k2] || '')]. *)
Definition binText (r : ExcelRow) (k1 k2 : jsstring) : jsstring :=
  ToString (or_else (or_else (get r k1) (get r k2)) (VString [])).

(** The callback given to [data.find]; [&&] evaluates its right operand
    only when the left one is true. *)
Definition rowPredicate (s5Val s10Val s20Val : number) (r : ExcelRow)
  : M bool :=
  let bin5 := binText r (js "s5_now_bin") (js "s5 now bin") in
  let bin10 := binText r (js "s10_now_bin") (js "s10 now bin") in
  let bin20 := binText r (js "s20_now_bin") (js "s20 now bin") in
  b5 <- isValueInInterval s5Val (VString bin5) ;;
  if b5 then
    b10 <- isValueInInterval s10Val (VString bin10) ;;
    if b10 then isValueInInterval s20Val (VString bin20) else ret false
  else ret false.

Definition foundResult (r : ExcelRow) : MatchResult :=
  {| found := true; row := Some r; error := None |}.

Definition notFoundResult : MatchResult :=
  {| found := false; row := None; error := None |}.

Definition findMatch (st : AppState) : M AppState :=
  emit PreventDefault ;;;
  if negb (nonEmpty (s5 (inputs st))) || negb (nonEmpty (s10 (inputs st)))
     || negb (nonEmpty (s20 (inputs st)))
  then ret st
  else
    let s5Val := parseFloat (s5 (inputs st)) in
    let s10Val := parseFloat (s10 (inputs st)) in
    let s20Val := parseFloat (s20 (inputs st)) in
    if isNaN s5Val || isNaN s10Val || isNaN s20Val then
      emit (Alert invalidNumberMessage) ;;;
      ret st
    else
      foundRow <- find (rowPredicate s5Val s10Val s20Val) (data st) ;;
      ret (setMatchResult
             (Some (match foundRow with
                    | Some r => foundResult r
                    | None => notFoundResult
                    end)) st).

End Matcher.

End App.

(** ** The specification's vocabulary

    What the specification says in words, written as definitions: the
    textual grammar of an interval, the decimal a numeral denotes and the
    number it stands for, the two bound tests, the resolution of a field by
    the presence of its keys, and what it is for the predicate to get past
    its format check. *)
Module Spec.
Import JS IntervalParser App.

(** A numeral: an optional sign taken from [signs], digits, an optional
    ['.'] and more digits. *)
Definition numeral (signs : list N) (w : jsstring) : Prop :=
  exists sg ds dt fs,
    w = sg ++ ds ++ dt ++ fs
    /\ (sg = [] \/ exists c, In c signs /\ sg = [c])
    /\ ds <> [] /\ forallb isDigit ds = true
    /\ (dt = [] \/ dt = [46%N])
    /\ forallb isDigit fs = true.

(** The interval grammar on a trimmed string: a bracket, white space, a
    numeral, white space, a comma, white space, a numeral, white space, a
    bracket, and nothing else. *)
Definition intervalGrammar (signs : list N) (s : jsstring) : Prop :=
  exists ob ws1 n1 ws2 ws3 n2 ws4 cb,
    s = [ob] ++ ws1 ++ n1 ++ ws2 ++ [44%N] ++ ws3 ++ n2 ++ ws4 ++ [cb]
    /\ isOpen ob = true /\ isClose cb = true
    /\ forallb isWhiteSpace ws1 = true /\ forallb isWhiteSpace ws2 = true
    /\ forallb isWhiteSpace ws3 = true /\ forallb isWhiteSpace ws4 = true
    /\ numeral signs n1 /\ numeral signs n2.

(** The numeral in the words of the specification: an optional sign,
    digits, and optionally a ['.'] with more digits after it. *)
Definition statedNumeral (w : jsstring) : Prop :=
  exists sg ds fr,
    w = sg ++ ds ++ fr
    /\ (sg = [] \/ sg = [43%N] \/ sg = [45%N])
    /\ ds <> [] /\ forallb isDigit ds = true
    /\ (fr = []
        \/ exists fs, fr = 46%N :: fs /\ fs <> [] /\ forallb isDigit fs = true).

(** The interval grammar in the words of the specification, on a trimmed
    string. *)
Definition statedGrammar (s : jsstring) : Prop :=
  exists ob ws1 n1 ws2 ws3 n2 ws4 cb,
    s = [ob] ++ ws1 ++ n1 ++ ws2 ++ [44%N] ++ ws3 ++ n2 ++ ws4 ++ [cb]
    /\ isOpen ob = true /\ isClose cb = true
    /\ forallb isWhiteSpace ws1 = true /\ forallb isWhiteSpace ws2 = true
    /\ forallb isWhiteSpace ws3 = true /\ forallb isWhiteSpace ws4 = true
    /\ statedNumeral n1 /\ statedNumeral n2.

(** A string is a decimal number: a numeral, with white space around it at
    most. *)
Definition decimalNumber (s : jsstring) : Prop := statedNumeral (trim s).

(** What [parseFloat] needs to read a number: after leading white space and
    an optional sign, the text "Infinity", a digit, or a ['.'] and a
    digit. *)
Definition numericPrefix (s : jsstring) : bool :=
  let u := snd (parseSign (trimStart s)) in
  startsWith (js "Infinity") u
  || match u with
     | c :: r =>
         isDigit c
         || ((c =? 46)%N && match r with d :: _ => isDigit d | [] => false end)
     | [] => false
     end.

(** A decimal numeral by its parts: sign, integer digits and, when there is a
    ['.'], the digits after it (possibly none). *)
Record decimal := {
  negative : bool;
  intDigits : jsstring;
  fracDigits : option jsstring
}.

Definition decimalText (d : decimal) : jsstring :=
  (if negative d then [45%N] else [])
  ++ intDigits d
  ++ match fracDigits d with Some fs => 46%N :: fs | None => [] end.

Definition decimalWf (d : decimal) : bool :=
  nonEmpty (intDigits d) && forallb isDigit (intDigits d)
  && forallb isDigit (default [] (fracDigits d)).

(** The number a decimal denotes: integer part plus fraction, negated under
    a minus sign. *)
Definition decimalValue (d : decimal) : Q :=
  let fs := default [] (fracDigits d) in
  let m := (inject_Z (digitsValue (intDigits d))
            + inject_Z (digitsValue fs) / inject_Z (10 ^ Z.of_nat (length fs)))%Q in
  if negative d then (- m)%Q else m.

(** The number a bound stands for: the number value of the decimal it is
    written as. *)
Definition boundValue (d : decimal) : number := roundDouble (decimalValue d).

(** A bound written as a whole number that a double holds as it is: no
    fraction part, and a magnitude of at most 2^53. *)
Definition exactWhole (d : decimal) : bool :=
  match fracDigits d with
  | None => (digitsValue (intDigits d) <=? 2 ^ 53)%Z
  | Some _ => false
  end.

(** An interval as it is written: the two brackets, the two bounds, and
    the white space the grammar allows around and between them. *)
Record intervalSyntax := {
  leading : jsstring;
  openBracket : N;
  space1 : jsstring;
  lowerBound : decimal;
  space2 : jsstring;
  space3 : jsstring;
  upperBound : decimal;
  space4 : jsstring;
  closeBracket : N;
  trailing : jsstring
}.

Definition intervalText (i : intervalSyntax) : jsstring :=
  leading i ++ [openBracket i] ++ space1 i ++ decimalText (lowerBound i)
    ++ space2 i ++ [44%N] ++ space3 i ++ decimalText (upperBound i)
    ++ space4 i ++ [closeBracket i] ++ trailing i.

Definition intervalWf (i : intervalSyntax) : bool :=
  forallb isWhiteSpace (leading i) && isOpen (openBracket i)
  && forallb isWhiteSpace (space1 i) && decimalWf (lowerBound i)
  && forallb isWhiteSpace (space2 i) && forallb isWhiteSpace (space3 i)
  && decimalWf (upperBound i) && forallb isWhiteSpace (space4 i)
  && isClose (closeBracket i) && forallb isWhiteSpace (trailing i).

(** The bound tests: exclusive at a round bracket, inclusive at a square
    one. *)
Definition lowerTest (ob : N) (v lo : number) : bool :=
  if (ob =? 40)%N then gt v lo else ge v lo.

Definition upperTest (cb : N) (v hi : number) : bool :=
  if (cb =? 41)%N then lt v hi else le v hi.

(** The truth value the predicate returns; an exception counts as false. *)
Definition inInterval (v : number) (s : jsstring) : bool :=
  match fst (isValueInInterval v (VString s)) with
  | Ok b => b
  | Throw _ => false
  end.

(** The predicate gets past its format check on a string: the string is not
    empty and no warning about its format is raised. *)
Definition passesFormatCheck (v : number) (s : jsstring) : Prop :=
  nonEmpty s = true /\ snd (isValueInInterval v (VString s)) = [].

(** Resolution of a field by the presence of its keys: the first key if the
    row has it, else the second if the row has it, else the empty string. *)
Definition resolveByPresence (r : ExcelRow) (k1 k2 : jsstring) : value :=
  match r !! k1 with
  | Some v => v
  | None => match r !! k2 with Some v => v | None => VString [] end
  end.

(** Resolution by truthiness: the first key's cell if it is truthy, else the
    second key's cell if it is truthy, else the empty string. *)
Definition resolveByTruthiness (r : ExcelRow) (k1 k2 : jsstring) : value :=
  match r !! k1 with
  | Some v1 =>
      if truthy v1 then v1
      else match r !! k2 with
           | Some v2 => if truthy v2 then v2 else VString []
           | None => VString []
           end
  | None =>
      match r !! k2 with
      | Some v2 => if truthy v2 then v2 else VString []
      | None => VString []
      end
  end.

(** The three fields, each with its underscore and its space spelling. *)
Definition binKeys : list (jsstring * jsstring) :=
  [ (js "s5_now_bin", js "s5 now bin");
    (js "s10_now_bin", js "s10 now bin");
    (js "s20_now_bin", js "s20 now bin") ].

(** The same row with a field filed under another key. *)
Definition rename (k k' : jsstring) (r : ExcelRow) : ExcelRow :=
  match r !! k with
  | Some v => <[k' := v]> (delete k r)
  | None => r
  end.

(** The row respelled: every underscore-named bin key becomes the
    space-named one. *)
Definition spaceSpelling (r : ExcelRow) : ExcelRow :=
  foldr (fun kk acc => rename (fst kk) (snd kk) acc) r binKeys.

(** An input is missing: one of the three strings is empty. *)
Definition inputsEmpty (i : SearchInputs) : bool :=
  negb (nonEmpty (s5 i)) || negb (nonEmpty (s10 i)) || negb (nonEmpty (s20 i)).

(** An input fails to parse: [parseFloat] gives [NaN] for one of the three
    strings. *)
Definition inputsNaN (i : SearchInputs) : bool :=
  isNaN (parseFloat (s5 i)) || isNaN (parseFloat (s10 i))
  || isNaN (parseFloat (s20 i)).

Section Matcher.
Variable numberToString : number -> jsstring.

(** A row is a match when the three predicate calls all say true. *)
Definition rowOk (v5 v10 v20 : number) (r : ExcelRow) : bool :=
  inInterval v5 (binText numberToString r (js "s5_now_bin") (js "s5 now bin"))
  && inInterval v10
       (binText numberToString r (js "s10_now_bin") (js "s10 now bin"))
  && inInterval v20
       (binText numberToString r (js "s20_now_bin") (js "s20 now bin")).

End Matcher.

End Spec.

(** ** Sample data *)
Module Example.
Import JS IntervalParser App Spec.

(** A row with its three bin columns and a [stat] column. *)
Definition binRow (b5 b10 b20 : string) (stat : Z) : ExcelRow :=
  <[js "s5_now_bin" := VString (js b5)]>
    (<[js "s10_now_bin" := VString (js b10)]>
       (<[js "s20_now_bin" := VString (js b20)]>
          (<[js "stat" := VNumber (Fin (inject_Z stat))]> ∅))).

Definition row1 : ExcelRow := binRow "(-50,-45]" "[0,5)" "(10,20]" 1.
Definition row2 : ExcelRow := binRow "[-45,-40)" "[0,5)" "(10,20]" 2.

(** The component with a data set loaded and the three inputs typed in. *)
Definition loaded (rows : list ExcelRow) (i5 i10 i20 : string) : AppState :=
  {| data := rows; fileName := Some (js "data.xlsx"); isLoading := false;
     isAutoLoaded := true;
     inputs := {| s5 := js i5; s10 := js i10; s20 := js i20 |};
     matchResult := None |}.

(** The same, after an earlier search that found nothing. *)
Definition searched (rows : list ExcelRow) (i5 i10 i20 : string) : AppState :=
  setMatchResult (Some notFoundResult) (loaded rows i5 i10 i20).

(** The interval written "[5, 10.5)". *)
Definition fiveToTen : intervalSyntax :=
  {| leading := []; openBracket := 91; space1 := [];
     lowerBound := {| negative := false; intDigits := js "5";
                      fracDigits := None |};
     space2 := []; space3 := js " ";
     upperBound := {| negative := false; intDigits := js "10";
                      fracDigits := Some (js "5") |};
     space4 := []; closeBracket := 41; trailing := [] |}.


(** A row whose underscore-named [s5] cell is an empty string while the
    space-named one holds an interval. *)
Definition bothSpellings : ExcelRow :=
  <[js "s5_now_bin" := VString []]>
    (<[js "s5 now bin" := VString (js "[0,10]")]>
       (<[js "s10_now_bin" := VString (js "[0,10]")]>
          (<[js "s20_now_bin" := VString (js "[0,10]")]> ∅))).

(** A conversion of numbers to text, for running the matcher on rows whose
    bin cells are strings. *)
Definition noDigits (n : number) : jsstring := [].

End Example.

(** ** Definitions used by the proofs *)
Module Reading.
Import JS Regex IntervalParser Spec.

(** The characters a numeral is made of. *)
Definition isNumChar (c : N) : bool :=
  isDigit c || isChar 45 c || isChar 46 c.

(** [s] is empty or starts with a character outside the class. *)
Definition stops (p : N -> bool) (s : jsstring) : Prop :=
  match s with
  | [] => True
  | c :: _ => p c = false
  end.

(** [sem r n cs w s' cs']: at index [n] with captures [cs], the pattern [r]
    can consume the word [w], leaving [s'] unread and the captures [cs']. *)
Fixpoint sem (r : Regex.regex) (n : nat) (cs : list (option jsstring))
    (w s' : jsstring) (cs' : list (option jsstring)) : Prop :=
  match r with
  | Bol => n = 0%nat /\ w = [] /\ cs' = cs
  | Eol => s' = [] /\ w = [] /\ cs' = cs
  | Class p => (exists c, w = [c] /\ p c = true) /\ cs' = cs
  | Opt p => (w = [] \/ exists c, w = [c] /\ p c = true) /\ cs' = cs
  | Star p => forallb p w = true /\ cs' = cs
  | Plus p => w <> [] /\ forallb p w = true /\ cs' = cs
  | Seq r1 r2 =>
      exists w1 w2 cs1,
        w = w1 ++ w2 /\ sem r1 n cs w1 (w2 ++ s') cs1
        /\ sem r2 (n + length w1) cs1 w2 s' cs'
  | Group i r1 =>
      exists cs1, sem r1 n cs w s' cs1 /\ cs' = <[i := Some w]> cs1
  end.

(** The parts of an interval text, as the grammar names them. *)
Definition intervalParts (ob : N) (ws1 n1 ws2 ws3 n2 ws4 : jsstring) (cb : N)
  : Prop :=
  isOpen ob = true /\ isClose cb = true
  /\ forallb isWhiteSpace ws1 = true /\ forallb isWhiteSpace ws2 = true
  /\ forallb isWhiteSpace ws3 = true /\ forallb isWhiteSpace ws4 = true
  /\ numeral [45%N] n1 /\ numeral [45%N] n2.

(** The string is not empty and the pattern matches it once trimmed: the
    case analysis the proofs about the predicate start from. *)
Definition reachesBoundTests (s : jsstring) : bool :=
  nonEmpty s && bool_decide (is_Some (exec regex 4 (trim s))).

(** Every ['.'] of the string is followed by a digit. *)
Fixpoint noBareDot (s : jsstring) : bool :=
  match s with
  | [] => true
  | c :: r =>
      (if (c =? 46)%N
       then match r with d :: _ => isDigit d | [] => false end
       else true)
      && noBareDot r
  end.

(** The characters a signed numeral is made of. *)
Definition isSignedNumChar (c : N) : bool :=
  isDigit c || isChar 43 c || isChar 45 c || isChar 46 c.

End Reading.

(** ** The other handlers of the component *)
Module Handlers.
Import JS IntervalParser App Spec.

Definition setData (rows : list ExcelRow) (st : AppState) : AppState :=
  {| data := rows; fileName := fileName st; isLoading := isLoading st;
     isAutoLoaded := isAutoLoaded st; inputs := inputs st;
     matchResult := matchResult st |}.

Definition setFileName (name : option jsstring) (st : AppState) : AppState :=
  {| data := data st; fileName := name; isLoading := isLoading st;
     isAutoLoaded := isAutoLoaded st; inputs := inputs st;
     matchResult := matchResult st |}.

Definition setIsAutoLoaded (b : bool) (st : AppState) : AppState :=
  {| data := data st; fileName := fileName st; isLoading := isLoading st;
     isAutoLoaded := b; inputs := inputs st;
     matchResult := matchResult st |}.

Definition setInputs (i : SearchInputs) (st : AppState) : AppState :=
  {| data := data st; fileName := fileName st; isLoading := isLoading st;
     isAutoLoaded := isAutoLoaded st; inputs := i;
     matchResult := matchResult st |}.

(** The keys of [SearchInputs]. *)
Inductive field := s5Field | s10Field | s20Field.

(** The object spread with one key replaced. *)
Definition updateInput (f : field) (value : jsstring) (prev : SearchInputs)
  : SearchInputs :=
  match f with
  | s5Field => {| s5 := value; s10 := s10 prev; s20 := s20 prev |}
  | s10Field => {| s5 := s5 prev; s10 := value; s20 := s20 prev |}
  | s20Field => {| s5 := s5 prev; s10 := s10 prev; s20 := value |}
  end.

Definition noInputs : SearchInputs := {| s5 := []; s10 := []; s20 := [] |}.

Definition handleDataLoaded (loadedData : list ExcelRow) (name : jsstring)
    (st : AppState) : AppState :=
  setMatchResult None
    (setIsAutoLoaded false (setFileName (Some name) (setData loadedData st))).

Definition handleClearFile (st : AppState) : AppState :=
  setInputs noInputs
    (setMatchResult None
       (setIsAutoLoaded false (setFileName None (setData [] st)))).

(** The earlier result is dropped when there is one. *)
Definition handleInputChange (f : field) (value : jsstring) (st : AppState)
  : AppState :=
  let st1 := setInputs (updateInput f value (inputs st)) st in
  match matchResult st with
  | Some _ => setMatchResult None st1
  | None => st1
  end.

(** Whether the submit button is enabled. *)
Definition isFormValid (st : AppState) : bool :=
  nonEmpty (s5 (inputs st)) && nonEmpty (s10 (inputs st))
  && nonEmpty (s20 (inputs st)) && (0 <? length (data st))%nat.

(** The state the component starts in. *)
Definition initial : AppState :=
  {| data := []; fileName := None; isLoading := false;
     isAutoLoaded := false; inputs := noInputs; matchResult := None |}.

(** What the user can do, and the state after it; a submit that threw
    would leave the state as it was. *)
Inductive event :=
| DataLoaded (rows : list ExcelRow) (name : jsstring)
| ClearFile
| InputChange (f : field) (value : jsstring)
| Submit.

Definition step (numberToString : number -> jsstring) (st : AppState)
    (ev : event) : AppState :=
  match ev with
  | DataLoaded rows name => handleDataLoaded rows name st
  | ClearFile => handleClearFile st
  | InputChange f value => handleInputChange f value st
  | Submit =>
      match fst (findMatch numberToString st) with
      | Ok st' => st'
      | Throw _ => st
      end
  end.

End Handlers.

(** ** Vocabulary for the further properties *)
Module Bins.
Import JS Regex IntervalParser App Spec Handlers.

(** A number that is neither [NaN] nor an infinity. *)
Definition isFinite (n : number) : bool :=
  match n with Fin _ => true | _ => false end.

(** Two numbers with the same value: finite numbers are compared as
    rationals, whatever fraction carries them. *)
Definition sameNumber (a b : number) : Prop :=
  match a, b with
  | Fin x, Fin y => (x == y)%Q
  | _, _ => a = b
  end.

(** The characters that can occur in a text the pattern matches. *)
Definition patternChar (c : N) : bool :=
  isOpen c || isClose c || isWhiteSpace c || isDigit c
  || isChar 45 c || isChar 46 c || isChar 44 c.

(** The two bins share a bound: the upper bound of the first and the lower
    bound of the second stand for the same number. *)
Definition adjacent (i j : intervalSyntax) : Prop :=
  boundValue (upperBound i) = boundValue (lowerBound j).

(** The bounds of a cell are finite: the text of the cell is not an
    interval, or neither of its bounds is beyond the range of the doubles. *)
Definition finiteBounds (s : jsstring) : bool :=
  match exec regex 4 (trim s) with
  | Some arr =>
      isFinite (parseFloatOf (element arr 2))
      && isFinite (parseFloatOf (element arr 3))
  | None => true
  end.

Section Matcher.
Variable numberToString : number -> jsstring.

(** What the component shows as result after a submit: the [matchResult] of
    the state [findMatch] ends in. *)
Definition searchResult (st : AppState) : option MatchResult :=
  match fst (findMatch numberToString st) with
  | Ok st' => matchResult st'
  | Throw _ => None
  end.

(** The row the search settles on, and the result made of it. *)
Definition firstOk (st : AppState) : option ExcelRow :=
  List.find (rowOk numberToString (parseFloat (s5 (inputs st)))
               (parseFloat (s10 (inputs st)))
               (parseFloat (s20 (inputs st)))) (data st).

End Matcher.

Definition resultFor (o : option ExcelRow) : MatchResult :=
  match o with Some r => foundResult r | None => notFoundResult end.

Section Fresh.
Variable numberToString : number -> jsstring.

(** A result on display is the result a submit gives on the data set and
    the inputs of the state. *)
Definition fresh (st : AppState) : Prop :=
  forall r, matchResult st = Some r ->
    inputsEmpty (inputs st) = false /\ inputsNaN (inputs st) = false
    /\ searchResult numberToString st = Some r.

End Fresh.

End Bins.

(** ** [ResultDisplay]: what the component shows for a result *)
Module ResultDisplay.
Import JS App.

(** The view, by what it holds: nothing, the panel for no match with its
    message, or the card of a matched row with the labelled interval cells
    of its header and the cells of its statistics grid. *)
Inductive panel :=
| Nothing
| NoMatchFound (message : jsstring)
| MatchedResult (header : list (jsstring * value))
                (statistics : list (jsstring * value)).

Definition defaultMessage : jsstring :=
  js "The input values do not fall into any of the provided bin combinations.".

Definition mainKeys : list jsstring :=
  [js "s5_now_bin"; js "s10_now_bin"; js "s20_now_bin"].

(** [Array.prototype.includes] on strings. *)
Definition includes (ks : list jsstring) (k : jsstring) : bool :=
  existsb (fun x => bool_decide (x = k)) ks.

(** [key.replace(/_/g, ' ')]. *)
Definition replaceUnderscores (key : jsstring) : jsstring :=
  map (fun c => if (c =? 95)%N then 32%N else c) key.

(** [toUpperCase] on the letters a to z; the keys it is applied to have no
    other letters. *)
Definition toUpperCase (s : jsstring) : jsstring :=
  map (fun c => if (97 <=? c)%N && (c <=? 122)%N then (c - 32)%N else c) s.

Definition label (key : jsstring) : jsstring :=
  toUpperCase (replaceUnderscores key).

Section Keys.

(** [Object.keys]: the keys of a row, in the order the object keeps. *)
Variable objectKeys : ExcelRow -> list jsstring.

Definition otherKeys (r : ExcelRow) : list jsstring :=
  List.filter (fun k => negb (includes mainKeys k)) (objectKeys r).

Definition ResultDisplay (result : option MatchResult) : outcome panel :=
  match result with
  | None => Ok Nothing
  | Some result =>
      let errorText := default [] (error result) in
      if negb (found result) || nonEmpty errorText then
        Ok (NoMatchFound
              (if nonEmpty errorText then errorText else defaultMessage))
      else
        match row result with
        | None => Throw TypeError   (* the keys of [undefined] *)
        | Some r =>
            Ok (MatchedResult
                  (map (fun key => (label key, get r key)) mainKeys)
                  (map (fun key => (key, get r key)) (otherKeys r)))
        end
  end.

End Keys.

End ResultDisplay.

(** ** The component in its upload-only version *)
Module UploadApp.
Import JS IntervalParser App.

Definition uploadFirstMessage : jsstring :=
  js "Please upload an Excel file first.".

Definition invalidNumbersMessage : jsstring :=
  js "Please enter valid numbers for all fields.".

Section Matcher.
Variable numberToString : number -> jsstring.

Definition findMatch (st : AppState) : M AppState :=
  emit PreventDefault ;;;
  if negb (nonEmpty (s5 (inputs st))) || negb (nonEmpty (s10 (inputs st)))
     || negb (nonEmpty (s20 (inputs st)))
  then ret st
  else if (length (data st) =? 0)%nat then
    emit (Alert uploadFirstMessage) ;;;
    ret st
  else
    let s5Val := parseFloat (s5 (inputs st)) in
    let s10Val := parseFloat (s10 (inputs st)) in
    let s20Val := parseFloat (s20 (inputs st)) in
    if isNaN s5Val || isNaN s10Val || isNaN s20Val then
      emit (Alert invalidNumbersMessage) ;;;
      ret st
    else
      foundRow <- find (rowPredicate numberToString s5Val s10Val s20Val)
                    (data st) ;;
      match foundRow with
      | Some r => ret (setMatchResult (Some (foundResult r)) st)
      | None => ret (setMatchResult (Some notFoundResult) st)
      end.

End Matcher.

End UploadApp.

(** ** The loader of the component in its version with a signature check *)
Module Loader.
Import JS App Handlers.

(** The state of that version: the state of the component, the load error
    and the log lines on display. *)
Record LoaderState := {
  app : AppState;
  loadError : option jsstring;
  debugInfo : list jsstring
}.

Inductive effect :=
| ConsoleError (what : jsstring) (message : jsstring)
| Alert (message : jsstring).

(** How a call ends: it returns a boolean or throws an error with a
    message. *)
Inductive completion :=
| Returned (b : bool)
| Thrown (message : jsstring).

(** A workbook as the reader hands it over: the names of its sheets and the
    sheets by name. *)
Record workbook (sheet : Type) := {
  SheetNames : list jsstring;
  Sheets : gmap jsstring sheet
}.
Arguments SheetNames {sheet} w.
Arguments Sheets {sheet} w.

(** The messages, in order: the file is too small; the signature check
    failed, with the header in brackets; the notes on a Git LFS pointer and
    on an HTML page; no sheet; no rows; an error without message; and the
    prefix of the alert. *)
Definition fileTooSmall : jsstring :=
  [25991; 20214; 22826; 23567; 65292; 19981; 26159; 26377; 25928; 30340; 32;
   69; 120; 99; 101; 108; 32; 25991; 20214]%N.
Definition headerCheckFailed : jsstring :=
  [25991; 20214; 22836; 26657; 39564; 22833; 36133; 58; 32; 91]%N.
Definition gitLfsNote : jsstring :=
  [32; 40; 26816; 27979; 21040; 32; 71; 105; 116; 32; 76; 70; 83; 32; 25351;
   38024; 25991; 20214; 65292; 32780; 38750; 30495; 23454; 25991; 20214;
   41]%N.
Definition htmlNote : jsstring :=
  [32; 40; 26816; 27979; 21040; 32; 72; 84; 77; 76; 32; 20869; 23481; 65292;
   21487; 33021; 26159; 32; 52; 48; 52; 32; 39029; 38754; 41]%N.
Definition noSheets : jsstring :=
  [69; 120; 99; 101; 108; 27809; 26377; 24037; 20316; 34920]%N.
Definition emptyData : jsstring := [25968; 25454; 20026; 31354]%N.
Definition unknownError : jsstring := [26410; 30693; 38169; 35823]%N.
Definition parseFailed : jsstring :=
  [35299; 26512; 22833; 36133; 58; 32]%N.

(** *** [getHexHeader] *)

Definition hexDigit (d : N) : N := if (d <? 10)%N then (48 + d)%N else (87 + d)%N.

Fixpoint digits16 (fuel : nat) (n : N) (acc : jsstring) : jsstring :=
  match fuel with
  | O => acc
  | S f =>
      if (n =? 0)%N then acc
      else digits16 f (n / 16)%N (hexDigit (n mod 16)%N :: acc)
  end.

(** [b.toString(16)] for a natural number. *)
Definition toString16 (n : N) : jsstring :=
  if (n =? 0)%N then [48%N] else digits16 (N.to_nat (N.size n)) n [].

(** [s.padStart(len, c)] with a one-character filler. *)
Definition padStart (len : nat) (c : N) (s : jsstring) : jsstring :=
  repeat c (len - length s) ++ s.

(** [parts.join(sep)]. *)
Fixpoint join (sep : jsstring) (parts : list jsstring) : jsstring :=
  match parts with
  | [] => []
  | [p] => p
  | p :: ps => p ++ sep ++ join sep ps
  end.

Definition getHexHeader (u8 : list N) (length : nat) : jsstring :=
  join (js " ")
    (map (fun b => ResultDisplay.toUpperCase (padStart 2 48 (toString16 b)))
       (take length u8)).

(** *** [parseExcelData] *)

(** [s.includes(sub)]. *)
Fixpoint includes (sub s : jsstring) : bool :=
  startsWith sub s
  || match s with
     | [] => false
     | _ :: s' => includes sub s'
     end.

Definition isZip (dataArr : list N) : bool :=
  bool_decide (dataArr !! 0%nat = Some 80%N)
  && bool_decide (dataArr !! 1%nat = Some 75%N)
  && bool_decide (dataArr !! 2%nat = Some 3%N)
  && bool_decide (dataArr !! 3%nat = Some 4%N).

Definition isOle (dataArr : list N) : bool :=
  bool_decide (dataArr !! 0%nat = Some 208%N)
  && bool_decide (dataArr !! 1%nat = Some 207%N)
  && bool_decide (dataArr !! 2%nat = Some 17%N)
  && bool_decide (dataArr !! 3%nat = Some 224%N).

Definition setApp (a : AppState) (st : LoaderState) : LoaderState :=
  {| app := a; loadError := loadError st; debugInfo := debugInfo st |}.

Definition setLoadError (e : option jsstring) (st : LoaderState)
  : LoaderState :=
  {| app := app st; loadError := e; debugInfo := debugInfo st |}.

Section Reader.

(** The spreadsheet library and the text decoder are the environment's:
    [read] and [sheet_to_json] give a value or throw an error with a
    message ([inl]). *)
Variable sheet : Type.
Variable read : list N -> jsstring + workbook sheet.
Variable sheet_to_json : option sheet -> jsstring + list ExcelRow.
Variable utf8Decode : list N -> jsstring.

(** The body of the [try]: the rows to load, or the message of the error
    thrown on the way. *)
Definition tryBlock (dataArr : list N) : jsstring + list ExcelRow :=
  if (length dataArr <? 4)%nat then inl fileTooSmall
  else
    let header := getHexHeader dataArr 4 in
    if negb (isZip dataArr) && negb (isOle dataArr) then
      let startText := utf8Decode (take 50 dataArr) in
      let errorMsg := headerCheckFailed ++ header ++ js "]" in
      inl (if includes (js "version https://git-lfs") startText
           then errorMsg ++ gitLfsNote
           else if startsWith (js "<!DOCTYPE") (trim startText)
                   || includes (js "<html") startText
                then errorMsg ++ htmlNote
                else errorMsg)
    else
      match read dataArr with
      | inl message => inl message
      | inr wb =>
          match SheetNames wb with
          | [] => inl noSheets
          | wsname :: _ =>
              match sheet_to_json (Sheets wb !! wsname) with
              | inl message => inl message
              | inr jsonData =>
                  match jsonData with
                  | [] => inl emptyData
                  | _ :: _ => inr jsonData
                  end
              end
          end
      end.

Definition parseExcelData (buffer : list N) (name : jsstring) (auto : bool)
    (st : LoaderState) : completion * LoaderState * list effect :=
  match tryBlock buffer with
  | inr jsonData =>
      (Returned true,
       setLoadError None
         (setApp (setMatchResult None
                    (setIsAutoLoaded auto
                       (setFileName (Some name)
                          (setData jsonData (app st))))) st),
       [])
  | inl message =>
      let msg := if nonEmpty message then message else unknownError in
      if auto then
        (Thrown msg, st, [ConsoleError (js "Error parsing excel") message])
      else
        (Returned false, st,
         [ConsoleError (js "Error parsing excel") message;
          Alert (parseFailed ++ msg)])
  end.

End Reader.

(** The bytes a hex header stands for. *)
Definition hexValue (c : N) : N :=
  if (c <? 58)%N then (c - 48)%N else (c - 55)%N.

Fixpoint decodeHexHeader (s : jsstring) : list N :=
  match s with
  | h :: l :: rest =>
      (16 * hexValue h + hexValue l)%N
        :: match rest with
           | _ :: rest' => decodeHexHeader rest'
           | [] => []
           end
  | _ => []
  end.

(** One byte of the header, and the check that its two digits read back
    as the byte. *)
Definition formatByte (b : N) : jsstring :=
  ResultDisplay.toUpperCase (padStart 2 48 (toString16 b)).

Definition byteRoundTrips (b : N) : bool :=
  match formatByte b with
  | [h; l] =>
      (16 * hexValue h + hexValue l =? b)%N
      && negb (h =? 32)%N && negb (l =? 32)%N
  | _ => false
  end.

End Loader.

(** ** More sample data *)
Module Samples.
Import JS IntervalParser App Spec Handlers Loader.

Definition whole (neg : bool) (digits : string) : decimal :=
  {| negative := neg; intDigits := js digits; fracDigits := None |}.

Definition bin (ob : N) (lo hi : decimal) (cb : N) : intervalSyntax :=
  {| leading := []; openBracket := ob; space1 := []; lowerBound := lo;
     space2 := []; space3 := []; upperBound := hi; space4 := [];
     closeBracket := cb; trailing := [] |}.

(** The bins written "(-50,-45]", "[-45,-40)" and "(-45,-40]". *)
Definition low : intervalSyntax := bin 40 (whole true "50") (whole true "45") 93.
Definition midClosed : intervalSyntax :=
  bin 91 (whole true "45") (whole true "40") 41.
Definition midOpen : intervalSyntax :=
  bin 40 (whole true "45") (whole true "40") 93.

(** The first bin once more, written " ( -50.0 , -045.00 ] ". *)
Definition lowSpacedOut : intervalSyntax :=
  {| leading := js " "; openBracket := 40; space1 := js " ";
     lowerBound := {| negative := true; intDigits := js "50";
                      fracDigits := Some (js "0") |};
     space2 := js " "; space3 := js " ";
     upperBound := {| negative := true; intDigits := js "045";
                      fracDigits := Some (js "00") |};
     space4 := js " "; closeBracket := 93; trailing := js " " |}.

(** A numeral of 310 digits, beyond the range of the doubles, and the bin
    closed at it, written "[0,1000...0]". *)
Definition beyondRange : decimal :=
  {| negative := false; intDigits := 49%N :: repeat 48%N 309;
     fracDigits := None |}.

Definition unbounded : intervalSyntax := bin 91 (whole false "0") beyondRange 93.

(** The bin written "[0.49999999999999999,0.5]": its two bounds stand for
    the same double. *)
Definition half : intervalSyntax :=
  bin 91
    {| negative := false; intDigits := js "0";
       fracDigits := Some (js "49999999999999999") |}
    {| negative := false; intDigits := js "0"; fracDigits := Some (js "5") |}
    93.

(** A row without an [s20] column under either name. *)
Definition noS20 : ExcelRow :=
  <[js "s5_now_bin" := VString (js "[0,10]")]>
    (<[js "s10_now_bin" := VString (js "[0,10]")]> ∅).

(** A row with space-named columns only. *)
Definition spaceNamed : ExcelRow :=
  <[js "s5 now bin" := VString (js "[0,10]")]>
    (<[js "s10 now bin" := VString (js "[0,10]")]>
       (<[js "s20 now bin" := VString (js "[0,10]")]> ∅)).

(** The keys of a row as the finite map lists them. *)
Definition keysOf (r : ExcelRow) : list jsstring := (map_to_list r).*1.

(** A session: a file is loaded, the three inputs are typed, the form is
    submitted. *)
Definition session : list event :=
  [ DataLoaded [Example.row1; Example.row2] (js "data.xlsx");
    InputChange s5Field (js "-44");
    InputChange s10Field (js "2");
    InputChange s20Field (js "15");
    Submit ].

(** The first bytes of an HTML page, and a reader and a decoder that are
    never consulted for them. *)
Definition htmlBytes : list N := [60; 104; 116; 109; 108; 62]%N.

Definition noReader (b : list N) : jsstring + workbook unit := inl [].
Definition noSheetReader (o : option unit) : jsstring + list ExcelRow := inl [].
Definition latin1 (b : list N) : jsstring := b.

Definition noLoad : LoaderState :=
  {| app := initial; loadError := None; debugInfo := [] |}.

End Samples.

Import JS Regex IntervalParser App Spec Reading.

(** * Properties of the run-time and of the pattern *)

(** ** Character classes *)

(** Turns the tests of the character classes into arithmetic. *)
Ltac classes :=
  unfold isNumChar, isWhiteSpace, isDigit, isOpen, isClose, isChar in *;
  repeat progress
    rewrite ?andb_true_iff, ?orb_true_iff, ?andb_false_iff, ?orb_false_iff,
      ?N.eqb_eq, ?N.eqb_neq, ?N.leb_le, ?N.leb_gt in *;
  lia.

Lemma digit_numchar c : isDigit c = true -> isNumChar c = true.
Proof. classes. Qed.

Lemma numchar_not_space c : isNumChar c = true -> isWhiteSpace c = false.
Proof. classes. Qed.

Lemma space_not_numchar c : isWhiteSpace c = true -> isNumChar c = false.
Proof. classes. Qed.

Lemma open_not_space c : isOpen c = true -> isWhiteSpace c = false.
Proof. classes. Qed.

Lemma close_not_space c : isClose c = true -> isWhiteSpace c = false.
Proof. classes. Qed.

Lemma close_not_numchar c : isClose c = true -> isNumChar c = false.
Proof. classes. Qed.

Lemma comma_not_space : isWhiteSpace 44 = false.
Proof. reflexivity. Qed.

Lemma comma_not_numchar : isNumChar 44 = false.
Proof. reflexivity. Qed.

(** ** Prefixes of a class *)

Lemma span_app p a b :
  forallb p a = true -> stops p b -> span p (a ++ b) = (a, b).
Proof.
  induction a as [|c a IH]; simpl; intros Ha Hb.
  - destruct b as [|c b]; simpl in *; [reflexivity|]. now rewrite Hb.
  - apply andb_true_iff in Ha as [Hc Ha]. rewrite Hc, IH; auto.
Qed.

Lemma span_all p a : forallb p a = true -> span p a = (a, []).
Proof.
  intros Ha. rewrite <- (app_nil_r a) at 1. now apply span_app.
Qed.

(** A string splits in one way only into a run of a class and a rest that
    stops the run. *)
Lemma split_unique p a b a' b' :
  forallb p a = true -> stops p b ->
  forallb p a' = true -> stops p b' ->
  a ++ b = a' ++ b' -> a = a' /\ b = b'.
Proof.
  intros Ha Hb Ha' Hb' E.
  pose proof (span_app p a b Ha Hb) as E1.
  pose proof (span_app p a' b' Ha' Hb') as E2.
  rewrite E in E1. rewrite E1 in E2. now inversion E2.
Qed.

(** ** [trim] *)

Lemma trimStart_app pre s :
  forallb isWhiteSpace pre = true -> trimStart (pre ++ s) = trimStart s.
Proof.
  induction pre as [|c pre IH]; simpl; intros H; [reflexivity|].
  apply andb_true_iff in H as [Hc H]. rewrite Hc. auto.
Qed.

Lemma trimStart_stops s : stops isWhiteSpace s -> trimStart s = s.
Proof. destruct s as [|c s]; simpl; intros H; [reflexivity|]. now rewrite H. Qed.

Lemma forallb_rev (p : N -> bool) l : forallb p (rev l) = forallb p l.
Proof.
  induction l as [|c l IH]; simpl; [reflexivity|].
  rewrite forallb_app, IH. simpl. rewrite andb_true_r. apply andb_comm.
Qed.

(** White space around a core that neither starts nor ends with white space
    is what [trim] removes. *)
Lemma trim_core pre a mid z post :
  forallb isWhiteSpace pre = true -> forallb isWhiteSpace post = true ->
  isWhiteSpace a = false -> isWhiteSpace z = false ->
  trim (pre ++ (a :: mid ++ [z]) ++ post) = a :: mid ++ [z].
Proof.
  intros Hpre Hpost Ha Hz. unfold trim, trimEnd.
  rewrite trimStart_app by assumption.
  rewrite (trimStart_stops ((a :: mid ++ [z]) ++ post)) by exact Ha.
  rewrite rev_app_distr, trimStart_app by now rewrite forallb_rev.
  change (a :: mid ++ [z]) with ((a :: mid) ++ [z]).
  rewrite (rev_app_distr (a :: mid)). simpl app at 1.
  rewrite (trimStart_stops (z :: _)) by exact Hz.
  simpl. rewrite rev_app_distr. simpl. now rewrite rev_involutive.
Qed.

(** ** The matcher against a declarative reading of the pattern *)

Lemma in_class p st st' :
  In st' (class p st) <->
  exists c, rest st = c :: rest st' /\ p c = true
            /\ pos st' = S (pos st) /\ caps st' = caps st.
Proof.
  unfold class. destruct st as [n s cs], st' as [n' s' cs']; simpl.
  destruct s as [|c s]; simpl.
  - split; [tauto|]. intros (c & E & _). discriminate.
  - destruct (p c) eqn:Hc; simpl.
    + split.
      * intros [E|[]]. inversion E; subst. eauto.
      * intros (c' & E & Hc' & -> & ->). inversion E; subst. auto.
    + split; [tauto|]. intros (c' & E & Hc' & _). inversion E; subst.
      congruence.
Qed.

Lemma in_star p s : forall n cs st',
  In st' (star p n s cs) <->
  exists w, s = w ++ rest st' /\ forallb p w = true
            /\ pos st' = (n + length w)%nat /\ caps st' = cs.
Proof.
  induction s as [|c s IH]; intros n cs [n' s' cs']; simpl.
  - split.
    + intros [E|[]]. inversion E; subst. exists []. simpl. auto with lia.
    + intros (w & E & _ & Hn & Hc). destruct w; [|discriminate].
      simpl in *. left. subst. f_equal; lia.
  - assert (Hstay : forall st', MState n (c :: s) cs = st' <->
              exists w, c :: s = w ++ rest st' /\ w = []
                        /\ pos st' = (n + length w)%nat /\ caps st' = cs).
    { intros [n1 s1 cs1]; simpl. split.
      - intros E. inversion E; subst. exists []. simpl. auto with lia.
      - intros (w & E & -> & Hn & Hc). simpl in *. subst. f_equal; lia. }
    destruct (p c) eqn:Hc.
    + rewrite in_app_iff, IH. simpl. rewrite (Hstay (MState n' s' cs')).
      simpl. split.
      * intros [(w & E & Hw & Hn & Hcs)|[(w & E & -> & Hn & Hcs)|[]]].
        -- exists (c :: w). simpl. rewrite Hc, Hw, E. auto with lia.
        -- exists []. simpl in *. auto.
      * intros (w & E & Hw & Hn & Hcs). destruct w as [|c' w].
        -- right. left. exists []. auto.
        -- left. simpl in *. inversion E; subst.
           apply andb_true_iff in Hw as [_ Hw]. exists w. auto with lia.
    + simpl. rewrite (Hstay (MState n' s' cs')). simpl. split.
      * intros [(w & E & -> & Hn & Hcs)|[]]. exists []. auto.
      * intros (w & E & Hw & Hn & Hcs). left. destruct w as [|c' w].
        -- exists []. auto.
        -- simpl in *. inversion E; subst. rewrite Hc in Hw. discriminate.
Qed.

(** The matcher ends in exactly the states the declarative reading
    allows. *)
Theorem run_sem r : forall n s cs st',
  In st' (run r (MState n s cs)) <->
  exists w, s = w ++ rest st' /\ pos st' = (n + length w)%nat
            /\ sem r n cs w (rest st') (caps st').
Proof.
  induction r as [| |p|p|p|p|r1 IH1 r2 IH2|i r IH]; intros n s cs st'; simpl.
  - (* Bol *)
    destruct (Nat.eqb_spec n 0); simpl.
    + split.
      * intros [<-|[]]. exists []. simpl. auto with lia.
      * intros (w & E & Hn & _ & -> & Hc). left. destruct st'; simpl in *.
        subst. f_equal; lia.
    + split; [tauto|]. intros (w & _ & _ & Hn & _). contradiction.
  - (* Eol *)
    destruct s as [|c s]; simpl.
    + split.
      * intros [<-|[]]. exists []. simpl. auto with lia.
      * intros (w & E & Hn & _ & -> & Hc). left. destruct st'; simpl in *.
        subst. f_equal; lia.
    + split; [tauto|]. intros (w & E & _ & Hr & -> & _). rewrite Hr in E.
      discriminate.
  - (* Class *)
    rewrite in_class. simpl. split.
    + intros (c & E & Hc & Hn & Hcs). exists [c]. simpl. eauto 10 with lia.
    + intros (w & E & Hn & (c & -> & Hc) & Hcs). exists c. simpl in *.
      auto with lia.
  - (* Opt *)
    rewrite in_app_iff, in_class. simpl. split.
    + intros [(c & E & Hc & Hn & Hcs)|[<-|[]]].
      * exists [c]. simpl. eauto 10 with lia.
      * exists []. simpl. auto with lia.
    + intros (w & E & Hn & [->|(c & -> & Hc)] & Hcs).
      * right. left. destruct st'; simpl in *. subst. f_equal; lia.
      * left. exists c. simpl in *. auto with lia.
  - (* Star *)
    rewrite in_star. split.
    + intros (w & E & Hw & Hn & Hcs). eauto.
    + intros (w & E & Hn & Hw & Hcs). eauto.
  - (* Plus *)
    rewrite in_flat_map. split.
    + intros (st1 & H1 & H2). apply in_class in H1. apply in_star in H2.
      simpl in *. destruct H1 as (c & E1 & Hc & Hn1 & Hcs1).
      destruct H2 as (w & E2 & Hw & Hn2 & Hcs2).
      exists (c :: w). simpl. rewrite Hc, Hw, E1, E2.
      repeat split; auto with lia. congruence.
    + intros (w & E & Hn & Hne & Hw & Hcs). destruct w as [|c w]; [easy|].
      simpl in *. apply andb_true_iff in Hw as [Hc Hw].
      exists (MState (S n) (w ++ rest st') cs). split.
      * apply in_class. exists c. simpl. auto.
      * apply in_star. exists w. simpl. auto with lia.
  - (* Seq *)
    rewrite in_flat_map. split.
    + intros ([n1 s1 cs1] & H1 & H2). apply IH1 in H1. apply IH2 in H2.
      simpl in *. destruct H1 as (w1 & E1 & Hn1 & S1).
      destruct H2 as (w2 & E2 & Hn2 & S2).
      exists (w1 ++ w2). rewrite length_app, <- app_assoc, <- E2.
      repeat split; auto with lia.
      exists w1, w2, cs1. rewrite <- E2, <- Hn1. auto.
    + intros (w & E & Hn & w1 & w2 & cs1 & -> & S1 & S2).
      exists (MState (n + length w1) (w2 ++ rest st') cs1). split.
      * apply IH1. exists w1. simpl. rewrite <- app_assoc in E. auto.
      * apply IH2. exists w2. simpl. rewrite length_app in Hn.
        auto with lia.
  - (* Group *)
    rewrite in_map_iff. split.
    + intros (st1 & <- & H1). apply IH in H1.
      destruct H1 as (w & E & Hn & S1). exists w. unfold capture. simpl.
      repeat split; auto. exists (caps st1). split; [assumption|].
      rewrite Hn, E. replace (n + length w - n)%nat with (length w) by lia.
      now rewrite take_app_length.
    + intros (w & E & Hn & cs1 & S1 & Hcs).
      exists (MState (pos st') (rest st') cs1). split.
      * unfold capture. simpl. destruct st' as [n' s' cs']; simpl in *.
        f_equal. rewrite Hcs, Hn, E.
        replace (n + length w - n)%nat with (length w) by lia.
        now rewrite take_app_length.
      * apply IH. exists w. simpl. auto.
Qed.

(** ** The interval pattern *)

Lemma sem_number n cs w s' cs' :
  sem numberRe n cs w s' cs' <-> numeral [45%N] w /\ cs' = cs.
Proof.
  unfold numberRe, numeral. simpl. split.
  - intros (w1 & w2 & cs1 & -> & (Hs & ->) & w3 & w4 & cs2 & -> &
            (Hne & Hd & ->) & w5 & w6 & cs3 & -> & (Hdot & ->) & Hf & ->).
    split; [|reflexivity]. exists w1, w3, w5, w6. repeat split; auto.
    + destruct Hs as [->|(c & -> & Hc)]; [now left|right].
      exists c. split; [|reflexivity]. left. unfold isChar in Hc.
      symmetry. now apply N.eqb_eq.
    + destruct Hdot as [->|(c & -> & Hc)]; [now left|right].
      unfold isChar in Hc. apply N.eqb_eq in Hc. now subst.
  - intros ((sg & ds & dt & fs & -> & Hs & Hne & Hd & Hdot & Hf) & ->).
    exists sg, (ds ++ dt ++ fs), cs. repeat split; auto.
    + destruct Hs as [->|(c & [<-|[]] & ->)]; [now left|right].
      exists 45%N. auto.
    + exists ds, (dt ++ fs), cs. repeat split; auto.
      exists dt, fs, cs. repeat split; auto.
      destruct Hdot as [->| ->]; [now left|right]. exists 46%N. auto.
Qed.

Lemma numeral_numchars w :
  numeral [45%N] w ->
  forallb isNumChar w = true /\ exists c w', w = c :: w'.
Proof.
  intros (sg & ds & dt & fs & -> & Hs & Hne & Hd & Hdot & Hf).
  assert (Hdn : forall l, forallb isDigit l = true ->
                          forallb isNumChar l = true).
  { intros l Hl. apply forallb_forall. intros c Hc.
    apply digit_numchar. eapply forallb_forall in Hl; eauto. }
  split.
  - rewrite !forallb_app, (Hdn ds Hd), (Hdn fs Hf).
    destruct Hs as [->|(c & [<-|[]] & ->)], Hdot as [->| ->]; reflexivity.
  - destruct Hs as [->|(c & _ & ->)]; simpl; eauto.
    destruct ds as [|d ds]; [easy|]. simpl. eauto.
Qed.

(** The declarative reading of the whole pattern: it matches only from index
    0 and up to the end of the input, the input is an interval text, and the
    four groups capture the two brackets and the two numerals. *)
Lemma sem_regex n cs w s' cs' :
  sem regex n cs w s' cs' <->
  n = 0%nat /\ s' = [] /\
  exists ob ws1 n1 ws2 ws3 n2 ws4 cb,
    w = [ob] ++ ws1 ++ n1 ++ ws2 ++ [44%N] ++ ws3 ++ n2 ++ ws4 ++ [cb]
    /\ intervalParts ob ws1 n1 ws2 ws3 n2 ws4 cb
    /\ cs' = <[4%nat := Some [cb]]> (<[3%nat := Some n2]>
               (<[2%nat := Some n1]> (<[1%nat := Some [ob]]> cs))).
Proof.
  unfold regex, intervalParts.
  cbn [sem]. split.
  - intros (w0 & x1 & c0 & -> & (-> & -> & ->) &
            w1 & x2 & c1 & -> & (c1' & ((ob & -> & Hob) & ->) & ->) &
            w2 & x3 & c2 & -> & (Hw2 & ->) &
            w3 & x4 & c3 & -> & (c3' & Hn1 & ->) &
            w4 & x5 & c4 & -> & (Hw4 & ->) &
            w5 & x6 & c5 & -> & ((cm & -> & Hcm) & ->) &
            w6 & x7 & c6 & -> & (Hw6 & ->) &
            w7 & x8 & c7 & -> & (c7' & Hn2 & ->) &
            w8 & x9 & c8 & -> & (Hw8 & ->) &
            w9 & x10 & c9 & -> & (c9' & ((cb & -> & Hcb) & ->) & ->) &
            (-> & -> & ->)).
    apply sem_number in Hn1 as [Hn1 ->]. apply sem_number in Hn2 as [Hn2 ->].
    unfold isChar in Hcm. apply N.eqb_eq in Hcm. subst cm.
    repeat split; auto.
    exists ob, w2, w3, w4, w6, w7, w8, cb. simpl.
    repeat split; auto.
  - intros (-> & -> & ob & ws1 & n1 & ws2 & ws3 & n2 & ws4 & cb & -> &
            (Hob & Hcb & H1 & H2 & H3 & H4 & Hn1 & Hn2) & ->).
    exists [], ([ob] ++ ws1 ++ n1 ++ ws2 ++ [44%N] ++ ws3 ++ n2 ++ ws4 ++ [cb]), cs.
    split; [reflexivity|]. split; [auto|].
    eexists [ob], _, _. split; [reflexivity|]. split.
    { eexists. split; [|reflexivity]. split; [eauto|reflexivity]. }
    eexists ws1, _, _. split; [reflexivity|]. split; [auto|].
    eexists n1, _, _. split; [reflexivity|]. split.
    { eexists. split; [|reflexivity]. apply sem_number. auto. }
    eexists ws2, _, _. split; [reflexivity|]. split; [auto|].
    eexists [44%N], _, _. split; [reflexivity|]. split.
    { split; [eauto|reflexivity]. }
    eexists ws3, _, _. split; [reflexivity|]. split; [auto|].
    eexists n2, _, _. split; [reflexivity|]. split.
    { eexists. split; [|reflexivity]. apply sem_number. auto. }
    eexists ws4, _, _. split; [reflexivity|]. split; [auto|].
    eexists [cb], [], _. split; [reflexivity|]. split.
    { eexists. split; [|reflexivity]. split; [eauto|reflexivity]. }
    auto.
Qed.

(** An interval text has its parts in one way only. *)
Lemma intervalParts_unique ob ws1 n1 ws2 ws3 n2 ws4 cb
      ob' ws1' n1' ws2' ws3' n2' ws4' cb' :
  intervalParts ob ws1 n1 ws2 ws3 n2 ws4 cb ->
  intervalParts ob' ws1' n1' ws2' ws3' n2' ws4' cb' ->
  [ob] ++ ws1 ++ n1 ++ ws2 ++ [44%N] ++ ws3 ++ n2 ++ ws4 ++ [cb]
  = [ob'] ++ ws1' ++ n1' ++ ws2' ++ [44%N] ++ ws3' ++ n2' ++ ws4' ++ [cb'] ->
  ob = ob' /\ n1 = n1' /\ n2 = n2' /\ cb = cb'.
Proof.
  intros (Hob & Hcb & H1 & H2 & H3 & H4 & Hn1 & Hn2)
         (Hob' & Hcb' & H1' & H2' & H3' & H4' & Hn1' & Hn2') E.
  apply numeral_numchars in Hn1 as [Hc1 (a1 & t1 & E1)].
  apply numeral_numchars in Hn2 as [Hc2 (a2 & t2 & E2)].
  apply numeral_numchars in Hn1' as [Hc1' (a1' & t1' & E1')].
  apply numeral_numchars in Hn2' as [Hc2' (a2' & t2' & E2')].
  assert (Hhead : forall (a : N) t, forallb isNumChar (a :: t) = true ->
                                    isWhiteSpace a = false).
  { intros a t H. simpl in H. apply andb_true_iff in H as [H _].
    now apply numchar_not_space. }
  assert (Hstop : forall ws (c : N) r, forallb isWhiteSpace ws = true ->
                    isNumChar c = false -> stops isNumChar (ws ++ c :: r)).
  { intros [|x ws] c r Hws Hc; simpl; [exact Hc|].
    simpl in Hws. apply andb_true_iff in Hws as [Hx _].
    now apply space_not_numchar. }
  simpl in E. inversion E as [[Eob E0]]. clear E.
  apply (split_unique isWhiteSpace) in E0 as [-> E0]; auto;
    try (subst; simpl; eapply Hhead; subst; eassumption).
  apply (split_unique isNumChar) in E0 as [-> E0]; auto;
    try (apply Hstop; auto using comma_not_numchar).
  apply (split_unique isWhiteSpace) in E0 as [-> E0]; auto;
    try exact comma_not_space.
  inversion E0 as [E3]. clear E0.
  apply (split_unique isWhiteSpace) in E3 as [-> E3]; auto;
    try (subst; simpl; eapply Hhead; subst; eassumption).
  apply (split_unique isNumChar) in E3 as [-> E3]; auto;
    try (apply Hstop; auto using close_not_numchar).
  apply (split_unique isWhiteSpace) in E3 as [-> E3]; auto;
    try (simpl; auto using close_not_space).
  inversion E3. auto.
Qed.

(** ** [exec] on the interval pattern *)

Lemma matchAt_regex_pos n s : n <> 0%nat -> matchAt regex 4 n s = None.
Proof.
  intros Hn. unfold matchAt, regex. cbn [run pos].
  destruct (Nat.eqb_spec n 0); [contradiction|]. reflexivity.
Qed.

Lemma firstMatch_regex_pos s starts :
  Forall (fun n => n <> 0%nat) starts -> firstMatch regex 4 s starts = None.
Proof.
  induction 1 as [|n ns Hn _ IH]; simpl; [reflexivity|].
  now rewrite matchAt_regex_pos.
Qed.

(** The start anchor leaves index 0 as the only start that can match. *)
Lemma exec_regex s : exec regex 4 s = matchAt regex 4 0 s.
Proof.
  unfold exec. cbn [seq firstMatch].
  destruct (matchAt regex 4 0 s); [reflexivity|].
  apply firstMatch_regex_pos. apply Forall_forall. intros n Hn.
  apply list_elem_of_In, in_seq in Hn. lia.
Qed.

Lemma run_regex_state s st :
  In st (run regex (MState 0 s (replicate 5 None))) <->
  exists ob ws1 n1 ws2 ws3 n2 ws4 cb,
    s = [ob] ++ ws1 ++ n1 ++ ws2 ++ [44%N] ++ ws3 ++ n2 ++ ws4 ++ [cb]
    /\ intervalParts ob ws1 n1 ws2 ws3 n2 ws4 cb
    /\ st = MState (length s) []
              [None; Some [ob]; Some n1; Some n2; Some [cb]].
Proof.
  rewrite run_sem. split.
  - intros (w & E & Hn & Hsem). apply sem_regex in Hsem.
    destruct Hsem as (_ & Hr & ob & ws1 & n1 & ws2 & ws3 & n2 & ws4 & cb &
                      Hw & Hp & Hcs).
    rewrite Hr, app_nil_r in E. subst w.
    exists ob, ws1, n1, ws2, ws3, n2, ws4, cb.
    split; [assumption|]. split; [assumption|].
    destruct st as [n' s' cs']. simpl in *. subst. reflexivity.
  - intros (ob & ws1 & n1 & ws2 & ws3 & n2 & ws4 & cb & E & Hp & ->).
    exists s. simpl. rewrite app_nil_r.
    split; [reflexivity|]. split; [reflexivity|].
    apply sem_regex. split; [reflexivity|]. split; [reflexivity|].
    exists ob, ws1, n1, ws2, ws3, n2, ws4, cb. auto.
Qed.

(** What [match] returns on the interval pattern: an array exactly for the
    interval texts, holding the text, the two brackets and the two
    numerals. *)
Theorem exec_regex_spec s arr :
  exec regex 4 s = Some arr <->
  exists ob ws1 n1 ws2 ws3 n2 ws4 cb,
    s = [ob] ++ ws1 ++ n1 ++ ws2 ++ [44%N] ++ ws3 ++ n2 ++ ws4 ++ [cb]
    /\ intervalParts ob ws1 n1 ws2 ws3 n2 ws4 cb
    /\ arr = [Some s; Some [ob]; Some n1; Some n2; Some [cb]].
Proof.
  rewrite exec_regex. unfold matchAt.
  assert (Hfst : forall st l,
            run regex (MState 0 s (replicate 5 None)) = st :: l ->
            exists ob ws1 n1 ws2 ws3 n2 ws4 cb,
              s = [ob] ++ ws1 ++ n1 ++ ws2 ++ [44%N] ++ ws3 ++ n2 ++ ws4 ++ [cb]
              /\ intervalParts ob ws1 n1 ws2 ws3 n2 ws4 cb
              /\ <[0%nat := Some (take (pos st - 0) s)]> (caps st)
                 = [Some s; Some [ob]; Some n1; Some n2; Some [cb]]).
  { intros st l E.
    assert (Hin : In st (run regex (MState 0 s (replicate 5 None))))
      by (rewrite E; now left).
    apply run_regex_state in Hin.
    destruct Hin as (ob & ws1 & n1 & ws2 & ws3 & n2 & ws4 & cb & Es & Hp & ->).
    exists ob, ws1, n1, ws2, ws3, n2, ws4, cb.
    split; [assumption|]. split; [assumption|].
    cbn [pos caps]. rewrite Nat.sub_0_r, firstn_all. reflexivity. }
  change (drop 0 s) with s.
  split.
  - destruct (run regex (MState 0 s (replicate 5 None))) as [|st l] eqn:E;
      [intros; discriminate|].
    intros [= <-]. destruct (Hfst st l eq_refl)
      as (ob & ws1 & n1 & ws2 & ws3 & n2 & ws4 & cb & Es & Hp & Ha).
    exists ob, ws1, n1, ws2, ws3, n2, ws4, cb. auto.
  - intros (ob & ws1 & n1 & ws2 & ws3 & n2 & ws4 & cb & Es & Hp & ->).
    destruct (run regex (MState 0 s (replicate 5 None))) as [|st l] eqn:E.
    + assert (Hin : In (MState (length s) []
                          [None; Some [ob]; Some n1; Some n2; Some [cb]])
                       (run regex (MState 0 s (replicate 5 None)))).
      { apply run_regex_state.
        exists ob, ws1, n1, ws2, ws3, n2, ws4, cb. auto. }
      rewrite E in Hin. destruct Hin.
    + destruct (Hfst st l eq_refl)
        as (ob' & ws1' & n1' & ws2' & ws3' & n2' & ws4' & cb' & Es' & Hp' & Ha).
      rewrite Ha. rewrite Es in Es'.
      destruct (intervalParts_unique _ _ _ _ _ _ _ _ _ _ _ _ _ _ _ _ Hp Hp' Es')
        as (-> & -> & -> & ->).
      reflexivity.
Qed.

Lemma exec_regex_none s :
  exec regex 4 s = None <-> ~ intervalGrammar [45%N] s.
Proof.
  unfold intervalGrammar. split.
  - intros E (ob & ws1 & n1 & ws2 & ws3 & n2 & ws4 & cb & Es & Hob & Hcb &
              H1 & H2 & H3 & H4 & Hn1 & Hn2).
    assert (exec regex 4 s
            = Some [Some s; Some [ob]; Some n1; Some n2; Some [cb]]).
    { apply exec_regex_spec. exists ob, ws1, n1, ws2, ws3, n2, ws4, cb.
      unfold intervalParts. auto 10. }
    congruence.
  - intros Hno. destruct (exec regex 4 s) as [arr|] eqn:E; [|reflexivity].
    exfalso. apply Hno. apply exec_regex_spec in E.
    destruct E as (ob & ws1 & n1 & ws2 & ws3 & n2 & ws4 & cb & Es &
                   (Hob & Hcb & H1 & H2 & H3 & H4 & Hn1 & Hn2) & _).
    exists ob, ws1, n1, ws2, ws3, n2, ws4, cb. auto 10.
Qed.

(** ** Numerals and [parseFloat] *)

Lemma digitsValue_from acc ds :
  fold_left (fun a c => (10 * a + digitValue c)%Z) ds acc
  = (acc * 10 ^ Z.of_nat (length ds) + digitsValue ds)%Z.
Proof.
  unfold digitsValue. revert acc.
  induction ds as [|c ds IH]; intros acc; simpl fold_left.
  - simpl. lia.
  - rewrite IH, (IH (10 * 0 + digitValue c)%Z).
    replace (Z.of_nat (length (c :: ds))) with (Z.succ (Z.of_nat (length ds)))
      by (simpl length; lia).
    rewrite Z.pow_succ_r by lia. ring.
Qed.

Lemma digitsValue_app a b :
  digitsValue (a ++ b)
  = (digitsValue a * 10 ^ Z.of_nat (length b) + digitsValue b)%Z.
Proof.
  unfold digitsValue at 1. rewrite fold_left_app.
  rewrite digitsValue_from. reflexivity.
Qed.

Lemma pow10_nonzero n : (0 <= n)%Z -> ~ (inject_Z (10 ^ n) == 0)%Q.
Proof.
  intros Hn E.
  pose proof (proj1 (inject_Z_injective (10 ^ n) 0) E) as E0.
  assert (H : (0 < 10 ^ n)%Z)
    by (apply Z.pow_pos_nonneg; [reflexivity|exact Hn]).
  rewrite E0 in H. discriminate H.
Qed.

(** A numeral of the pattern is the text of a well-formed decimal, and
    conversely. *)
Lemma numeral_decimal w :
  numeral [45%N] w <-> exists d, decimalWf d = true /\ w = decimalText d.
Proof.
  unfold decimalWf, decimalText. split.
  - intros (sg & ds & dt & fs & -> & Hs & Hne & Hd & Hdot & Hf).
    assert (Hsg : exists b : bool, sg = if b then [45%N] else []).
    { destruct Hs as [->|(c & [<-|[]] & ->)];
        [now exists false|now exists true]. }
    destruct Hsg as [b ->].
    assert (Hnz : nonEmpty ds = true) by (destruct ds; easy).
    destruct Hdot as [->| ->].
    + exists {| negative := b; intDigits := ds ++ fs; fracDigits := None |}.
      simpl. rewrite forallb_app, Hd, Hf, app_nil_r.
      split; [|reflexivity]. destruct ds; easy.
    + exists {| negative := b; intDigits := ds; fracDigits := Some fs |}.
      simpl. now rewrite Hnz, Hd, Hf.
  - intros ([b ip fr] & Hwf & ->). simpl in *.
    apply andb_true_iff in Hwf as [Hwf Hf].
    apply andb_true_iff in Hwf as [Hne Hd].
    exists (if b then [45%N] else []), ip,
      (match fr with Some _ => [46%N] | None => [] end), (default [] fr).
    repeat split; auto.
    + destruct fr; reflexivity.
    + destruct b; [right; exists 45%N; simpl; auto|now left].
    + destruct ip; easy.
    + destruct fr; auto.
Qed.

Lemma digit_head_facts c :
  isDigit c = true ->
  isWhiteSpace c = false /\ (c =? 45)%N = false /\ (c =? 43)%N = false
  /\ (73 =? c)%N = false.
Proof. intros H. repeat split; classes. Qed.

Lemma parseMantissa_decimal ip fr :
  nonEmpty ip = true -> forallb isDigit ip = true ->
  forallb isDigit (default [] fr) = true ->
  parseMantissa (ip ++ match fr with Some fs => 46%N :: fs | None => [] end)
  = Some (ip, default [] fr, []).
Proof.
  intros Hne Hd Hf. unfold parseMantissa.
  rewrite span_app; [|assumption|destruct fr; simpl; auto].
  destruct fr as [fs|]; simpl in *.
  - rewrite span_all by assumption. now rewrite Hne.
  - now rewrite Hne.
Qed.

(** ** The number value of a rational *)

(** [roundHalfEven] gives a nearest integer, and the even one at a tie. *)
Lemma roundHalfEven_nearest n d :
  (0 < d)%Z ->
  (2 * Z.abs (n - roundHalfEven n d * d) <= d)%Z
  /\ ((2 * Z.abs (n - roundHalfEven n d * d) = d)%Z ->
      Z.even (roundHalfEven n d) = true).
Proof.
  intros Hd. unfold roundHalfEven.
  pose proof (Z.div_mod n d ltac:(lia)) as E.
  pose proof (Z.mod_pos_bound n d Hd) as Hr.
  set (f := (n / d)%Z) in *. set (r := (n mod d)%Z) in *.
  destruct (Z.compare_spec (2 * r) d) as [H|H|H].
  - destruct (Z.even f) eqn:Ef.
    + split; [nia|]. intros _. exact Ef.
    + split; [nia|]. intros _. rewrite Z.even_add, Ef. reflexivity.
  - split; [nia|]. intros H'. exfalso. nia.
  - split; [nia|]. intros H'. exfalso. nia.
Qed.

Lemma roundHalfEven_exact n : roundHalfEven n 1 = n.
Proof.
  unfold roundHalfEven. rewrite Z.div_1_r, Z.mod_1_r. reflexivity.
Qed.

Lemma Qred_inject_Z z : Qred (inject_Z z) = inject_Z z.
Proof.
  unfold inject_Z, Qred.
  pose proof (Z.ggcd_gcd z 1) as Hg.
  pose proof (Z.ggcd_correct_divisors z 1) as Hc.
  destruct (Z.ggcd z 1) as [g [aa bb]]. cbn [fst snd] in *.
  rewrite Z.gcd_1_r in Hg. subst g. destruct Hc as [Ha Hb].
  rewrite !Z.mul_1_l in *. subst aa. rewrite <- Hb. reflexivity.
Qed.

Lemma floorLog2_integer n : (0 < n)%Z -> floorLog2 n 1 = Z.log2 n.
Proof.
  intros Hn. unfold floorLog2. change (Z.log2 1) with 0%Z. rewrite Z.sub_0_r.
  pose proof (Z.log2_nonneg n) as H0.
  pose proof (Z.log2_spec n Hn) as [H1 _].
  destruct (Z.leb_spec 0 (Z.log2 n)); [|lia].
  destruct (Z.leb_spec (1 * 2 ^ Z.log2 n) n); [reflexivity|lia].
Qed.

Lemma roundMagnitude_integer n :
  (0 < n <= 2 ^ 53)%Z -> roundMagnitude n 1 = Some (inject_Z n).
Proof.
  intros [Hn Hmax]. unfold roundMagnitude.
  rewrite floorLog2_integer by assumption.
  pose proof (Z.log2_nonneg n) as H0.
  pose proof (Z.log2_spec n Hn) as [H1 H2].
  assert (He : (Z.log2 n <= 53)%Z).
  { destruct (Z.le_gt_cases (Z.log2 n) 53); [assumption|].
    assert ((2 ^ 54 <= 2 ^ Z.log2 n)%Z) by (apply Z.pow_le_mono_r; lia).
    lia. }
  rewrite Z.max_l by lia.
  destruct (Z.leb_spec 0 (Z.log2 n - 52)) as [Hu|Hu].
  - assert (Hc : (Z.log2 n = 52 \/ Z.log2 n = 53)%Z) by lia.
    destruct Hc as [Hc|Hc]; rewrite Hc.
    + change (52 - 52)%Z with 0%Z. change (2 ^ 0)%Z with 1%Z.
      rewrite roundHalfEven_exact, Z.mul_1_r.
      destruct (Z.leb_spec (2 ^ 1024) n); [|reflexivity].
      assert ((2 ^ 53 < 2 ^ 1024)%Z) by (apply Z.pow_lt_mono_r; lia). lia.
    + assert (En : n = (2 ^ 53)%Z) by (rewrite Hc in H1; lia).
      subst n. vm_compute. reflexivity.
  - f_equal. rewrite roundHalfEven_exact.
    replace (- (Z.log2 n - 52))%Z with (52 - Z.log2 n)%Z by lia.
    set (k := (2 ^ (52 - Z.log2 n))%Z).
    assert (Hk : (0 < k)%Z) by (apply Z.pow_pos_nonneg; lia).
    rewrite <- (Qred_inject_Z n). apply Qred_complete.
    unfold Qeq, inject_Z. cbn [Qnum Qden]. rewrite Z2Pos.id by assumption.
    lia.
Qed.

(** An integer of magnitude at most 2^53 is its own number value. *)
Lemma roundDouble_integer z :
  (Z.abs z <= 2 ^ 53)%Z -> roundDouble (inject_Z z) = Fin (inject_Z z).
Proof.
  intros Hz. unfold roundDouble. rewrite Qred_inject_Z.
  cbn [inject_Z Qnum Qden].
  destruct z as [|p|p]; [reflexivity| |];
    rewrite roundMagnitude_integer by lia; reflexivity.
Qed.

(** The number value on literals: a nearest double that is not the decimal,
    ties going to the even significand, the largest double and the overflow
    above it, and the smallest double and the underflow below it. *)
Lemma parseFloat_rounds :
  parseFloat (js "0.1") = Fin (3602879701896397 # 36028797018963968)
  /\ parseFloat (js "0.49999999999999999") = Fin (1 # 2)
  /\ parseFloat (js "9007199254740993") = Fin 9007199254740992
  /\ parseFloat (js "9007199254740995") = Fin 9007199254740996
  /\ parseFloat (js "1.7976931348623158e308")
     = Fin (inject_Z ((2 ^ 53 - 1) * 2 ^ 971))
  /\ parseFloat (js "1.7976931348623159e308") = PosInfinity
  /\ parseFloat (js "-1e309") = NegInfinity
  /\ parseFloat (js "5e-324") = Fin (1 # 2 ^ 1074)
  /\ parseFloat (js "2e-324") = Fin 0
  /\ parseFloat (js "-0") = Fin 0.
Proof. repeat split; vm_compute; reflexivity. Qed.

(** The number value depends on the value of the rational only, and is never
    [NaN]. *)
Lemma roundDouble_proper q q' : (q == q')%Q -> roundDouble q = roundDouble q'.
Proof.
  intros E. unfold roundDouble. now rewrite (Qred_complete q q' E).
Qed.

Lemma roundDouble_not_NaN q : isNaN (roundDouble q) = false.
Proof.
  unfold roundDouble.
  destruct (Qnum (Qred q)); [reflexivity| |];
    destruct (roundMagnitude _ _); reflexivity.
Qed.

(** [parseFloat] reads the whole text of a well-formed decimal and returns
    the number value of what it denotes. *)
Theorem parseFloat_decimal d :
  decimalWf d = true -> parseFloat (decimalText d) = boundValue d.
Proof.
  destruct d as [b ip fr]. unfold boundValue, decimalWf, decimalText, decimalValue.
  simpl. intros Hwf.
  apply andb_true_iff in Hwf as [Hwf Hf].
  apply andb_true_iff in Hwf as [Hne Hd].
  destruct ip as [|c ip]; [discriminate|].
  assert (Hc : isDigit c = true) by (simpl in Hd; now apply andb_true_iff in Hd).
  destruct (digit_head_facts c Hc) as (Hws & Hm & Hp & HI).
  set (fs := default [] fr) in *.
  set (n := Z.of_nat (length fs)).
  assert (Hval : (inject_Z (digitsValue ((c :: ip) ++ fs))
                  * Qpower (10 # 1) (0 - n)
                  == inject_Z (digitsValue (c :: ip))
                     + inject_Z (digitsValue fs) / inject_Z (10 ^ n))%Q).
  { rewrite digitsValue_app. fold n.
    replace (0 - n)%Z with (- n)%Z by lia. rewrite Qpower_opp.
    change (10 # 1) with (inject_Z 10).
    rewrite <- Zpower_Qpower by (unfold n; lia).
    rewrite inject_Z_plus, inject_Z_mult.
    assert (Hpos : ~ (inject_Z (10 ^ n) == 0)%Q).
    { apply pow10_nonzero. unfold n. lia. }
    field. exact Hpos. }
  unfold parseFloat.
  destruct b.
  - cbn [app trimStart]. change (isWhiteSpace 45) with false. cbn iota.
    cbn [parseSign]. change (45 =? 45)%N with true. cbn iota.
    change (js "Infinity") with (73%N :: js "nfinity").
    cbn [app startsWith]. rewrite HI. cbn [andb].
    change (c :: ip ++ match fr with Some fs0 => 46%N :: fs0 | None => [] end)
      with ((c :: ip) ++ match fr with Some fs0 => 46%N :: fs0 | None => [] end).
    rewrite parseMantissa_decimal by assumption. fold fs.
    cbn [parseExponent]. cbv zeta. fold n.
    apply roundDouble_proper. now rewrite Hval.
  - cbn [app trimStart]. rewrite Hws. cbn [parseSign]. rewrite Hm, Hp.
    change (js "Infinity") with (73%N :: js "nfinity").
    cbn [app startsWith]. rewrite HI. cbn [andb].
    change (c :: ip ++ match fr with Some fs0 => 46%N :: fs0 | None => [] end)
      with ((c :: ip) ++ match fr with Some fs0 => 46%N :: fs0 | None => [] end).
    rewrite parseMantissa_decimal by assumption. fold fs.
    cbn [parseExponent]. cbv zeta. fold n.
    apply roundDouble_proper. exact Hval.
Qed.

Lemma boundValue_not_NaN d : isNaN (boundValue d) = false.
Proof. apply roundDouble_not_NaN. Qed.

Lemma digitsValue_nonneg ds :
  forallb isDigit ds = true -> (0 <= digitsValue ds)%Z.
Proof.
  unfold digitsValue.
  assert (H : forall acc, (0 <= acc)%Z -> forallb isDigit ds = true ->
            (0 <= fold_left (fun a c => (10 * a + digitValue c)%Z) ds acc)%Z).
  { induction ds as [|c ds IH]; intros acc Hacc Hd; [exact Hacc|].
    simpl in Hd. apply andb_true_iff in Hd as [Hc Hd]. cbn [fold_left].
    apply IH; [|assumption]. unfold digitValue, isDigit in *.
    apply andb_true_iff in Hc as [Hc _]. apply N.leb_le in Hc. lia. }
  apply H. lia.
Qed.

(** A bound written as a whole number of magnitude at most 2^53 stands for
    the number it is written as. *)
Lemma boundValue_exactWhole d :
  decimalWf d = true -> exactWhole d = true ->
  exists q, boundValue d = Fin q /\ (q == decimalValue d)%Q.
Proof.
  destruct d as [b ip fr].
  unfold decimalWf, exactWhole, boundValue, decimalValue.
  cbn [negative intDigits fracDigits]. intros Hwf Hex.
  destruct fr as [fs|]; [discriminate Hex|]. cbn [default from_option].
  apply Z.leb_le in Hex.
  apply andb_true_iff in Hwf as [Hwf _]. apply andb_true_iff in Hwf as [_ Hd].
  pose proof (digitsValue_nonneg ip Hd) as H0.
  set (z := digitsValue ip) in *.
  assert (E : (inject_Z z
               + inject_Z (digitsValue [])
                 / inject_Z (10 ^ Z.of_nat (length (@nil N)))
               == inject_Z z)%Q).
  { change (inject_Z (digitsValue [])
            / inject_Z (10 ^ Z.of_nat (length (@nil N))))%Q with (0 / 1)%Q.
    unfold Qdiv. change (/ 1)%Q with 1%Q. ring. }
  destruct b.
  - exists (inject_Z (- z)). split.
    + rewrite <- roundDouble_integer by lia. apply roundDouble_proper.
      rewrite E, inject_Z_opp. reflexivity.
    + rewrite E, inject_Z_opp. reflexivity.
  - exists (inject_Z z). split.
    + rewrite <- roundDouble_integer by lia. now apply roundDouble_proper.
    + now rewrite E.
Qed.

Lemma parseFloat_numeral w :
  numeral [45%N] w -> isNaN (parseFloat w) = false.
Proof.
  intros H. apply numeral_decimal in H as (d & Hwf & ->).
  rewrite parseFloat_decimal by assumption. apply boundValue_not_NaN.
Qed.

(** ** Comparisons *)

Lemma Qltb_lt a b : Qltb a b = true <-> (a < b)%Q.
Proof. unfold Qltb, Qlt. apply Z.ltb_lt. Qed.

Lemma Qltb_ge a b : Qltb a b = false <-> (b <= a)%Q.
Proof. unfold Qltb, Qle. rewrite Z.ltb_ge. reflexivity. Qed.

Lemma Qltb_proper a a' b b' :
  (a == a')%Q -> (b == b')%Q -> Qltb a b = Qltb a' b'.
Proof.
  intros Ea Eb. destruct (Qltb a' b') eqn:E.
  - apply Qltb_lt. apply Qltb_lt in E. now rewrite Ea, Eb.
  - apply Qltb_ge. apply Qltb_ge in E. now rewrite Ea, Eb.
Qed.

(** Turns a goal about comparisons of numbers into the cases of the numbers
    and, on finite ones, into the order of the rationals. *)
Ltac by_cases_of n := destruct n as [| | |?]; try discriminate.

Ltac rationals :=
  unfold lowerTest, upperTest, gt, ge, lt, le, lessThan, isSome_true,
    isSome_false in *;
  cbn [N.eqb Pos.eqb] in *;
  repeat match goal with
         | H : context [Qltb ?a ?b] |- _ =>
             let E := fresh "E" in destruct (Qltb a b) eqn:E;
             [apply Qltb_lt in E|apply Qltb_ge in E]
         | |- context [Qltb ?a ?b] =>
             let E := fresh "E" in destruct (Qltb a b) eqn:E;
             [apply Qltb_lt in E|apply Qltb_ge in E]
         end;
  repeat match goal with
         | H : context [if ?c then _ else _] |- _ => destruct c
         | |- context [if ?c then _ else _] => destruct c
         end;
  try discriminate; try reflexivity; try (exfalso; lra).


(** ** The predicate on accepted and on rejected text *)

(** Equations between texts that differ in the nesting of [++]. *)
Ltac app_norm :=
  repeat progress (rewrite <- ?app_assoc; simpl); reflexivity.

Lemma trim_nil_nonEmpty s : nonEmpty (trim s) = true -> nonEmpty s = true.
Proof. destruct s; [discriminate|reflexivity]. Qed.

(** Past the format check the result is the conjunction of the two bound
    tests on the two captured numerals; the guard on [NaN] never fires. *)
Lemma isValueInInterval_parts v s ob ws1 n1 ws2 ws3 n2 ws4 cb :
  trim s = [ob] ++ ws1 ++ n1 ++ ws2 ++ [44%N] ++ ws3 ++ n2 ++ ws4 ++ [cb] ->
  intervalParts ob ws1 n1 ws2 ws3 n2 ws4 cb ->
  isNaN (parseFloat n1) = false /\ isNaN (parseFloat n2) = false
  /\ isValueInInterval v (VString s)
     = (Ok (lowerTest ob v (parseFloat n1) && upperTest cb v (parseFloat n2)),
        []).
Proof.
  intros Et Hp.
  assert (Hex : exec regex 4 (trim s)
                = Some [Some (trim s); Some [ob]; Some n1; Some n2; Some [cb]]).
  { apply exec_regex_spec. exists ob, ws1, n1, ws2, ws3, n2, ws4, cb. auto. }
  pose proof Hp as (Hob & Hcb & _ & _ & _ & _ & Hn1 & Hn2).
  pose proof (parseFloat_numeral n1 Hn1) as N1.
  pose proof (parseFloat_numeral n2 Hn2) as N2.
  split; [assumption|]. split; [assumption|].
  unfold isValueInInterval.
  assert (Hs : nonEmpty s = true).
  { apply trim_nil_nonEmpty. rewrite Et. reflexivity. }
  cbn [truthy isString]. rewrite Hs. cbn [negb orb]. rewrite Hex.
  unfold element, parseFloatOf. cbn [lookup list_lookup mjoin option_join default].
  unfold id. rewrite N1, N2. cbn [orb]. unfold ret. do 2 f_equal. f_equal.
  - unfold lowerTest, strictEq.
    assert (Hc : ob = 40%N \/ ob = 91%N) by classes.
    destruct Hc as [-> | ->]; reflexivity.
  - unfold upperTest, strictEq.
    assert (Hc : cb = 41%N \/ cb = 93%N) by classes.
    destruct Hc as [-> | ->]; reflexivity.
Qed.

Lemma decimal_numeral d : decimalWf d = true -> numeral [45%N] (decimalText d).
Proof. intros H. apply numeral_decimal. eauto. Qed.

(** The predicate on the text of an interval. *)
Lemma isValueInInterval_text v i :
  intervalWf i = true ->
  isValueInInterval v (VString (intervalText i))
  = (Ok (lowerTest (openBracket i) v (boundValue (lowerBound i))
         && upperTest (closeBracket i) v (boundValue (upperBound i))),
     []).
Proof.
  destruct i as [pre ob ws1 lo ws2 ws3 hi ws4 cb post].
  unfold intervalWf, intervalText. cbn -[decimalWf decimalText].
  intros Hwf. repeat (apply andb_true_iff in Hwf as [Hwf ?]).
  assert (Et : trim (pre ++ ob :: ws1 ++ decimalText lo ++ ws2 ++ 44%N :: ws3
                         ++ decimalText hi ++ ws4 ++ cb :: post)
               = [ob] ++ ws1 ++ decimalText lo ++ ws2 ++ [44%N] ++ ws3
                   ++ decimalText hi ++ ws4 ++ [cb]).
  { replace (pre ++ ob :: ws1 ++ decimalText lo ++ ws2 ++ 44%N :: ws3
                 ++ decimalText hi ++ ws4 ++ cb :: post)
      with (pre ++ (ob :: (ws1 ++ decimalText lo ++ ws2 ++ [44%N] ++ ws3
                             ++ decimalText hi ++ ws4) ++ [cb]) ++ post)
      by app_norm.
    rewrite trim_core; auto using open_not_space, close_not_space.
    app_norm. }
  destruct (isValueInInterval_parts v _ _ _ _ _ _ _ _ _ Et) as (_ & _ & ->).
  { unfold intervalParts. auto 10 using decimal_numeral. }
  now rewrite !parseFloat_decimal by assumption.
Qed.

(** The predicate never throws. *)
Lemma isValueInInterval_total v x :
  exists b log, isValueInInterval v x = (Ok b, log).
Proof.
  unfold isValueInInterval.
  destruct x as [| |b|n|s]; cbn [truthy isString negb orb];
    try (rewrite ?orb_true_r; do 2 eexists; reflexivity).
  destruct (nonEmpty s); cbn [negb orb]; [|do 2 eexists; reflexivity].
  destruct (exec regex 4 (trim s)); [|do 2 eexists; reflexivity].
  destruct (isNaN _ || isNaN _); do 2 eexists; reflexivity.
Qed.

(** ** The row matcher *)

Lemma isValueInInterval_inInterval v s :
  isValueInInterval v (VString s)
  = (Ok (inInterval v s), snd (isValueInInterval v (VString s))).
Proof.
  unfold inInterval.
  destruct (isValueInInterval_total v (VString s)) as (b & log & ->).
  reflexivity.
Qed.

Section Matcher.
Variable numberToString : number -> jsstring.

Local Abbreviation rowPredicate := (rowPredicate numberToString).
Local Abbreviation rowOk := (rowOk numberToString).
Local Abbreviation findMatch := (findMatch numberToString).

(** The callback returns the conjunction of the three predicate calls and
    never throws. *)
Lemma rowPredicate_rowOk v5 v10 v20 r :
  rowPredicate v5 v10 v20 r
  = (Ok (rowOk v5 v10 v20 r), snd (rowPredicate v5 v10 v20 r)).
Proof.
  unfold App.rowPredicate, Spec.rowOk.
  set (b5 := binText _ r (js "s5_now_bin") _).
  set (b10 := binText _ r (js "s10_now_bin") _).
  set (b20 := binText _ r (js "s20_now_bin") _).
  rewrite (isValueInInterval_inInterval v5 b5).
  rewrite (isValueInInterval_inInterval v10 b10).
  rewrite (isValueInInterval_inInterval v20 b20).
  unfold bind, ret.
  destruct (inInterval v5 b5); simpl; [|reflexivity].
  destruct (inInterval v10 b10); simpl; reflexivity.
Qed.

(** [find] stops at the first row the callback accepts; the rows after it
    are not visited. *)
Lemma find_first v5 v10 v20 l1 r l2 :
  rowOk v5 v10 v20 r = true ->
  (forall x, In x l1 -> rowOk v5 v10 v20 x = false) ->
  find (rowPredicate v5 v10 v20) (l1 ++ r :: l2)
  = (Ok (Some r),
     flat_map (fun x => snd (rowPredicate v5 v10 v20 x)) (l1 ++ [r])).
Proof.
  intros Hr. induction l1 as [|x l1 IH]; intros Hl1; cbn [app find flat_map].
  - rewrite rowPredicate_rowOk, Hr. unfold bind, ret. cbn.
    now rewrite app_nil_r.
  - rewrite rowPredicate_rowOk, (Hl1 x) by now left.
    unfold bind at 1. cbn iota. rewrite IH by (intros; apply Hl1; now right).
    reflexivity.
Qed.

Lemma find_none v5 v10 v20 l :
  (forall x, In x l -> rowOk v5 v10 v20 x = false) ->
  find (rowPredicate v5 v10 v20) l
  = (Ok None, flat_map (fun x => snd (rowPredicate v5 v10 v20 x)) l).
Proof.
  induction l as [|x l IH]; intros Hl; cbn [find flat_map]; [reflexivity|].
  rewrite rowPredicate_rowOk, (Hl x) by now left.
  unfold bind at 1. cbn iota. rewrite IH by (intros; apply Hl; now right).
  reflexivity.
Qed.

(** Either some row is the first match, or no row matches. *)
Lemma first_match_or_none (p : ExcelRow -> bool) l :
  (exists l1 r l2, l = l1 ++ r :: l2 /\ p r = true
                   /\ forall x, In x l1 -> p x = false)
  \/ (forall x, In x l -> p x = false).
Proof.
  induction l as [|x l IH].
  - right. intros x [].
  - destruct (p x) eqn:Hx.
    + left. exists [], x, l. repeat split; auto. intros y [].
    + destruct IH as [(l1 & r & l2 & -> & Hr & Hl1)|Hnone].
      * left. exists (x :: l1), r, l2. repeat split; auto.
        intros y [<-|Hy]; auto.
      * right. intros y [<-|Hy]; auto.
Qed.

Lemma findMatch_empty st :
  inputsEmpty (inputs st) = true ->
  findMatch st = (Ok st, [PreventDefault]).
Proof.
  unfold inputsEmpty, App.findMatch. intros ->. reflexivity.
Qed.

Lemma findMatch_NaN st :
  inputsEmpty (inputs st) = false -> inputsNaN (inputs st) = true ->
  findMatch st = (Ok st, [PreventDefault; Alert invalidNumberMessage]).
Proof.
  unfold inputsEmpty, inputsNaN, App.findMatch. intros -> ->. reflexivity.
Qed.

Lemma findMatch_search st :
  inputsEmpty (inputs st) = false -> inputsNaN (inputs st) = false ->
  findMatch st
  = (x <- emit PreventDefault ;;
     foundRow <- find (rowPredicate (parseFloat (s5 (inputs st)))
                         (parseFloat (s10 (inputs st)))
                         (parseFloat (s20 (inputs st)))) (data st) ;;
     ret (setMatchResult
            (Some (match foundRow with
                   | Some r => foundResult r
                   | None => notFoundResult
                   end)) st)).
Proof.
  unfold inputsEmpty, inputsNaN, App.findMatch. intros -> ->. reflexivity.
Qed.

Lemma findMatch_found st l1 r l2 :
  inputsEmpty (inputs st) = false -> inputsNaN (inputs st) = false ->
  data st = l1 ++ r :: l2 ->
  rowOk (parseFloat (s5 (inputs st))) (parseFloat (s10 (inputs st)))
        (parseFloat (s20 (inputs st))) r = true ->
  (forall x, In x l1 ->
     rowOk (parseFloat (s5 (inputs st))) (parseFloat (s10 (inputs st)))
           (parseFloat (s20 (inputs st))) x = false) ->
  findMatch st
  = (Ok (setMatchResult (Some (foundResult r)) st),
     PreventDefault
       :: flat_map (fun x => snd (rowPredicate (parseFloat (s5 (inputs st)))
                                    (parseFloat (s10 (inputs st)))
                                    (parseFloat (s20 (inputs st))) x))
            (l1 ++ [r])).
Proof.
  intros He Hn Hd Hr Hl1. rewrite findMatch_search by assumption.
  rewrite Hd, find_first by assumption.
  unfold bind, emit, ret. cbn. now rewrite app_nil_r.
Qed.

Lemma findMatch_notFound st :
  inputsEmpty (inputs st) = false -> inputsNaN (inputs st) = false ->
  (forall x, In x (data st) ->
     rowOk (parseFloat (s5 (inputs st))) (parseFloat (s10 (inputs st)))
           (parseFloat (s20 (inputs st))) x = false) ->
  findMatch st
  = (Ok (setMatchResult (Some notFoundResult) st),
     PreventDefault
       :: flat_map (fun x => snd (rowPredicate (parseFloat (s5 (inputs st)))
                                    (parseFloat (s10 (inputs st)))
                                    (parseFloat (s20 (inputs st))) x))
            (data st)).
Proof.
  intros He Hn Hnone. rewrite findMatch_search by assumption.
  rewrite find_none by assumption.
  unfold bind, emit, ret. cbn. now rewrite app_nil_r.
Qed.

End Matcher.

(** ** Accepted strings are interval texts *)

Lemma trimStart_split s :
  exists pre, s = pre ++ trimStart s /\ forallb isWhiteSpace pre = true.
Proof.
  induction s as [|c s (pre & E & Hpre)]; [now exists []|].
  simpl. destruct (isWhiteSpace c) eqn:Hc.
  - exists (c :: pre). simpl. rewrite Hc, Hpre, <- E. auto.
  - now exists [].
Qed.

Lemma trim_split s :
  exists pre post,
    s = pre ++ trim s ++ post
    /\ forallb isWhiteSpace pre = true /\ forallb isWhiteSpace post = true.
Proof.
  destruct (trimStart_split s) as (pre & E1 & Hpre).
  destruct (trimStart_split (rev (trimStart s))) as (tl & E2 & Htl).
  exists pre, (rev tl). unfold trim, trimEnd.
  rewrite forallb_rev. repeat split; auto.
  rewrite <- rev_app_distr, <- E2, rev_involutive. exact E1.
Qed.

Lemma reachesBoundTests_exec s :
  reachesBoundTests s = true <-> is_Some (exec regex 4 (trim s)).
Proof.
  unfold reachesBoundTests. rewrite andb_true_iff, bool_decide_eq_true.
  split; [tauto|]. intros H. split; [|assumption].
  destruct s; [|reflexivity]. destruct H as [arr H]. discriminate H.
Qed.

Lemma reachesBoundTests_grammar s :
  reachesBoundTests s = true <-> intervalGrammar [45%N] (trim s).
Proof.
  rewrite reachesBoundTests_exec. split.
  - intros [arr E]. apply exec_regex_spec in E.
    destruct E as (ob & ws1 & n1 & ws2 & ws3 & n2 & ws4 & cb & Es &
                   (Hob & Hcb & H1 & H2 & H3 & H4 & Hn1 & Hn2) & _).
    exists ob, ws1, n1, ws2, ws3, n2, ws4, cb. auto 10.
  - intros G. destruct (exec regex 4 (trim s)) eqn:E; [eauto|].
    apply exec_regex_none in E. contradiction.
Qed.

(** Short of the bound tests the predicate returns false, with a warning
    when the string is not empty. *)
Lemma isValueInInterval_stops v s :
  reachesBoundTests s = false ->
  isValueInInterval v (VString s)
  = (Ok false,
     if nonEmpty s
     then [ConsoleWarn (js "Invalid interval format encountered: " ++ s)]
     else []).
Proof.
  unfold reachesBoundTests, isValueInInterval. cbn [truthy isString negb].
  destruct (nonEmpty s); cbn [negb orb andb]; [|reflexivity].
  intros H. apply bool_decide_eq_false in H.
  destruct (exec regex 4 (trim s)) as [arr|]; [|reflexivity].
  exfalso. apply H. eauto.
Qed.

Lemma accepted_is_text s :
  reachesBoundTests s = true ->
  exists i, intervalWf i = true /\ s = intervalText i.
Proof.
  intros H. apply reachesBoundTests_grammar in H.
  destruct H as (ob & ws1 & n1 & ws2 & ws3 & n2 & ws4 & cb & Es & Hob & Hcb &
                 H1 & H2 & H3 & H4 & Hn1 & Hn2).
  apply numeral_decimal in Hn1 as (lo & Hlo & ->).
  apply numeral_decimal in Hn2 as (hi & Hhi & ->).
  destruct (trim_split s) as (pre & post & E & Hpre & Hpost).
  exists {| leading := pre; openBracket := ob; space1 := ws1;
            lowerBound := lo; space2 := ws2; space3 := ws3;
            upperBound := hi; space4 := ws4; closeBracket := cb;
            trailing := post |}.
  unfold intervalWf, intervalText. cbn -[decimalWf decimalText].
  split.
  - now rewrite Hpre, Hob, H1, Hlo, H2, H3, Hhi, H4, Hcb, Hpost.
  - rewrite E at 1. rewrite Es. app_norm.
Qed.

(** ** Renaming a key of a row *)

Section Rename.
Variable numberToString : number -> jsstring.
Local Abbreviation binText := (binText numberToString).

Lemma rename_lookup_other (k k' : jsstring) (r : ExcelRow) (x : jsstring) :
  x <> k -> x <> k' -> rename k k' r !! x = r !! x.
Proof.
  intros Hk Hk'. unfold rename. destruct (r !! k) eqn:E; [|reflexivity].
  rewrite lookup_insert_ne, lookup_delete_ne by congruence. reflexivity.
Qed.

Lemma binText_rename_other (k k' : jsstring) (r : ExcelRow) (a a' : jsstring) :
  a <> k -> a <> k' -> a' <> k -> a' <> k' ->
  binText (rename k k' r) a a' = binText r a a'.
Proof.
  intros. unfold App.binText, get.
  now rewrite !rename_lookup_other by assumption.
Qed.

(** A field reads the same under either spelling of its key. *)
Lemma binText_rename (k k' : jsstring) (r : ExcelRow) :
  k <> k' -> r !! k' = None ->
  binText (rename k k' r) k k' = binText r k k'.
Proof.
  intros Hne Hk'. unfold App.binText, get, rename.
  destruct (r !! k) as [v|] eqn:E; [|now rewrite E].
  rewrite lookup_insert_ne, lookup_delete_eq, lookup_insert_eq, Hk'
    by congruence.
  cbn [default from_option id]. unfold or_else. cbn [truthy].
  destruct (truthy v) eqn:Hv; cbn [truthy]; rewrite ?Hv; reflexivity.
Qed.

End Rename.

(** ** Interval texts and the grammar *)

Lemma trim_intervalText i :
  intervalWf i = true ->
  trim (intervalText i)
  = [openBracket i] ++ space1 i ++ decimalText (lowerBound i) ++ space2 i
      ++ [44%N] ++ space3 i ++ decimalText (upperBound i) ++ space4 i
      ++ [closeBracket i].
Proof.
  destruct i as [pre ob ws1 lo ws2 ws3 hi ws4 cb post].
  unfold intervalWf, intervalText. cbn -[decimalWf decimalText trim].
  intros Hwf. repeat (apply andb_true_iff in Hwf as [Hwf ?]).
  replace (pre ++ ob :: ws1 ++ decimalText lo ++ ws2 ++ 44%N :: ws3
               ++ decimalText hi ++ ws4 ++ cb :: post)
    with (pre ++ (ob :: (ws1 ++ decimalText lo ++ ws2 ++ [44%N] ++ ws3
                           ++ decimalText hi ++ ws4) ++ [cb]) ++ post)
    by app_norm.
  rewrite trim_core; auto using open_not_space, close_not_space.
  app_norm.
Qed.

(** The texts of the well-formed intervals are the strings of the grammar. *)
Lemma text_grammar i :
  intervalWf i = true -> intervalGrammar [45%N] (trim (intervalText i)).
Proof.
  intros Hwf. rewrite trim_intervalText by assumption.
  unfold intervalWf in Hwf. repeat (apply andb_true_iff in Hwf as [Hwf ?]).
  exists (openBracket i), (space1 i), (decimalText (lowerBound i)), (space2 i),
    (space3 i), (decimalText (upperBound i)), (space4 i), (closeBracket i).
  auto 12 using decimal_numeral.
Qed.

Lemma grammar_text s :
  intervalGrammar [45%N] (trim s) ->
  exists i, intervalWf i = true /\ s = intervalText i.
Proof.
  intros G. apply accepted_is_text. now apply reachesBoundTests_grammar.
Qed.

Lemma grammar_no_warning v s :
  passesFormatCheck v s <-> intervalGrammar [45%N] (trim s).
Proof.
  unfold passesFormatCheck. split.
  - intros [Hne Hlog]. apply reachesBoundTests_grammar.
    destruct (reachesBoundTests s) eqn:E; [reflexivity|].
    rewrite isValueInInterval_stops, Hne in Hlog by assumption.
    discriminate Hlog.
  - intros G. destruct (grammar_text s G) as (i & Hwf & ->).
    rewrite isValueInInterval_text by assumption. split; [|reflexivity].
    apply reachesBoundTests_grammar in G. unfold reachesBoundTests in G.
    now apply andb_true_iff in G as [G _].
Qed.

(** ** The grammar in the words of the specification *)

Lemma noBareDot_app a b :
  noBareDot a = true -> noBareDot b = true -> noBareDot (a ++ b) = true.
Proof.
  induction a as [|c a IH]; simpl; intros Ha Hb; [exact Hb|].
  apply andb_true_iff in Ha as [Hc Ha]. rewrite IH by assumption.
  rewrite andb_true_r. destruct (c =? 46)%N; [|reflexivity].
  destruct a as [|d a]; [discriminate Hc|exact Hc].
Qed.

Lemma noBareDot_class (p : N -> bool) l :
  p 46%N = false -> forallb p l = true -> noBareDot l = true.
Proof.
  intros Hp. induction l as [|c l IH]; simpl; intros H; [reflexivity|].
  apply andb_true_iff in H as [Hc H]. rewrite IH by assumption.
  destruct (N.eqb_spec c 46); [subst; congruence|reflexivity].
Qed.

Lemma statedNumeral_noBareDot w : statedNumeral w -> noBareDot w = true.
Proof.
  intros (sg & ds & fr & -> & Hs & _ & Hd & Hf).
  apply noBareDot_app; [destruct Hs as [->|[->| ->]]; reflexivity|].
  apply noBareDot_app; [now apply (noBareDot_class isDigit)|].
  destruct Hf as [->|(fs & -> & Hne & Hfs)]; [reflexivity|].
  destruct fs as [|d fs]; [contradiction|].
  assert (Hd' : isDigit d = true)
    by (simpl in Hfs; now apply andb_true_iff in Hfs).
  change (noBareDot (46%N :: d :: fs))
    with (isDigit d && noBareDot (d :: fs)).
  rewrite Hd'. now apply (noBareDot_class isDigit).
Qed.

Lemma statedGrammar_noBareDot t : statedGrammar t -> noBareDot t = true.
Proof.
  intros (ob & ws1 & n1 & ws2 & ws3 & n2 & ws4 & cb & -> & Hob & Hcb &
          H1 & H2 & H3 & H4 & Hn1 & Hn2).
  assert (Hw : forall l, forallb isWhiteSpace l = true -> noBareDot l = true)
    by (intros l; now apply noBareDot_class).
  repeat apply noBareDot_app; auto using statedNumeral_noBareDot.
  - apply (noBareDot_class isOpen); [reflexivity|]. simpl. now rewrite Hob.
  - apply (noBareDot_class isClose); [reflexivity|]. simpl. now rewrite Hcb.
Qed.

Lemma statedNumeral_chars w :
  statedNumeral w -> w <> [] /\ forallb isSignedNumChar w = true.
Proof.
  intros (sg & ds & fr & -> & Hs & Hne & Hd & Hf).
  assert (Hdn : forall l, forallb isDigit l = true ->
                          forallb isSignedNumChar l = true).
  { intros l Hl. apply forallb_forall. intros c Hc.
    eapply forallb_forall in Hl; eauto. unfold isSignedNumChar.
    now rewrite Hl. }
  split.
  - destruct ds as [|d ds]; [contradiction|].
    destruct Hs as [->|[->| ->]]; discriminate.
  - rewrite !forallb_app, (Hdn ds Hd).
    assert (Hsg : forallb isSignedNumChar sg = true)
      by (destruct Hs as [->|[->| ->]]; reflexivity).
    rewrite Hsg. destruct Hf as [->|(fs & -> & _ & Hfs)]; [reflexivity|].
    simpl. now rewrite (Hdn fs Hfs).
Qed.

(** ** What [parseFloat] reads a number from *)

Lemma parseFloat_NaN s : isNaN (parseFloat s) = negb (numericPrefix s).
Proof.
  unfold parseFloat, numericPrefix.
  destruct (parseSign (trimStart s)) as [neg u]. cbn [snd].
  destruct (startsWith (js "Infinity") u); [now destruct neg|]. cbn [orb].
  unfold parseMantissa. destruct u as [|c r]; [reflexivity|]. cbn [span].
  destruct (isDigit c) eqn:Hc.
  - destruct (span isDigit r) as [a b].
    destruct b as [|x b]; [|destruct (x =? 46)%N; [destruct (span isDigit b)|]];
      cbn [nonEmpty orb negb]; apply roundDouble_not_NaN.
  - cbn [orb]. destruct (c =? 46)%N; [|reflexivity]. cbn [andb].
    destruct r as [|d r']; [reflexivity|]. cbn [span].
    destruct (isDigit d); [|reflexivity].
    destruct (span isDigit r') as [a b]. cbn [nonEmpty orb negb].
    apply roundDouble_not_NaN.
Qed.

(** ** The effects of a search *)

Lemma isValueInInterval_warns v x e :
  In e (snd (isValueInInterval v x)) -> exists m, e = ConsoleWarn m.
Proof.
  destruct x as [| |b|n|s];
    try (unfold isValueInInterval; cbn [truthy isString negb];
         rewrite ?orb_true_r; intros []).
  destruct (reachesBoundTests s) eqn:E.
  - apply accepted_is_text in E as (i & Hwf & ->).
    rewrite isValueInInterval_text by assumption. intros [].
  - rewrite isValueInInterval_stops by assumption.
    destruct (nonEmpty s); [|intros []]. intros [<-|[]]. eauto.
Qed.

Lemma rowPredicate_warns (numberToString : number -> jsstring)
    (v5 v10 v20 : number) (r : ExcelRow) (e : effect) :
  In e (snd (rowPredicate numberToString v5 v10 v20 r)) ->
  exists m, e = ConsoleWarn m.
Proof.
  unfold rowPredicate.
  set (b5 := binText _ r (js "s5_now_bin") _).
  set (b10 := binText _ r (js "s10_now_bin") _).
  set (b20 := binText _ r (js "s20_now_bin") _).
  pose proof (isValueInInterval_warns v5 (VString b5) e) as W5.
  pose proof (isValueInInterval_warns v10 (VString b10) e) as W10.
  pose proof (isValueInInterval_warns v20 (VString b20) e) as W20.
  destruct (isValueInInterval_total v5 (VString b5)) as (x5 & l5 & E5).
  destruct (isValueInInterval_total v10 (VString b10)) as (x10 & l10 & E10).
  destruct (isValueInInterval_total v20 (VString b20)) as (x20 & l20 & E20).
  rewrite E5, E10, E20 in *. unfold bind, ret. cbn [snd] in *.
  destruct x5; [destruct x10|]; cbn [snd]; rewrite ?in_app_iff, ?app_nil_r;
    simpl; tauto.
Qed.

Lemma search_log_no_alert (numberToString : number -> jsstring)
    (v5 v10 v20 : number) (l : list ExcelRow) (msg : jsstring) :
  ~ In (Alert msg)
      (PreventDefault
         :: flat_map (fun x => snd (rowPredicate numberToString v5 v10 v20 x))
              l).
Proof.
  intros [H|H]; [discriminate H|].
  apply in_flat_map in H as (x & _ & H).
  apply rowPredicate_warns in H as (m & H). discriminate H.
Qed.

(** * The statements of the specification *)

(** C1. For every number and every interval string the grammar accepts, the
    predicate returns the conjunction of the two bound tests: the lower test
    is strict at ['('] and inclusive at ['['], the upper test strict at [')']
    and inclusive at [']'], each against the number its bound stands for. The
    strings of the grammar are the texts of the well-formed intervals. The
    number a bound stands for is the one [parseFloat] reads from its numeral,
    and for a whole number of magnitude at most 2^53 it is the number as
    written. In particular 5 is outside "(5, 10]" and inside "[5, 10]". *)
Theorem C1_bound_tests :
  (forall v s, intervalGrammar [45%N] (trim s) ->
     exists i, intervalWf i = true /\ s = intervalText i
       /\ isValueInInterval v (VString s)
          = (Ok (lowerTest (openBracket i) v (boundValue (lowerBound i))
                 && upperTest (closeBracket i) v (boundValue (upperBound i))),
             []))
  /\ (forall v i, intervalWf i = true ->
        intervalGrammar [45%N] (trim (intervalText i))
        /\ isValueInInterval v (VString (intervalText i))
           = (Ok (lowerTest (openBracket i) v (boundValue (lowerBound i))
                  && upperTest (closeBracket i) v (boundValue (upperBound i))),
              []))
  /\ (forall d, decimalWf d = true ->
        parseFloat (decimalText d) = boundValue d
        /\ (exactWhole d = true ->
            exists q, boundValue d = Fin q /\ (q == decimalValue d)%Q))
  /\ isValueInInterval (Fin 5) (VString (js "(5, 10]")) = (Ok false, [])
  /\ isValueInInterval (Fin 5) (VString (js "[5, 10]")) = (Ok true, []).
Proof.
  split; [|split; [|split; [|split; vm_compute; reflexivity]]].
  - intros v s G. destruct (grammar_text s G) as (i & Hwf & ->).
    exists i. auto using isValueInInterval_text.
  - intros v i Hwf. auto using text_grammar, isValueInInterval_text.
  - intros d Hwf. auto using parseFloat_decimal, boundValue_exactWhole.
Qed.

Lemma C1_bound_tests_witness :
  (intervalGrammar [45%N] (trim (js " [5, 10.5) "))
   /\ exists i, intervalWf i = true /\ js " [5, 10.5) " = intervalText i
        /\ isValueInInterval (Fin 5) (VString (js " [5, 10.5) "))
           = (Ok (lowerTest (openBracket i) (Fin 5) (boundValue (lowerBound i))
                  && upperTest (closeBracket i) (Fin 5)
                       (boundValue (upperBound i))), []))
  /\ (intervalWf Example.fiveToTen = true
      /\ isValueInInterval (Fin 5) (VString (intervalText Example.fiveToTen))
         = (Ok (lowerTest 91 (Fin 5) (boundValue (lowerBound Example.fiveToTen))
                && upperTest 41 (Fin 5)
                     (boundValue (upperBound Example.fiveToTen))), [])).
Proof.
  assert (G : intervalGrammar [45%N] (trim (js " [5, 10.5) ")))
    by (apply reachesBoundTests_grammar; reflexivity).
  split; (split; [assumption || reflexivity|]).
  - exact (proj1 C1_bound_tests (Fin 5) (js " [5, 10.5) ") G).
  - exact (proj2 (proj1 (proj2 C1_bound_tests) (Fin 5) Example.fiveToTen
                    eq_refl)).
Defined.

(** C2. When the matcher runs it returns the first row, in the order of the
    data set, whose three bin fields all contain their input value: the
    result of the final state says found and holds that row, the rows before
    it fail, the rows after it are not visited, so of two matching rows the
    earlier one is returned. When no row matches the result says not found
    and holds no row. One of the two always applies. *)
Theorem C2_first_match (numberToString : number -> jsstring) (st : AppState) :
  inputsEmpty (inputs st) = false -> inputsNaN (inputs st) = false ->
  let ok := rowOk numberToString (parseFloat (s5 (inputs st)))
              (parseFloat (s10 (inputs st))) (parseFloat (s20 (inputs st))) in
  let log := fun r => snd (rowPredicate numberToString
                             (parseFloat (s5 (inputs st)))
                             (parseFloat (s10 (inputs st)))
                             (parseFloat (s20 (inputs st))) r) in
  (forall l1 r l2,
     data st = l1 ++ r :: l2 -> ok r = true ->
     (forall x, In x l1 -> ok x = false) ->
     exists st',
       findMatch numberToString st
       = (Ok st', PreventDefault :: flat_map log (l1 ++ [r]))
       /\ matchResult st'
          = Some {| found := true; row := Some r; error := None |}
       /\ data st' = data st /\ inputs st' = inputs st)
  /\ ((forall x, In x (data st) -> ok x = false) ->
      exists st',
        findMatch numberToString st
        = (Ok st', PreventDefault :: flat_map log (data st))
        /\ matchResult st'
           = Some {| found := false; row := None; error := None |}
        /\ data st' = data st /\ inputs st' = inputs st)
  /\ ((exists l1 r l2,
         data st = l1 ++ r :: l2 /\ ok r = true
         /\ forall x, In x l1 -> ok x = false)
      \/ (forall x, In x (data st) -> ok x = false)).
Proof.
  intros He Hn ok log. split; [|split].
  - intros l1 r l2 Hd Hr Hl1. eexists. split.
    + now apply findMatch_found with l2.
    + repeat split.
  - intros Hnone. eexists. split.
    + now apply findMatch_notFound.
    + repeat split.
  - apply first_match_or_none.
Qed.

Lemma C2_first_match_witness :
  let later := Example.binRow "[-45,-40)" "[0,5)" "(10,20]" 3 in
  let st := Example.loaded [Example.row1; Example.row2; later]
              "-44" "2" "15" in
  (inputsEmpty (inputs st) = false /\ inputsNaN (inputs st) = false)
  /\ exists st',
       findMatch Example.noDigits st = (Ok st', [PreventDefault])
       /\ matchResult st'
          = Some {| found := true; row := Some Example.row2; error := None |}
       /\ data st' = data st /\ inputs st' = inputs st.
Proof.
  intros later st. split; [split; reflexivity|].
  refine (proj1 (C2_first_match Example.noDigits st eq_refl eq_refl)
            [Example.row1] Example.row2 [later] eq_refl _ _).
  - vm_compute. reflexivity.
  - intros x [<-|[]]. vm_compute. reflexivity.
Defined.

(** C3, as stated: a numeral is an optional sign, digits, and optionally a
    ['.'] with more digits. "(+5, 10)" is a text of that grammar and the
    predicate turns it down with a warning: the pattern of the source allows
    no sign but ['-']. "(5., 10)" is no text of that grammar and the
    predicate takes it, and finds 7 inside: the pattern asks for no digit
    after the ['.']. *)
Lemma C3_counterexample :
  (statedGrammar (trim (js "(+5, 10)"))
   /\ ~ passesFormatCheck (Fin 7) (js "(+5, 10)")
   /\ isValueInInterval (Fin 7) (VString (js "(+5, 10)"))
      = (Ok false,
         [ConsoleWarn (js "Invalid interval format encountered: (+5, 10)")]))
  /\ (~ statedGrammar (trim (js "(5., 10)"))
      /\ passesFormatCheck (Fin 7) (js "(5., 10)")
      /\ isValueInInterval (Fin 7) (VString (js "(5., 10)")) = (Ok true, [])).
Proof.
  split; split.
  - exists 40%N, [], (js "+5"), [], (js " "), (js "10"), [], 41%N.
    repeat (split; [reflexivity|]). split.
    + exists [43%N], (js "5"), [].
      split; [reflexivity|]. split; [auto|].
      split; [discriminate|]. split; [reflexivity|now left].
    + exists [], (js "10"), [].
      split; [reflexivity|]. split; [auto|].
      split; [discriminate|]. split; [reflexivity|now left].
  - split; [|vm_compute; reflexivity].
    intros [_ H]. vm_compute in H. discriminate H.
  - intros H. apply statedGrammar_noBareDot in H. vm_compute in H.
    discriminate H.
  - split; [split|]; vm_compute; reflexivity.
Qed.

(** C3, amended. The predicate gets past its format check on a string, and
    returns the conjunction of the two bound tests, exactly when the string,
    once trimmed, is: ['('] or ['['], white space, a numeral, white space,
    [','], white space, a numeral, white space, [')'] or [']'], and nothing
    else, where a numeral is an optional ['-'], one or more digits, and
    optionally a ['.'] followed by any number of digits, none included. On
    every other string it returns false, with a warning unless the string is
    empty. *)
Theorem C3_grammar (v : number) (s : jsstring) :
  (passesFormatCheck v s <-> intervalGrammar [45%N] (trim s))
  /\ (intervalGrammar [45%N] (trim s) ->
      exists i, intervalWf i = true /\ s = intervalText i
        /\ isValueInInterval v (VString s)
           = (Ok (lowerTest (openBracket i) v (boundValue (lowerBound i))
                  && upperTest (closeBracket i) v (boundValue (upperBound i))),
              []))
  /\ (~ intervalGrammar [45%N] (trim s) ->
      isValueInInterval v (VString s)
      = (Ok false,
         if nonEmpty s
         then [ConsoleWarn (js "Invalid interval format encountered: " ++ s)]
         else [])).
Proof.
  split; [apply grammar_no_warning|]. split.
  - intros G. destruct (grammar_text s G) as (i & Hwf & ->).
    exists i. auto using isValueInInterval_text.
  - intros Hrej. apply isValueInInterval_stops.
    destruct (reachesBoundTests s) eqn:E; [|reflexivity].
    apply reachesBoundTests_grammar in E. contradiction.
Qed.

Lemma C3_grammar_witness :
  intervalGrammar [45%N] (trim (js " (5., -10.25] "))
  /\ passesFormatCheck (Fin 7) (js " (5., -10.25] ")
  /\ exists i, intervalWf i = true /\ js " (5., -10.25] " = intervalText i
       /\ isValueInInterval (Fin 7) (VString (js " (5., -10.25] "))
          = (Ok (lowerTest (openBracket i) (Fin 7) (boundValue (lowerBound i))
                 && upperTest (closeBracket i) (Fin 7)
                      (boundValue (upperBound i))), []).
Proof.
  assert (G : intervalGrammar [45%N] (trim (js " (5., -10.25] ")))
    by (apply reachesBoundTests_grammar; reflexivity).
  split; [exact G|]. split.
  - exact (proj2 (proj1 (C3_grammar (Fin 7) (js " (5., -10.25] "))) G).
  - exact (proj1 (proj2 (C3_grammar (Fin 7) (js " (5., -10.25] "))) G).
Defined.

(** C4. On a string that fails the grammar, the empty string included, and
    on a value that is not a string, the predicate returns false and throws
    nothing; a string that is not empty leaves a warning. In particular for
    "5-10", "" and "[5,10". *)
Theorem C4_malformed :
  (forall v s, ~ intervalGrammar [45%N] (trim s) ->
     isValueInInterval v (VString s)
     = (Ok false,
        if nonEmpty s
        then [ConsoleWarn (js "Invalid interval format encountered: " ++ s)]
        else []))
  /\ (forall v x, isString x = false -> isValueInInterval v x = (Ok false, []))
  /\ isValueInInterval (Fin 5) (VString (js "5-10"))
     = (Ok false,
        [ConsoleWarn (js "Invalid interval format encountered: 5-10")])
  /\ isValueInInterval (Fin 5) (VString []) = (Ok false, [])
  /\ isValueInInterval (Fin 5) (VString (js "[5,10"))
     = (Ok false,
        [ConsoleWarn (js "Invalid interval format encountered: [5,10")]).
Proof.
  split; [|split; [|repeat split; vm_compute; reflexivity]].
  - intros v s Hrej. apply isValueInInterval_stops.
    destruct (reachesBoundTests s) eqn:E; [|reflexivity].
    apply reachesBoundTests_grammar in E. contradiction.
  - intros v x Hx. unfold isValueInInterval.
    destruct x; try discriminate Hx; cbn [isString negb];
      now rewrite orb_true_r.
Qed.

Lemma C4_malformed_witness :
  (~ intervalGrammar [45%N] (trim (js "[5,10"))
   /\ isValueInInterval (Fin 5) (VString (js "[5,10"))
      = (Ok false,
         if nonEmpty (js "[5,10")
         then [ConsoleWarn
                 (js "Invalid interval format encountered: " ++ js "[5,10")]
         else []))
  /\ (isString (VNumber (Fin 5)) = false
      /\ isValueInInterval (Fin 5) (VNumber (Fin 5)) = (Ok false, [])).
Proof.
  assert (H : ~ intervalGrammar [45%N] (trim (js "[5,10"))).
  { apply exec_regex_none. vm_compute. reflexivity. }
  split; (split; [assumption || reflexivity|]).
  - apply (proj1 C4_malformed (Fin 5) (js "[5,10")). exact H.
  - apply (proj1 (proj2 C4_malformed) (Fin 5) (VNumber (Fin 5))). reflexivity.
Defined.

(** Two of the six bin keys are different strings. *)
Ltac keys_differ := intros E; vm_compute in E; discriminate E.

(** C5, as stated: a field is resolved by the presence of its keys. The
    source resolves it by truthiness: the row below has its underscore-named
    cell, an empty string, and the matcher reads the space-named cell all the
    same, and matches the row on it. *)
Lemma C5_counterexample :
  binText Example.noDigits Example.bothSpellings
    (js "s5_now_bin") (js "s5 now bin")
  <> ToString Example.noDigits
       (resolveByPresence Example.bothSpellings
          (js "s5_now_bin") (js "s5 now bin"))
  /\ rowOk Example.noDigits (Fin 5) (Fin 5) (Fin 5) Example.bothSpellings
     = true
  /\ inInterval (Fin 5)
       (ToString Example.noDigits
          (resolveByPresence Example.bothSpellings
             (js "s5_now_bin") (js "s5 now bin")))
     = false.
Proof.
  split; [|split]; [|vm_compute; reflexivity..].
  intros E. vm_compute in E. discriminate E.
Qed.

(** C5, amended. Each bin field is resolved to the underscore-named cell
    when that cell is truthy, else to the space-named cell when that one is
    truthy, else to the empty string, and then turned into text: a missing
    key and a falsy cell are treated alike. A row with the space-named keys
    is matched as the same row with the underscore-named keys is. *)
Theorem C5_field_resolution (numberToString : number -> jsstring) :
  (forall (r : ExcelRow) (k1 k2 : jsstring),
     binText numberToString r k1 k2
     = ToString numberToString (resolveByTruthiness r k1 k2))
  /\ (forall v5 v10 v20 (r : ExcelRow),
        r !! js "s5 now bin" = None -> r !! js "s10 now bin" = None ->
        r !! js "s20 now bin" = None ->
        rowPredicate numberToString v5 v10 v20 (spaceSpelling r)
        = rowPredicate numberToString v5 v10 v20 r).
Proof.
  split.
  - intros r k1 k2. unfold binText, resolveByTruthiness, get, or_else.
    destruct (r !! k1) as [v1|], (r !! k2) as [v2|];
      cbn [default from_option id];
      try destruct (truthy v1) eqn:T1; try destruct (truthy v2) eqn:T2;
      cbn [truthy]; rewrite ?T1, ?T2; cbn [truthy]; rewrite ?T1, ?T2;
      reflexivity.
  - intros v5 v10 v20 r H5 H10 H20.
    unfold spaceSpelling, binKeys. cbn [foldr fst snd].
    assert (E5 : binText numberToString
                   (rename (js "s5_now_bin") (js "s5 now bin")
                      (rename (js "s10_now_bin") (js "s10 now bin")
                         (rename (js "s20_now_bin") (js "s20 now bin") r)))
                   (js "s5_now_bin") (js "s5 now bin")
                 = binText numberToString r (js "s5_now_bin") (js "s5 now bin")).
    { rewrite binText_rename;
        [|keys_differ
         |rewrite !rename_lookup_other by keys_differ; assumption].
      rewrite !binText_rename_other by keys_differ. reflexivity. }
    assert (E10 : binText numberToString
                   (rename (js "s5_now_bin") (js "s5 now bin")
                      (rename (js "s10_now_bin") (js "s10 now bin")
                         (rename (js "s20_now_bin") (js "s20 now bin") r)))
                   (js "s10_now_bin") (js "s10 now bin")
                 = binText numberToString r
                     (js "s10_now_bin") (js "s10 now bin")).
    { rewrite binText_rename_other by keys_differ.
      rewrite binText_rename;
        [|keys_differ
         |rewrite !rename_lookup_other by keys_differ; assumption].
      rewrite !binText_rename_other by keys_differ. reflexivity. }
    assert (E20 : binText numberToString
                   (rename (js "s5_now_bin") (js "s5 now bin")
                      (rename (js "s10_now_bin") (js "s10 now bin")
                         (rename (js "s20_now_bin") (js "s20 now bin") r)))
                   (js "s20_now_bin") (js "s20 now bin")
                 = binText numberToString r
                     (js "s20_now_bin") (js "s20 now bin")).
    { rewrite !binText_rename_other by keys_differ.
      rewrite binText_rename; [reflexivity|keys_differ|assumption]. }
    unfold rowPredicate. rewrite E5, E10, E20. reflexivity.
Qed.

Lemma C5_field_resolution_witness :
  (Example.row1 !! js "s5 now bin" = None
   /\ Example.row1 !! js "s10 now bin" = None
   /\ Example.row1 !! js "s20 now bin" = None)
  /\ rowPredicate Example.noDigits (Fin 5) (Fin 5) (Fin 5)
       (spaceSpelling Example.row1)
     = rowPredicate Example.noDigits (Fin 5) (Fin 5) (Fin 5) Example.row1.
Proof.
  split; [repeat split; reflexivity|].
  apply (proj2 (C5_field_resolution Example.noDigits)); reflexivity.
Defined.

Lemma find_app_first (p : ExcelRow -> bool) l1 r l2 :
  p r = true -> (forall x, In x l1 -> p x = false) ->
  List.find p (l1 ++ r :: l2) = Some r.
Proof.
  intros Hr. induction l1 as [|x l1 IH]; intros Hl1; cbn [app List.find].
  - now rewrite Hr.
  - rewrite (Hl1 x) by now left. apply IH. intros y Hy. apply Hl1. now right.
Qed.

Lemma find_all_false (p : ExcelRow -> bool) l :
  (forall x, In x l -> p x = false) -> List.find p l = None.
Proof.
  induction l as [|x l IH]; intros Hl; cbn [List.find]; [reflexivity|].
  rewrite (Hl x) by now left. apply IH. intros y Hy. apply Hl. now right.
Qed.

(** C6, as stated: an input that is not a decimal number makes the matcher
    refuse, report, and produce no result. On an empty input the matcher
    returns without a report. On "-40abc" and on "Infinity", neither of them
    a decimal number, it raises no alert, searches, and ends in a result that
    says not found. *)
Lemma C6_counterexample :
  (~ decimalNumber []
   /\ findMatch Example.noDigits (Example.loaded [Example.row1] "" "2" "15")
      = (Ok (Example.loaded [Example.row1] "" "2" "15"), [PreventDefault]))
  /\ (~ decimalNumber (js "-40abc")
      /\ exists st',
           findMatch Example.noDigits
             (Example.loaded [Example.row1; Example.row2] "-40abc" "2" "15")
           = (Ok st', [PreventDefault])
           /\ matchResult st'
              = Some {| found := false; row := None; error := None |})
  /\ (~ decimalNumber (js "Infinity")
      /\ exists st',
           findMatch Example.noDigits
             (Example.loaded [Example.row1; Example.row2] "Infinity" "2" "15")
           = (Ok st', [PreventDefault])
           /\ matchResult st'
              = Some {| found := false; row := None; error := None |}).
Proof.
  split; [|split]; split.
  - intros H. apply statedNumeral_chars in H as [H _]. now apply H.
  - reflexivity.
  - intros H. apply statedNumeral_chars in H as [_ H]. vm_compute in H.
    discriminate H.
  - eexists. split; [vm_compute; reflexivity|reflexivity].
  - intros H. apply statedNumeral_chars in H as [_ H]. vm_compute in H.
    discriminate H.
  - eexists. split; [vm_compute; reflexivity|reflexivity].
Qed.

(** C6, amended. The matcher refuses to run, produces no result and leaves
    the state, with its data set and its earlier result, as it was exactly
    when one of the three inputs is empty or [parseFloat] reads no number
    from it: after leading white space and an optional sign the input starts
    neither with a digit, nor with ['.'] and a digit, nor with "Infinity".
    The refusal is reported by an alert when the three inputs are not empty
    and is silent when one of them is empty. Every other input is searched,
    by the number [parseFloat] reads from its start, without an alert, and
    the search ends in a result: the first row that holds the three numbers,
    or not found. *)
Theorem C6_refusal (numberToString : number -> jsstring) (st : AppState) :
  (inputsEmpty (inputs st) = true ->
   findMatch numberToString st = (Ok st, [PreventDefault]))
  /\ (inputsEmpty (inputs st) = false -> inputsNaN (inputs st) = true ->
      findMatch numberToString st
      = (Ok st, [PreventDefault; Alert invalidNumberMessage]))
  /\ (inputsEmpty (inputs st) = false -> inputsNaN (inputs st) = false ->
      exists st' log,
        findMatch numberToString st = (Ok st', log)
        /\ matchResult st'
           = Some (match
                     List.find
                       (rowOk numberToString (parseFloat (s5 (inputs st)))
                          (parseFloat (s10 (inputs st)))
                          (parseFloat (s20 (inputs st)))) (data st)
                   with
                   | Some x => {| found := true; row := Some x; error := None |}
                   | None => {| found := false; row := None; error := None |}
                   end)
        /\ data st' = data st /\ inputs st' = inputs st
        /\ forall msg, ~ In (Alert msg) log)
  /\ inputsNaN (inputs st)
     = negb (numericPrefix (s5 (inputs st)) && numericPrefix (s10 (inputs st))
             && numericPrefix (s20 (inputs st))).
Proof.
  split; [apply findMatch_empty|]. split; [apply findMatch_NaN|]. split.
  - intros He Hn.
    destruct (first_match_or_none
                (rowOk numberToString (parseFloat (s5 (inputs st)))
                   (parseFloat (s10 (inputs st)))
                   (parseFloat (s20 (inputs st)))) (data st))
      as [(l1 & r & l2 & Hd & Hr & Hl1)|Hnone].
    + eexists _, _.
      split; [now apply (findMatch_found numberToString st l1 r l2)|].
      rewrite Hd at 1. rewrite find_app_first by assumption.
      cbn. repeat split; eauto using search_log_no_alert.
    + eexists _, _.
      split; [now apply (findMatch_notFound numberToString st)|].
      rewrite find_all_false by assumption.
      cbn. repeat split; eauto using search_log_no_alert.
  - unfold inputsNaN. rewrite !parseFloat_NaN, !negb_andb. reflexivity.
Qed.

Lemma C6_refusal_witness :
  let st := Example.searched [Example.row1] "abc" "2" "15" in
  let silent := Example.searched [Example.row1] "" "2" "15" in
  let st2 := Example.searched [Example.row1; Example.row2]
               " -46abc" ".2e1" "15." in
  (inputsEmpty (inputs st) = false /\ inputsNaN (inputs st) = true
   /\ findMatch Example.noDigits st
      = (Ok st, [PreventDefault; Alert invalidNumberMessage]))
  /\ (inputsEmpty (inputs silent) = true
      /\ findMatch Example.noDigits silent = (Ok silent, [PreventDefault]))
  /\ (inputsEmpty (inputs st2) = false /\ inputsNaN (inputs st2) = false
      /\ parseFloat (s5 (inputs st2)) = Fin (-46)
      /\ parseFloat (s10 (inputs st2)) = Fin 2
      /\ parseFloat (s20 (inputs st2)) = Fin 15
      /\ exists st' log,
           findMatch Example.noDigits st2 = (Ok st', log)
           /\ matchResult st'
              = Some {| found := true; row := Some Example.row1;
                        error := None |}
           /\ data st' = data st2 /\ inputs st' = inputs st2
           /\ forall msg, ~ In (Alert msg) log).
Proof.
  intros st silent st2. split; [|split].
  - split; [reflexivity|]. split; [reflexivity|].
    exact (proj1 (proj2 (C6_refusal Example.noDigits st)) eq_refl eq_refl).
  - split; [reflexivity|].
    exact (proj1 (C6_refusal Example.noDigits silent) eq_refl).
  - split; [reflexivity|]. split; [reflexivity|].
    split; [vm_compute; reflexivity|]. split; [vm_compute; reflexivity|].
    split; [vm_compute; reflexivity|].
    destruct (proj1 (proj2 (proj2 (C6_refusal Example.noDigits st2)))
                eq_refl eq_refl) as (st' & log & E & R & rest).
    exists st', log. split; [exact E|]. split; [|exact rest].
    rewrite R. vm_compute. reflexivity.
Defined.



(** C8. On the data set of the two sample rows, the inputs -46, 2, 15 end
    in a result that says found and holds the first row (the one with [stat]
    1), the inputs -44, 2, 15 in one that holds the second row ([stat] 2),
    and the inputs -40, 2, 15 in a result that says not found and holds no
    row. *)
Theorem C8_sample_rows (numberToString : number -> jsstring) :
  let rows := [Example.row1; Example.row2] in
  (exists st',
     findMatch numberToString (Example.loaded rows "-46" "2" "15")
     = (Ok st', [PreventDefault])
     /\ matchResult st'
        = Some {| found := true; row := Some Example.row1; error := None |})
  /\ (exists st',
        findMatch numberToString (Example.loaded rows "-44" "2" "15")
        = (Ok st', [PreventDefault])
        /\ matchResult st'
           = Some {| found := true; row := Some Example.row2; error := None |})
  /\ (exists st',
        findMatch numberToString (Example.loaded rows "-40" "2" "15")
        = (Ok st', [PreventDefault])
        /\ matchResult st'
           = Some {| found := false; row := None; error := None |})
  /\ Example.row1 !! js "stat" = Some (VNumber (Fin 1))
  /\ Example.row2 !! js "stat" = Some (VNumber (Fin 2))
  /\ Example.row1 <> Example.row2.
Proof.
  intros rows.
  split; [eexists; split; [vm_compute; reflexivity|reflexivity]|].
  split; [eexists; split; [vm_compute; reflexivity|reflexivity]|].
  split; [eexists; split; [vm_compute; reflexivity|reflexivity]|].
  split; [reflexivity|]. split; [reflexivity|].
  intros E. apply (f_equal (fun r : ExcelRow => r !! js "stat")) in E.
  vm_compute in E. discriminate E.
Qed.

(** C9. The matcher is a function of the data set and the inputs: it
    leaves both as they were, a second call gives the result and the effects
    of the first, and two states with the same data set and inputs give the
    same result and the same effects, whatever else they hold. *)
Theorem C9_stateless (numberToString : number -> jsstring) :
  (forall st, exists st' log,
     findMatch numberToString st = (Ok st', log)
     /\ data st' = data st /\ inputs st' = inputs st
     /\ findMatch numberToString st' = (Ok st', log))
  /\ (forall st1 st2,
        data st1 = data st2 -> inputs st1 = inputs st2 ->
        snd (findMatch numberToString st1) = snd (findMatch numberToString st2)
        /\ ((fst (findMatch numberToString st1) = Ok st1
             /\ fst (findMatch numberToString st2) = Ok st2)
            \/ exists r,
                 fst (findMatch numberToString st1)
                 = Ok (setMatchResult (Some r) st1)
                 /\ fst (findMatch numberToString st2)
                    = Ok (setMatchResult (Some r) st2))).
Proof.
  split.
  - intros st. destruct (inputsEmpty (inputs st)) eqn:He.
    { exists st, [PreventDefault].
      rewrite findMatch_empty by assumption. auto. }
    destruct (inputsNaN (inputs st)) eqn:Hn.
    { exists st, [PreventDefault; Alert invalidNumberMessage].
      rewrite findMatch_NaN by assumption. auto. }
    destruct (first_match_or_none
                (rowOk numberToString (parseFloat (s5 (inputs st)))
                   (parseFloat (s10 (inputs st)))
                   (parseFloat (s20 (inputs st)))) (data st))
      as [(l1 & r & l2 & Hd & Hr & Hl1)|Hnone].
    + eexists _, _.
      split; [now apply (findMatch_found numberToString st l1 r l2)|].
      split; [reflexivity|]. split; [reflexivity|].
      now apply (findMatch_found numberToString
                   (setMatchResult (Some (foundResult r)) st) l1 r l2).
    + eexists _, _.
      split; [now apply (findMatch_notFound numberToString st)|].
      split; [reflexivity|]. split; [reflexivity|].
      now apply (findMatch_notFound numberToString
                   (setMatchResult (Some notFoundResult) st)).
  - intros st1 st2 Hd Hi.
    destruct (inputsEmpty (inputs st1)) eqn:He.
    { rewrite !findMatch_empty by congruence. auto. }
    destruct (inputsNaN (inputs st1)) eqn:Hn.
    { rewrite !findMatch_NaN by congruence. auto. }
    destruct (first_match_or_none
                (rowOk numberToString (parseFloat (s5 (inputs st1)))
                   (parseFloat (s10 (inputs st1)))
                   (parseFloat (s20 (inputs st1)))) (data st1))
      as [(l1 & r & l2 & Hd1 & Hr & Hl1)|Hnone].
    + rewrite (findMatch_found numberToString st1 l1 r l2) by assumption.
      rewrite (findMatch_found numberToString st2 l1 r l2)
        by (rewrite <- ?Hi, <- ?Hd; assumption).
      rewrite Hi. split; [reflexivity|]. right. exists (foundResult r). auto.
    + rewrite (findMatch_notFound numberToString st1) by assumption.
      rewrite (findMatch_notFound numberToString st2)
        by (rewrite <- ?Hi, <- ?Hd; assumption).
      rewrite Hi, Hd. split; [reflexivity|]. right.
      exists notFoundResult. auto.
Qed.

Lemma C9_stateless_witness :
  let st1 := Example.loaded [Example.row1; Example.row2] "-44" "2" "15" in
  let st2 := Example.searched [Example.row1; Example.row2] "-44" "2" "15" in
  (data st1 = data st2 /\ inputs st1 = inputs st2)
  /\ snd (findMatch Example.noDigits st1) = snd (findMatch Example.noDigits st2)
  /\ ((fst (findMatch Example.noDigits st1) = Ok st1
       /\ fst (findMatch Example.noDigits st2) = Ok st2)
      \/ exists r,
           fst (findMatch Example.noDigits st1)
           = Ok (setMatchResult (Some r) st1)
           /\ fst (findMatch Example.noDigits st2)
              = Ok (setMatchResult (Some r) st2)).
Proof.
  intros st1 st2. split; [split; reflexivity|].
  exact (proj2 (C9_stateless Example.noDigits) st1 st2 eq_refl eq_refl).
Defined.

(** C10. When the pattern matches, the two captured bounds parse to numbers,
    not to [NaN]: the guard on [NaN] cannot fire, and the result is the
    conjunction of the two comparisons the brackets select. *)
Theorem C10_bounds_parse (v : number) (s : jsstring)
    (arr : list (option jsstring)) :
  exec regex 4 (trim s) = Some arr ->
  isNaN (parseFloatOf (element arr 2)) = false
  /\ isNaN (parseFloatOf (element arr 3)) = false
  /\ exists ob cb,
       element arr 1 = Some [ob] /\ element arr 4 = Some [cb]
       /\ isValueInInterval v (VString s)
          = (Ok (lowerTest ob v (parseFloatOf (element arr 2))
                 && upperTest cb v (parseFloatOf (element arr 3))), []).
Proof.
  intros E. apply exec_regex_spec in E.
  destruct E as (ob & ws1 & n1 & ws2 & ws3 & n2 & ws4 & cb & Es & Hp & ->).
  destruct (isValueInInterval_parts v s _ _ _ _ _ _ _ _ Es Hp)
    as (N1 & N2 & R).
  unfold element, parseFloatOf.
  cbn [lookup list_lookup mjoin option_join default from_option id].
  unfold id. split; [assumption|]. split; [assumption|].
  exists ob, cb. auto.
Qed.

Lemma C10_bounds_parse_witness :
  let arr := [Some (js "(-50, -45]"); Some (js "("); Some (js "-50");
              Some (js "-45"); Some (js "]")] in
  exec regex 4 (trim (js " (-50, -45] ")) = Some arr
  /\ isNaN (parseFloatOf (element arr 2)) = false
  /\ isNaN (parseFloatOf (element arr 3)) = false
  /\ exists ob cb,
       element arr 1 = Some [ob] /\ element arr 4 = Some [cb]
       /\ isValueInInterval (Fin (-47)) (VString (js " (-50, -45] "))
          = (Ok (lowerTest ob (Fin (-47)) (parseFloatOf (element arr 2))
                 && upperTest cb (Fin (-47)) (parseFloatOf (element arr 3))),
             []).
Proof.
  intros arr. split; [vm_compute; reflexivity|].
  apply (C10_bounds_parse (Fin (-47)) (js " (-50, -45] ") arr).
  vm_compute. reflexivity.
Defined.

(** * Further properties *)

Import Handlers Bins.

(** * Further properties of the predicate *)

Lemma inInterval_text v i :
  intervalWf i = true ->
  inInterval v (intervalText i)
  = lowerTest (openBracket i) v (boundValue (lowerBound i))
    && upperTest (closeBracket i) v (boundValue (upperBound i)).
Proof.
  intros Hwf. unfold inInterval. now rewrite isValueInInterval_text.
Qed.

Lemma intervalWf_brackets i :
  intervalWf i = true ->
  (openBracket i = 40%N \/ openBracket i = 91%N)
  /\ (closeBracket i = 41%N \/ closeBracket i = 93%N).
Proof.
  unfold intervalWf. intros H. repeat (apply andb_true_iff in H as [H ?]).
  split; classes.
Qed.

(** X1. The result does not depend on how an interval is written: two
    well-formed texts with the same brackets and bounds of the same value
    (whatever the white space, leading zeros or trailing fraction zeros) give
    the same result for every number. *)
Theorem layout_independence (v : number) (i j : intervalSyntax) :
  intervalWf i = true -> intervalWf j = true ->
  openBracket i = openBracket j -> closeBracket i = closeBracket j ->
  (decimalValue (lowerBound i) == decimalValue (lowerBound j))%Q ->
  (decimalValue (upperBound i) == decimalValue (upperBound j))%Q ->
  isValueInInterval v (VString (intervalText i))
  = isValueInInterval v (VString (intervalText j)).
Proof.
  intros Hi Hj Ho Hc El Eu. rewrite !isValueInInterval_text by assumption.
  rewrite Ho, Hc. unfold boundValue.
  now rewrite (roundDouble_proper _ _ El), (roundDouble_proper _ _ Eu).
Qed.

(** The cell of an interval text has finite bounds when its two bounds stand
    for finite numbers. *)
Lemma finiteBounds_text i :
  intervalWf i = true ->
  finiteBounds (intervalText i)
  = isFinite (boundValue (lowerBound i))
    && isFinite (boundValue (upperBound i)).
Proof.
  intros Hwf. unfold finiteBounds.
  pose proof (text_grammar i Hwf) as G.
  rewrite trim_intervalText in * by assumption.
  pose proof Hwf as Hwf'. unfold intervalWf in Hwf'.
  repeat (apply andb_true_iff in Hwf' as [Hwf' ?]).
  erewrite (proj2 (exec_regex_spec _ _)).
  2:{ eexists _, _, _, _, _, _, _, _. split; [reflexivity|].
      split; [|reflexivity]. unfold intervalParts.
      auto 12 using decimal_numeral. }
  unfold element, parseFloatOf.
  cbn [lookup list_lookup mjoin option_join default from_option id].
  unfold id. now rewrite !parseFloat_decimal by assumption.
Qed.

(** A number that is not finite fails one of the two tests against finite
    bounds. *)
Lemma tests_not_finite ob cb v lo hi :
  isFinite v = false -> isFinite lo = true -> isFinite hi = true ->
  lowerTest ob v lo && upperTest cb v hi = false.
Proof.
  intros Hv Hlo Hhi. by_cases_of v; by_cases_of lo; by_cases_of hi; rationals.
Qed.

Lemma tests_NaN ob cb lo hi :
  lowerTest ob NaN lo && upperTest cb NaN hi = false.
Proof. unfold lowerTest. now destruct lo, (ob =? 40)%N. Qed.

Lemma not_finite_outside v s :
  isFinite v = false -> v = NaN \/ finiteBounds s = true ->
  exists log, isValueInInterval v (VString s) = (Ok false, log).
Proof.
  intros Hv Hs. destruct (reachesBoundTests s) eqn:E.
  - apply accepted_is_text in E as (i & Hwf & ->).
    rewrite isValueInInterval_text by assumption. exists [].
    destruct Hs as [->|Hs]; [now rewrite tests_NaN|].
    rewrite finiteBounds_text in Hs by assumption.
    apply andb_true_iff in Hs as [Hlo Hhi].
    now rewrite tests_not_finite.
  - rewrite isValueInInterval_stops by assumption. eauto.
Qed.

(** X2. [NaN] is inside nothing: whatever the second argument, the
    predicate returns false on it and throws nothing. So it does on an
    infinity when the second argument is not an interval or is one with
    finite bounds. An infinity is inside an interval that is closed at a
    bound beyond the range of the doubles, which stands for that infinity:
    a square bracket after a numeral of 310 digits lets [Infinity] in. *)
Theorem not_finite_never_inside :
  (forall x, exists log, isValueInInterval NaN x = (Ok false, log))
  /\ (forall v x,
        isFinite v = false ->
        match x with VString s => finiteBounds s = true | _ => True end ->
        exists log, isValueInInterval v x = (Ok false, log))
  /\ (forall i,
        intervalWf i = true -> closeBracket i = 93%N ->
        boundValue (upperBound i) = PosInfinity ->
        isFinite (boundValue (lowerBound i)) = true ->
        isValueInInterval PosInfinity (VString (intervalText i))
        = (Ok true, [])).
Proof.
  assert (Hother : forall v x, isString x = false ->
            exists log, isValueInInterval v x = (Ok false, log)).
  { intros v x Hx. exists []. unfold isValueInInterval.
    destruct x; try discriminate Hx; cbn [isString negb];
      now rewrite orb_true_r. }
  split; [|split].
  - intros x. destruct x as [| |b|n|s]; try (now apply Hother).
    apply not_finite_outside; auto.
  - intros v x Hv Hx. destruct x as [| |b|n|s]; try (now apply Hother).
    apply not_finite_outside; auto.
  - intros i Hwf Hc Hhi Hlo. rewrite isValueInInterval_text by assumption.
    rewrite Hc, Hhi. destruct (boundValue (lowerBound i)); try discriminate Hlo.
    unfold lowerTest. now destruct (openBracket i =? 40)%N.
Qed.

Lemma lowerTest_not_NaN ob v lo : lowerTest ob v lo = true -> isNaN v = false.
Proof.
  unfold lowerTest. destruct v; try reflexivity.
  now destruct lo, (ob =? 40)%N.
Qed.

(** At a bound with a closed and an open side no number passes both the
    test below it and the test above it, and every number passes one. *)
Lemma tests_exclusive cb ob v b :
  (cb = 93%N /\ ob = 40%N) \/ (cb = 41%N /\ ob = 91%N) ->
  upperTest cb v b && lowerTest ob v b = false.
Proof.
  intros [[-> ->]|[-> ->]]; by_cases_of v; by_cases_of b; rationals.
Qed.

Lemma tests_cover cb ob v b :
  (cb = 93%N /\ ob = 40%N) \/ (cb = 41%N /\ ob = 91%N) ->
  isNaN v = false -> isNaN b = false ->
  upperTest cb v b || lowerTest ob v b = true.
Proof.
  intros [[-> ->]|[-> ->]] Hv Hb; by_cases_of v; by_cases_of b; rationals.
Qed.

(** X3. Two bins that share a bound, one closed and the other open at it,
    tile: no number is inside both, and every number that passes the lower
    test of the first and the upper test of the second is inside one of
    them. *)
Theorem adjacent_bins_tile (i j : intervalSyntax) :
  intervalWf i = true -> intervalWf j = true -> adjacent i j ->
  (closeBracket i = 93%N /\ openBracket j = 40%N)
  \/ (closeBracket i = 41%N /\ openBracket j = 91%N) ->
  (forall v,
     inInterval v (intervalText i) && inInterval v (intervalText j) = false)
  /\ (forall v,
        lowerTest (openBracket i) v (boundValue (lowerBound i)) = true ->
        upperTest (closeBracket j) v (boundValue (upperBound j)) = true ->
        inInterval v (intervalText i) || inInterval v (intervalText j) = true).
Proof.
  intros Hi Hj Hadj Hbr. unfold adjacent in Hadj.
  split.
  - intros v. rewrite !inInterval_text by assumption. rewrite <- Hadj.
    pose proof (tests_exclusive _ _ v (boundValue (upperBound i)) Hbr) as Hex.
    destruct (upperTest (closeBracket i) v _); [|now rewrite andb_false_r].
    cbn [andb] in Hex. rewrite Hex. now rewrite andb_false_r.
  - intros v Hl Hu. rewrite !inInterval_text by assumption.
    rewrite Hl, Hu, <- Hadj, andb_true_l, andb_true_r.
    apply tests_cover; [assumption| |apply boundValue_not_NaN].
    now apply lowerTest_not_NaN in Hl.
Qed.

Lemma tests_at_bound b :
  isNaN b = false ->
  upperTest 93 b b = true /\ lowerTest 91 b b = true
  /\ upperTest 41 b b = false /\ lowerTest 40 b b = false.
Proof. intros Hb. by_cases_of b; repeat split; rationals. Qed.

(** X4. When both bins are closed at the bound they share, the number the
    bound stands for is inside both (the earlier row wins it); when both are
    open there, it is inside neither. *)
Theorem shared_bound (i j : intervalSyntax) :
  intervalWf i = true -> intervalWf j = true -> adjacent i j ->
  let b := boundValue (upperBound i) in
  (closeBracket i = 93%N -> openBracket j = 91%N ->
   lowerTest (openBracket i) b (boundValue (lowerBound i)) = true ->
   upperTest (closeBracket j) b (boundValue (upperBound j)) = true ->
   inInterval b (intervalText i) = true
   /\ inInterval b (intervalText j) = true)
  /\ (closeBracket i = 41%N -> openBracket j = 40%N ->
      inInterval b (intervalText i) = false
      /\ inInterval b (intervalText j) = false).
Proof.
  intros Hi Hj Hadj b. unfold adjacent in Hadj.
  destruct (tests_at_bound b (boundValue_not_NaN _)) as (U93 & L91 & U41 & L40).
  rewrite !inInterval_text by assumption. rewrite <- Hadj. fold b. split.
  - intros Hc Ho Hl Hu. now rewrite Hl, Hu, Hc, Ho, U93, L91.
  - intros Hc Ho. rewrite Hc, Ho, U41, L40. now rewrite andb_false_r.
Qed.

Lemma lowerTest_upward ob a b lo :
  lowerTest ob (Fin a) lo = true -> (a <= b)%Q ->
  lowerTest ob (Fin b) lo = true.
Proof. intros H Hab. by_cases_of lo; rationals. Qed.

Lemma upperTest_downward cb b c hi :
  upperTest cb (Fin c) hi = true -> (b <= c)%Q ->
  upperTest cb (Fin b) hi = true.
Proof. intros H Hbc. by_cases_of hi; rationals. Qed.

(** X5. An interval has no holes: a number between two numbers that are
    inside is inside. *)
Theorem interval_convex (i : intervalSyntax) (a b c : Q) :
  intervalWf i = true ->
  inInterval (Fin a) (intervalText i) = true ->
  inInterval (Fin c) (intervalText i) = true ->
  (a <= b)%Q -> (b <= c)%Q ->
  inInterval (Fin b) (intervalText i) = true.
Proof.
  intros Hi. rewrite !inInterval_text by assumption.
  rewrite !andb_true_iff. intros [Hla _] [_ Huc] Hab Hbc.
  eauto using lowerTest_upward, upperTest_downward.
Qed.

Lemma tests_point ob cb v d :
  (ob = 40%N \/ ob = 91%N) -> (cb = 41%N \/ cb = 93%N) -> isNaN d = false ->
  (lowerTest ob v d && upperTest cb v d = true
   <-> ob = 91%N /\ cb = 93%N /\ sameNumber v d).
Proof.
  intros Ho Hc Hd. rewrite andb_true_iff.
  destruct Ho as [-> | ->], Hc as [-> | ->]; by_cases_of v; by_cases_of d;
    cbn [sameNumber]; (split; [intros [H1 H2]|intros (H1 & H2 & H3)]);
    try discriminate; repeat split; rationals; try lra.
Qed.

(** X6. An interval whose two bounds stand for the same number holds that
    number alone when both brackets are square, and nothing otherwise. *)
Theorem point_interval (v : number) (i : intervalSyntax) :
  intervalWf i = true ->
  boundValue (lowerBound i) = boundValue (upperBound i) ->
  (inInterval v (intervalText i) = true
   <-> openBracket i = 91%N /\ closeBracket i = 93%N
       /\ sameNumber v (boundValue (lowerBound i))).
Proof.
  intros Hi E. rewrite inInterval_text by assumption. rewrite <- E.
  destruct (intervalWf_brackets i Hi) as [Ho Hc].
  apply tests_point; auto using boundValue_not_NaN.
Qed.

Lemma grammar_patternChars t :
  intervalGrammar [45%N] t -> forallb patternChar t = true.
Proof.
  intros (ob & ws1 & n1 & ws2 & ws3 & n2 & ws4 & cb & -> & Hob & Hcb &
          H1 & H2 & H3 & H4 & Hn1 & Hn2).
  apply numeral_numchars in Hn1 as [Hn1 _].
  apply numeral_numchars in Hn2 as [Hn2 _].
  assert (Hw : forall l, forallb isWhiteSpace l = true ->
                         forallb patternChar l = true).
  { intros l Hl. apply forallb_forall. intros c Hc.
    eapply forallb_forall in Hl; eauto. unfold patternChar.
    rewrite Hl. now rewrite !orb_true_r. }
  assert (Hn : forall l, forallb isNumChar l = true ->
                         forallb patternChar l = true).
  { intros l Hl. apply forallb_forall. intros c Hc.
    eapply forallb_forall in Hl; eauto. unfold patternChar, isNumChar in *.
    apply orb_true_iff in Hl as [Hl| ->]; [|now rewrite !orb_true_r].
    apply orb_true_iff in Hl as [-> | ->]; now rewrite !orb_true_r. }
  assert (Po : patternChar ob = true) by (unfold patternChar; now rewrite Hob).
  assert (Pc : patternChar cb = true)
    by (unfold patternChar; rewrite Hcb; now rewrite !orb_true_r).
  rewrite !forallb_app, (Hw ws1), (Hw ws2), (Hw ws3), (Hw ws4),
    (Hn n1), (Hn n2) by assumption.
  cbn [forallb]. rewrite Po, Pc. reflexivity.
Qed.

(** X7. A text with a character that is not a bracket, white space, a
    digit, ['-'], ['.'] or [','] is turned down with a warning: an exponent,
    a [+] sign or a unit never gets through, though [parseFloat] alone would
    read some of them. *)
Theorem foreign_character_rejected (v : number) (s : jsstring) (c : N) :
  In c (trim s) -> patternChar c = false ->
  isValueInInterval v (VString s)
  = (Ok false,
     [ConsoleWarn (js "Invalid interval format encountered: " ++ s)]).
Proof.
  intros Hin Hc.
  assert (Hs : nonEmpty s = true).
  { destruct s; [destruct Hin|reflexivity]. }
  rewrite isValueInInterval_stops, Hs; [reflexivity|].
  destruct (reachesBoundTests s) eqn:E; [|reflexivity].
  apply reachesBoundTests_grammar, grammar_patternChars in E.
  rewrite forallb_forall in E. rewrite (E c Hin) in Hc. discriminate Hc.
Qed.

(** * Further properties of the row matcher *)

Section Search.
Variable numberToString : number -> jsstring.
Local Abbreviation rowPredicate := (rowPredicate numberToString).
Local Abbreviation rowOk := (rowOk numberToString).
Local Abbreviation findMatch := (findMatch numberToString).
Local Abbreviation searchResult := (searchResult numberToString).

Lemma find_fst v5 v10 v20 l :
  fst (App.find (rowPredicate v5 v10 v20) l)
  = Ok (List.find (rowOk v5 v10 v20) l).
Proof.
  induction l as [|x l IH]; cbn [App.find List.find]; [reflexivity|].
  rewrite rowPredicate_rowOk. unfold bind at 1. cbn iota.
  destruct (rowOk v5 v10 v20 x).
  - reflexivity.
  - destruct (App.find _ l) as [o lg]. cbn in IH |- *. exact IH.
Qed.

(** The result after a submit, as a function of the inputs and the data
    set. *)
Lemma searchResult_spec st :
  searchResult st
  = if inputsEmpty (inputs st) || inputsNaN (inputs st) then matchResult st
    else Some (match List.find (rowOk (parseFloat (s5 (inputs st)))
                                  (parseFloat (s10 (inputs st)))
                                  (parseFloat (s20 (inputs st)))) (data st)
               with
               | Some r => foundResult r
               | None => notFoundResult
               end).
Proof.
  unfold Bins.searchResult.
  destruct (inputsEmpty (inputs st)) eqn:He.
  { now rewrite findMatch_empty. }
  destruct (inputsNaN (inputs st)) eqn:Hn.
  { now rewrite findMatch_NaN. }
  rewrite findMatch_search by assumption. cbn [orb].
  pose proof (find_fst (parseFloat (s5 (inputs st)))
                (parseFloat (s10 (inputs st)))
                (parseFloat (s20 (inputs st))) (data st)) as Hf.
  unfold bind, emit, ret.
  destruct (App.find _ (data st)) as [o lg]. cbn in Hf. subst o.
  reflexivity.
Qed.

(** X8. Searching a data set made of two parts: when the first part has a
    matching row the result is that of the first part alone, otherwise it is
    that of the second part alone. *)
Theorem search_concatenation (st : AppState) (l1 l2 : list ExcelRow) :
  let ok := rowOk (parseFloat (s5 (inputs st))) (parseFloat (s10 (inputs st)))
              (parseFloat (s20 (inputs st))) in
  searchResult (setData (l1 ++ l2) st)
  = if existsb ok l1 then searchResult (setData l1 st)
    else searchResult (setData l2 st).
Proof.
  intros ok. rewrite !searchResult_spec. cbn [setData inputs data matchResult].
  fold ok.
  destruct (inputsEmpty (inputs st) || inputsNaN (inputs st)).
  { now destruct (existsb ok l1). }
  induction l1 as [|x l1 IH]; cbn [app existsb List.find]; [reflexivity|].
  destruct (ok x); cbn [orb]; [reflexivity|exact IH].
Qed.

Lemma binText_missing (r : ExcelRow) (k k' : jsstring) :
  r !! k = None -> r !! k' = None -> binText numberToString r k k' = [].
Proof. unfold binText, get. intros -> ->. reflexivity. Qed.

(** X9. A row that has one of the three bin columns under neither of its
    names never matches: on a sheet made of such rows every search ends in
    not-found. *)
Theorem missing_column_never_matches (st : AppState) :
  inputsEmpty (inputs st) = false -> inputsNaN (inputs st) = false ->
  (forall r : ExcelRow, In r (data st) ->
     exists kk, In kk binKeys /\ r !! fst kk = None /\ r !! snd kk = None) ->
  searchResult st = Some notFoundResult.
Proof.
  intros He Hn Hmiss. rewrite searchResult_spec, He, Hn. cbn [orb].
  destruct (List.find _ (data st)) as [r|] eqn:E; [|reflexivity].
  apply find_some in E as [Hin Hok]. exfalso.
  destruct (Hmiss r Hin) as (kk & Hkk & H1 & H2).
  unfold Spec.rowOk in Hok.
  apply andb_true_iff in Hok as [Hok H20].
  apply andb_true_iff in Hok as [H5 H10].
  destruct Hkk as [<-|[<-|[<-|[]]]]; cbn [fst snd] in H1, H2.
  - rewrite binText_missing in H5 by assumption. discriminate H5.
  - rewrite binText_missing in H10 by assumption. discriminate H10.
  - rewrite binText_missing in H20 by assumption. discriminate H20.
Qed.

End Search.

Lemma lessThan_sameNumber a a' b b' :
  sameNumber a a' -> sameNumber b b' -> lessThan a b = lessThan a' b'.
Proof.
  intros Ha Hb.
  destruct a as [| | |x], a' as [| | |x']; cbn in Ha; try discriminate Ha;
    destruct b as [| | |y], b' as [| | |y']; cbn in Hb; try discriminate Hb;
    try reflexivity.
  cbn. f_equal. now apply Qltb_proper.
Qed.

Lemma sameNumber_refl a : sameNumber a a.
Proof. destruct a; cbn; reflexivity. Qed.

Lemma inInterval_sameNumber v v' s :
  sameNumber v v' -> inInterval v s = inInterval v' s.
Proof.
  intros Hv. destruct (reachesBoundTests s) eqn:E.
  - apply accepted_is_text in E as (i & Hwf & ->).
    rewrite !inInterval_text by assumption.
    unfold lowerTest, upperTest, gt, ge, lt, le.
    rewrite (lessThan_sameNumber _ _ v v'
               (sameNumber_refl (boundValue (lowerBound i))) Hv).
    rewrite (lessThan_sameNumber v v' _ _ Hv
               (sameNumber_refl (boundValue (lowerBound i)))).
    rewrite (lessThan_sameNumber _ _ v v'
               (sameNumber_refl (boundValue (upperBound i))) Hv).
    rewrite (lessThan_sameNumber v v' _ _ Hv
               (sameNumber_refl (boundValue (upperBound i)))).
    reflexivity.
  - unfold inInterval. now rewrite !isValueInInterval_stops.
Qed.

Lemma isNaN_sameNumber v v' : sameNumber v v' -> isNaN v = isNaN v'.
Proof.
  destruct v, v'; cbn; intros H; try discriminate H; reflexivity.
Qed.

Section Inputs.
Variable numberToString : number -> jsstring.
Local Abbreviation rowOk := (rowOk numberToString).
Local Abbreviation searchResult := (searchResult numberToString).

Lemma rowOk_sameNumber a a' b b' c c' r :
  sameNumber a a' -> sameNumber b b' -> sameNumber c c' ->
  rowOk a b c r = rowOk a' b' c' r.
Proof.
  intros Ha Hb Hc. unfold Spec.rowOk.
  now rewrite (inInterval_sameNumber a a' _ Ha),
    (inInterval_sameNumber b b' _ Hb), (inInterval_sameNumber c c' _ Hc).
Qed.

Lemma find_ext (f g : ExcelRow -> bool) l :
  (forall x, f x = g x) -> List.find f l = List.find g l.
Proof.
  intros H. induction l as [|x l IH]; cbn; [reflexivity|].
  now rewrite H, IH.
Qed.

(** X10. The inputs count by the number [parseFloat] reads from them: two
    submits on the same data set whose inputs parse to the same three numbers
    give the same result, whatever the leading white space, trailing
    characters or notation of the inputs. *)
Theorem inputs_count_by_value (st1 st2 : AppState) :
  data st1 = data st2 ->
  inputsEmpty (inputs st1) = false -> inputsEmpty (inputs st2) = false ->
  inputsNaN (inputs st1) = false ->
  sameNumber (parseFloat (s5 (inputs st1))) (parseFloat (s5 (inputs st2))) ->
  sameNumber (parseFloat (s10 (inputs st1))) (parseFloat (s10 (inputs st2))) ->
  sameNumber (parseFloat (s20 (inputs st1))) (parseFloat (s20 (inputs st2))) ->
  searchResult st1 = searchResult st2.
Proof.
  intros Hd He1 He2 Hn1 H5 H10 H20.
  assert (Hn2 : inputsNaN (inputs st2) = false).
  { unfold inputsNaN in *.
    now rewrite <- (isNaN_sameNumber _ _ H5), <- (isNaN_sameNumber _ _ H10),
      <- (isNaN_sameNumber _ _ H20). }
  rewrite !searchResult_spec, He1, He2, Hn1, Hn2, Hd. cbn [orb].
  now rewrite (find_ext _ _ (data st2)
                 (fun r => rowOk_sameNumber _ _ _ _ _ _ r H5 H10 H20)).
Qed.

Lemma inInterval_not_finite v s :
  isFinite v = false -> finiteBounds s = true -> inInterval v s = false.
Proof.
  intros Hv Hs. unfold inInterval.
  destruct (not_finite_outside v s Hv (or_intror Hs)) as (lg & ->).
  reflexivity.
Qed.

(** X11. An input that reads as an infinity gets past the check on [NaN]
    and is searched; on a data set whose bin cells have finite bounds the
    search ends in not-found. *)
Theorem infinite_input_not_found (st : AppState) :
  inputsEmpty (inputs st) = false -> inputsNaN (inputs st) = false ->
  isFinite (parseFloat (s5 (inputs st)))
  && isFinite (parseFloat (s10 (inputs st)))
  && isFinite (parseFloat (s20 (inputs st))) = false ->
  (forall (r : ExcelRow) kk, In r (data st) -> In kk binKeys ->
     finiteBounds (binText numberToString r (fst kk) (snd kk)) = true) ->
  searchResult st = Some {| found := false; row := None; error := None |}.
Proof.
  intros He Hn Hinf Hfin. rewrite searchResult_spec, He, Hn. cbn [orb].
  destruct (List.find _ (data st)) as [r|] eqn:E; [|reflexivity].
  apply find_some in E as [Hin Hok]. exfalso. unfold Spec.rowOk in Hok.
  apply andb_true_iff in Hok as [Hok H20].
  apply andb_true_iff in Hok as [H5 H10].
  pose proof (Hfin r (js "s5_now_bin", js "s5 now bin") Hin
                ltac:(left; reflexivity)) as F5.
  pose proof (Hfin r (js "s10_now_bin", js "s10 now bin") Hin
                ltac:(right; left; reflexivity)) as F10.
  pose proof (Hfin r (js "s20_now_bin", js "s20 now bin") Hin
                ltac:(right; right; left; reflexivity)) as F20.
  cbn [fst snd] in F5, F10, F20.
  apply andb_false_iff in Hinf as [Hinf|Hinf];
    [apply andb_false_iff in Hinf as [Hinf|Hinf]|].
  - rewrite inInterval_not_finite in H5 by assumption. discriminate H5.
  - rewrite inInterval_not_finite in H10 by assumption. discriminate H10.
  - rewrite inInterval_not_finite in H20 by assumption. discriminate H20.
Qed.

End Inputs.

(** * The component as a whole *)

Section Component.
Variable numberToString : number -> jsstring.
Local Abbreviation rowOk := (rowOk numberToString).
Local Abbreviation findMatch := (findMatch numberToString).
Local Abbreviation searchResult := (searchResult numberToString).
Local Abbreviation step := (step numberToString).
Local Abbreviation fresh := (fresh numberToString).
Local Abbreviation firstOk := (firstOk numberToString).

Lemma findMatch_fst st :
  fst (findMatch st)
  = Ok (if inputsEmpty (inputs st) || inputsNaN (inputs st) then st
        else setMatchResult (Some (resultFor (firstOk st))) st).
Proof.
  destruct (inputsEmpty (inputs st)) eqn:He.
  { now rewrite findMatch_empty. }
  destruct (inputsNaN (inputs st)) eqn:Hn.
  { now rewrite findMatch_NaN. }
  rewrite findMatch_search by assumption. cbn [orb].
  pose proof (find_fst numberToString (parseFloat (s5 (inputs st)))
                (parseFloat (s10 (inputs st)))
                (parseFloat (s20 (inputs st))) (data st)) as Hf.
  unfold bind, emit, ret, Bins.firstOk, resultFor.
  destruct (App.find _ (data st)) as [o lg]. cbn in Hf. subst o.
  reflexivity.
Qed.

Lemma handleInputChange_result f value st :
  matchResult (handleInputChange f value st) = None.
Proof.
  unfold handleInputChange. destruct (matchResult st) eqn:E; [reflexivity|].
  exact E.
Qed.

Lemma step_fresh st ev : fresh st -> fresh (step st ev).
Proof.
  intros Hst. destruct ev as [rows name| |f value|]; cbn [Handlers.step].
  - intros r H. discriminate H.
  - intros r H. discriminate H.
  - intros r H. rewrite handleInputChange_result in H. discriminate H.
  - rewrite findMatch_fst.
    destruct (inputsEmpty (inputs st) || inputsNaN (inputs st)) eqn:E;
      [exact Hst|].
    apply orb_false_iff in E as [He Hn].
    intros r H. cbn in H. injection H as <-.
    split; [exact He|]. split; [exact Hn|].
    rewrite searchResult_spec. cbn [setMatchResult inputs data].
    now rewrite He, Hn.
Qed.

Lemma run_fresh evs : forall st, fresh st -> fresh (fold_left step evs st).
Proof.
  induction evs as [|ev evs IH]; intros st Hst; cbn [fold_left];
    [exact Hst|].
  apply IH. now apply step_fresh.
Qed.

Lemma initial_fresh : fresh initial.
Proof. intros r H. discriminate H. Qed.

Lemma reachable_result evs r :
  matchResult (fold_left step evs initial) = Some r ->
  inputsEmpty (inputs (fold_left step evs initial)) = false
  /\ inputsNaN (inputs (fold_left step evs initial)) = false
  /\ r = resultFor (firstOk (fold_left step evs initial)).
Proof.
  intros H. destruct (run_fresh evs initial initial_fresh r H)
    as (He & Hn & Hs).
  split; [exact He|]. split; [exact Hn|].
  rewrite searchResult_spec, He, Hn in Hs.
  cbn [orb] in Hs. injection Hs as <-. reflexivity.
Qed.

(** X13. In every state reached from the start by loading a file, clearing,
    typing and submitting, a result on display is the result of the search on
    the data set and the inputs of that state: the handlers never leave a
    stale result. *)
Theorem displayed_result_is_current (evs : list event) (r : MatchResult) :
  let st := fold_left step evs initial in
  matchResult st = Some r ->
  inputsEmpty (inputs st) = false /\ inputsNaN (inputs st) = false
  /\ r = resultFor (firstOk st).
Proof. exact (reachable_result evs r). Qed.

Section Display.
Variable objectKeys : ExcelRow -> list jsstring.
Local Abbreviation ResultDisplay := (ResultDisplay.ResultDisplay objectKeys).

Lemma ResultDisplay_resultFor o :
  ResultDisplay (Some (resultFor o))
  = Ok (match o with
        | Some r =>
            ResultDisplay.MatchedResult
              (map (fun key => (ResultDisplay.label key, get r key))
                 ResultDisplay.mainKeys)
              (map (fun key => (key, get r key))
                 (ResultDisplay.otherKeys objectKeys r))
        | None => ResultDisplay.NoMatchFound ResultDisplay.defaultMessage
        end).
Proof. destruct o; reflexivity. Qed.

(** X14. In every state reached from the start by loading a file,
    clearing, typing and submitting, [ResultDisplay] does not fail and shows
    nothing when there is no result, the card of the first matching row of
    the current data set when there is one, and the no-match panel with its
    standard message otherwise. *)
Theorem display_is_current (evs : list event) :
  let st := fold_left step evs initial in
  ResultDisplay (matchResult st)
  = Ok (match matchResult st with
        | None => ResultDisplay.Nothing
        | Some _ =>
            match firstOk st with
            | Some r =>
                ResultDisplay.MatchedResult
                  (map (fun key => (ResultDisplay.label key, get r key))
                     ResultDisplay.mainKeys)
                  (map (fun key => (key, get r key))
                     (ResultDisplay.otherKeys objectKeys r))
            | None => ResultDisplay.NoMatchFound ResultDisplay.defaultMessage
            end
        end).
Proof.
  intros st. destruct (matchResult st) as [r|] eqn:E; [|reflexivity].
  destruct (reachable_result evs r E) as (_ & _ & ->).
  apply ResultDisplay_resultFor.
Qed.

End Display.

End Component.

(** * The display of a matched row *)

Section MatchedCard.
Variable objectKeys : ExcelRow -> list jsstring.
Local Abbreviation ResultDisplay := (ResultDisplay.ResultDisplay objectKeys).

Lemma includes_In ks k : ResultDisplay.includes ks k = true <-> In k ks.
Proof.
  unfold ResultDisplay.includes. rewrite existsb_exists. split.
  - intros (x & Hx & E). apply bool_decide_eq_true in E. now subst.
  - intros H. exists k. split; [assumption|]. now apply bool_decide_eq_true.
Qed.

Lemma statistics_cells (r : ExcelRow) k v :
  (forall k, In k (objectKeys r) <-> is_Some (r !! k)) ->
  In (k, v) (map (fun key => (key, get r key))
               (ResultDisplay.otherKeys objectKeys r))
  <-> r !! k = Some v /\ ~ In k ResultDisplay.mainKeys.
Proof.
  intros Hkeys. unfold ResultDisplay.otherKeys.
  rewrite in_map_iff. split.
  - intros (k0 & E & Hin). injection E as -> <-.
    apply filter_In in Hin as [Hin Hmain].
    apply Hkeys in Hin as [v Hv]. unfold get. rewrite Hv. split; [reflexivity|].
    intros H. apply includes_In in H. rewrite H in Hmain. discriminate Hmain.
  - intros [Hv Hmain]. exists k. split.
    + unfold get. now rewrite Hv.
    + apply filter_In. split; [apply Hkeys; eauto|].
      destruct (ResultDisplay.includes ResultDisplay.mainKeys k) eqn:E;
        [|reflexivity].
      apply includes_In in E. contradiction.
Qed.

(** X16. The card of a matched row has the three header cells of the
    underscore-named keys, in their order, and its statistics grid holds the
    cells of the row under every other key, and only those. *)
Theorem matched_card_cells (r : ExcelRow) :
  (forall k, In k (objectKeys r) <-> is_Some (r !! k)) ->
  exists header statistics,
    ResultDisplay (Some (foundResult r))
    = Ok (ResultDisplay.MatchedResult header statistics)
    /\ header = [ (js "S5 NOW BIN", get r (js "s5_now_bin"));
                  (js "S10 NOW BIN", get r (js "s10_now_bin"));
                  (js "S20 NOW BIN", get r (js "s20_now_bin")) ]
    /\ forall k v,
         In (k, v) statistics
         <-> r !! k = Some v /\ ~ In k ResultDisplay.mainKeys.
Proof.
  intros Hkeys. eexists _, _. split; [reflexivity|]. split; [reflexivity|].
  intros k v. now apply statistics_cells.
Qed.

(** X17. For a row that has a bin under its space-spelled name only, the
    header cell of that bin is empty and the interval is listed among the
    statistics. *)
Theorem space_named_row_card (r : ExcelRow) (k k' : jsstring) (v : value) :
  (forall k, In k (objectKeys r) <-> is_Some (r !! k)) ->
  In (k, k') binKeys -> r !! k = None -> r !! k' = Some v ->
  exists header statistics,
    ResultDisplay (Some (foundResult r))
    = Ok (ResultDisplay.MatchedResult header statistics)
    /\ In (ResultDisplay.label k, VUndefined) header
    /\ In (k', v) statistics.
Proof.
  intros Hkeys Hkk Hk Hk'. eexists _, _. split; [reflexivity|]. split.
  - apply in_map_iff. exists k. unfold get. rewrite Hk. split; [reflexivity|].
    destruct Hkk as [E|[E|[E|[]]]]; injection E as <- <-; cbn; auto.
  - apply statistics_cells; [assumption|]. split; [assumption|].
    destruct Hkk as [E|[E|[E|[]]]]; injection E as <- <-;
      intros [H|[H|[H|[]]]]; vm_compute in H; discriminate H.
Qed.

End MatchedCard.

(** * The upload-only version *)

Section Upload.
Variable numberToString : number -> jsstring.

(** X18. On a data set that is not empty the upload-only version of
    [findMatch] ends in the same state as the version with automatic loading.
    On an empty data set it raises an alert and leaves the state, where the
    other version sets not-found. *)
Theorem upload_version_agrees (st : AppState) :
  (data st <> [] ->
   fst (UploadApp.findMatch numberToString st)
   = fst (App.findMatch numberToString st))
  /\ (data st = [] -> inputsEmpty (inputs st) = false ->
      UploadApp.findMatch numberToString st
      = (Ok st, [PreventDefault; Alert UploadApp.uploadFirstMessage])
      /\ (inputsNaN (inputs st) = false ->
          App.findMatch numberToString st
          = (Ok (setMatchResult (Some notFoundResult) st), [PreventDefault]))).
Proof.
  split.
  - intros Hd. unfold UploadApp.findMatch, App.findMatch.
    destruct (negb _ || negb _ || negb _); [reflexivity|].
    destruct (data st) as [|r l] eqn:E; [contradiction|]. cbn [length Nat.eqb].
    destruct (isNaN _ || isNaN _ || isNaN _); [reflexivity|].
    unfold bind, emit, ret.
    destruct (App.find _ (r :: l)) as [[o|e] lg]; [|reflexivity].
    destruct o; reflexivity.
  - intros Hd He. split.
    + unfold UploadApp.findMatch. unfold inputsEmpty in He.
      rewrite He, Hd. reflexivity.
    + intros Hn. rewrite findMatch_notFound by (rewrite ?Hd; easy).
      rewrite Hd. reflexivity.
Qed.

End Upload.

(** * The loader *)

Section LoaderProperties.
Import Loader.
Variable utf8Decode : list N -> jsstring.

Lemma isZip_length b : isZip b = true -> (4 <= length b)%nat.
Proof.
  unfold isZip. rewrite !andb_true_iff, !bool_decide_eq_true.
  intros (_ & H). apply lookup_lt_Some in H. lia.
Qed.

Lemma isOle_length b : isOle b = true -> (4 <= length b)%nat.
Proof.
  unfold isOle. rewrite !andb_true_iff, !bool_decide_eq_true.
  intros (_ & H). apply lookup_lt_Some in H. lia.
Qed.

(** X19. A buffer that starts with neither the ZIP nor the OLE signature
    (a buffer shorter than four bytes included) is turned down before the
    spreadsheet reader is called: whatever the reader, the state is left as
    it was, the call throws when loading automatically and alerts and returns
    false otherwise, with a message that is not empty. *)
Theorem unsigned_buffer_rejected (buffer : list N) (name : jsstring)
    (auto : bool) (st : LoaderState) :
  isZip buffer || isOle buffer = false ->
  exists msg,
    nonEmpty msg = true
    /\ forall (sheet : Type) (read : list N -> jsstring + workbook sheet)
              (sheet_to_json : option sheet -> jsstring + list ExcelRow),
         parseExcelData sheet read sheet_to_json utf8Decode buffer name auto st
         = if auto then
             (Thrown msg, st, [ConsoleError (js "Error parsing excel") msg])
           else
             (Returned false, st,
              [ConsoleError (js "Error parsing excel") msg;
               Alert (parseFailed ++ msg)]).
Proof.
  intros H. apply orb_false_iff in H as [Hz Ho].
  assert (Hm : exists msg, nonEmpty msg = true /\
             forall sheet read s2j,
               tryBlock sheet read s2j utf8Decode buffer = inl msg).
  { unfold tryBlock. rewrite Hz, Ho. cbn [negb andb].
    destruct (length buffer <? 4)%nat; [now exists fileTooSmall|].
    destruct (includes _ _); [eexists; split; [|reflexivity]; reflexivity|].
    destruct (startsWith _ _ || includes _ _);
      eexists; (split; [|reflexivity]); reflexivity. }
  destruct Hm as (msg & Hne & Hmsg). exists msg. split; [assumption|].
  intros sheet read s2j. unfold parseExcelData. rewrite Hmsg, Hne.
  reflexivity.
Qed.

(** X20. [parseExcelData] returns true only for a signed buffer, with a
    data set that is not empty, the file name and the mode recorded and the
    earlier result and load error cleared; it returns false only in manual
    mode, after one alert, and throws only in automatic mode, without alert;
    in both the state is left as it was. *)
Theorem parseExcelData_outcome (sheet : Type)
    (read : list N -> jsstring + workbook sheet)
    (sheet_to_json : option sheet -> jsstring + list ExcelRow)
    (buffer : list N) (name : jsstring) (auto : bool) (st : LoaderState) :
  match parseExcelData sheet read sheet_to_json utf8Decode buffer name auto st
  with
  | (Returned true, st', effects) =>
      effects = [] /\ isZip buffer || isOle buffer = true
      /\ data (app st') <> [] /\ fileName (app st') = Some name
      /\ isAutoLoaded (app st') = auto /\ matchResult (app st') = None
      /\ inputs (app st') = inputs (app st) /\ loadError st' = None
  | (Returned false, st', effects) =>
      auto = false /\ st' = st
      /\ exists message msg,
           nonEmpty msg = true
           /\ effects = [ConsoleError (js "Error parsing excel") message;
                         Alert (parseFailed ++ msg)]
  | (Thrown msg, st', effects) =>
      auto = true /\ st' = st /\ nonEmpty msg = true
      /\ forall m, ~ In (Alert m) effects
  end.
Proof.
  unfold parseExcelData.
  destruct (tryBlock sheet read sheet_to_json utf8Decode buffer)
    as [message|jsonData] eqn:E.
  - assert (Hmsg : nonEmpty (if nonEmpty message then message
                             else unknownError) = true)
      by (destruct (nonEmpty message) eqn:Hm; [exact Hm|reflexivity]).
    destruct auto.
    + repeat split; auto. intros m [H|[]]. discriminate H.
    + repeat split; auto. eauto.
  - cbn. unfold tryBlock in E.
    destruct (length buffer <? 4)%nat; [discriminate E|].
    destruct (negb (isZip buffer) && negb (isOle buffer)) eqn:Hsig;
      [repeat match type of E with
              | context [if ?c then _ else _] => destruct c
              end; discriminate E|].
    destruct (read buffer) as [m|wb]; [discriminate E|].
    destruct (SheetNames wb) as [|wsname ?]; [discriminate E|].
    destruct (sheet_to_json _) as [m|rows]; [discriminate E|].
    destruct rows as [|r rows]; [discriminate E|].
    injection E as <-.
    split; [reflexivity|]. split.
    { destruct (isZip buffer), (isOle buffer); auto. }
    split; [discriminate|]. auto 10.
Qed.

End LoaderProperties.

(** ** The hex header *)

Section HexHeader.
Import Loader.

Lemma all_bytes_round_trip :
  forallb byteRoundTrips (map N.of_nat (seq 0 256)) = true.
Proof. vm_compute. reflexivity. Qed.

Lemma formatByte_spec b :
  (b < 256)%N ->
  exists h l, formatByte b = [h; l]
              /\ (16 * hexValue h + hexValue l = b)%N.
Proof.
  intros Hb. pose proof all_bytes_round_trip as H.
  rewrite forallb_forall in H. specialize (H b).
  assert (Hin : In b (map N.of_nat (seq 0 256))).
  { apply in_map_iff. exists (N.to_nat b). split; [lia|].
    apply in_seq. lia. }
  apply H in Hin. unfold byteRoundTrips in Hin.
  destruct (formatByte b) as [|h [|l [|? ?]]]; try discriminate Hin.
  exists h, l. split; [reflexivity|].
  apply andb_true_iff in Hin as [Hin _].
  apply andb_true_iff in Hin as [Hin _]. now apply N.eqb_eq.
Qed.

Lemma decode_join bs :
  Forall (fun b => (b < 256)%N) bs ->
  decodeHexHeader (join (js " ") (map formatByte bs)) = bs.
Proof.
  induction 1 as [|b bs Hb _ IH]; [reflexivity|].
  destruct (formatByte_spec b Hb) as (h & l & E & Hv).
  destruct bs as [|b' bs].
  - cbn [map join]. rewrite E. cbn [decodeHexHeader]. now rewrite Hv.
  - change (join (js " ") (map formatByte (b :: b' :: bs)))
      with (formatByte b ++ js " " ++ join (js " ") (map formatByte (b' :: bs))).
    rewrite E.
    change ([h; l] ++ js " " ++ join (js " ") (map formatByte (b' :: bs)))
      with (h :: l :: 32%N :: join (js " ") (map formatByte (b' :: bs))).
    cbn [decodeHexHeader]. now rewrite Hv, IH.
Qed.

(** X21. The header shown in the error message reads back as the first
    bytes of the buffer, and it is "50 4B 03 04" exactly for the buffers
    that pass as ZIP and "D0 CF 11 E0" exactly for those that pass as
    OLE. *)
Theorem hex_header_round_trip (u8 : list N) (n : nat) :
  Forall (fun b => (b < 256)%N) u8 ->
  decodeHexHeader (getHexHeader u8 n) = take n u8
  /\ (getHexHeader u8 4 = js "50 4B 03 04" <-> isZip u8 = true)
  /\ (getHexHeader u8 4 = js "D0 CF 11 E0" <-> isOle u8 = true).
Proof.
  intros Hu.
  assert (Hdec : forall n, decodeHexHeader (getHexHeader u8 n) = take n u8).
  { intros m. apply (decode_join (take m u8)). now apply Forall_take. }
  split; [apply Hdec|].
  assert (Hsig : forall a b c d,
            take 4 u8 = [a; b; c; d]
            <-> u8 !! 0%nat = Some a /\ u8 !! 1%nat = Some b
                /\ u8 !! 2%nat = Some c /\ u8 !! 3%nat = Some d).
  { intros a b c d. destruct u8 as [|x0 [|x1 [|x2 [|x3 rest]]]]; cbn;
      split; try (intros H; discriminate H);
      try (intros (H0 & H1 & H2 & H3); discriminate).
    - intros [= -> -> -> ->]. auto.
    - intros ([= ->] & [= ->] & [= ->] & [= ->]). reflexivity. }
  assert (Hz : isZip u8 = true <-> take 4 u8 = [80; 75; 3; 4]%N).
  { unfold isZip. rewrite !andb_true_iff, !bool_decide_eq_true, Hsig. tauto. }
  assert (Ho : isOle u8 = true <-> take 4 u8 = [208; 207; 17; 224]%N).
  { unfold isOle. rewrite !andb_true_iff, !bool_decide_eq_true, Hsig. tauto. }
  rewrite Hz, Ho. split; split; intros E.
  - rewrite <- Hdec, E. reflexivity.
  - unfold getHexHeader. rewrite E. reflexivity.
  - rewrite <- Hdec, E. reflexivity.
  - unfold getHexHeader. rewrite E. reflexivity.
Qed.

End HexHeader.

Section Feedback.
Variable numberToString : number -> jsstring.
Variable objectKeys : ExcelRow -> list jsstring.

(** X15. When the submit button is enabled a submit is never dropped in
    silence: it raises the alert when an input is not a number, and otherwise
    ends in a state whose result [ResultDisplay] shows as a panel. *)
Theorem enabled_submit_gives_feedback (st : AppState) :
  isFormValid st = true ->
  (inputsNaN (inputs st) = true
   /\ findMatch numberToString st
      = (Ok st, [PreventDefault; Alert invalidNumberMessage]))
  \/ (inputsNaN (inputs st) = false
      /\ exists st' p,
           fst (findMatch numberToString st) = Ok st'
           /\ ResultDisplay.ResultDisplay objectKeys (matchResult st') = Ok p
           /\ p <> ResultDisplay.Nothing).
Proof.
  unfold isFormValid. intros H.
  apply andb_true_iff in H as [H _]. apply andb_true_iff in H as [H H20].
  apply andb_true_iff in H as [H5 H10].
  assert (He : inputsEmpty (inputs st) = false).
  { unfold inputsEmpty. now rewrite H5, H10, H20. }
  destruct (inputsNaN (inputs st)) eqn:Hn.
  - left. split; [reflexivity|]. now apply findMatch_NaN.
  - right. split; [reflexivity|].
    eexists _, _. rewrite findMatch_fst, He, Hn. cbn [orb].
    split; [reflexivity|]. cbn [setMatchResult matchResult].
    split; [apply ResultDisplay_resultFor|].
    destruct (firstOk numberToString st); discriminate.
Qed.

(** X12. A row whose [s5] cell is not an interval is skipped with exactly
    one warning, the other two cells are not looked at, and the search goes
    on with the rows after it. *)
Theorem malformed_cell_warns_and_continues (v5 v10 v20 : number)
    (r : ExcelRow) (l : list ExcelRow) (st : AppState) :
  let cell := binText numberToString r (js "s5_now_bin") (js "s5 now bin") in
  nonEmpty cell = true -> ~ intervalGrammar [45%N] (trim cell) ->
  rowPredicate numberToString v5 v10 v20 r
  = (Ok false,
     [ConsoleWarn (js "Invalid interval format encountered: " ++ cell)])
  /\ searchResult numberToString (setData (r :: l) st)
     = searchResult numberToString (setData l st).
Proof.
  intros cell Hne Hbad.
  assert (Hstop : reachesBoundTests cell = false).
  { destruct (reachesBoundTests cell) eqn:E; [|reflexivity].
    apply reachesBoundTests_grammar in E. contradiction. }
  assert (Hrow : forall a b c,
            rowPredicate numberToString a b c r
            = (Ok false,
               [ConsoleWarn
                  (js "Invalid interval format encountered: " ++ cell)])).
  { intros a b c. unfold rowPredicate. fold cell.
    rewrite isValueInInterval_stops, Hne by assumption. reflexivity. }
  split; [apply Hrow|].
  change (r :: l) with ([r] ++ l). rewrite search_concatenation.
  cbn [existsb]. rewrite orb_false_r.
  pose proof (rowPredicate_rowOk numberToString
                (parseFloat (s5 (inputs st))) (parseFloat (s10 (inputs st)))
                (parseFloat (s20 (inputs st))) r) as Hok.
  rewrite Hrow in Hok. injection Hok as <-. reflexivity.
Qed.

End Feedback.

Lemma enabled_submit_gives_feedback_witness :
  let st := Example.loaded [Example.row1; Example.row2] "-44" "2" "x" in
  isFormValid st = true
  /\ ((inputsNaN (inputs st) = true
       /\ findMatch Example.noDigits st
          = (Ok st, [PreventDefault; Alert invalidNumberMessage]))
      \/ (inputsNaN (inputs st) = false
          /\ exists st' p,
               fst (findMatch Example.noDigits st) = Ok st'
               /\ ResultDisplay.ResultDisplay Samples.keysOf (matchResult st')
                  = Ok p
               /\ p <> ResultDisplay.Nothing)).
Proof.
  intros st. split; [reflexivity|].
  exact (enabled_submit_gives_feedback Example.noDigits Samples.keysOf st
           eq_refl).
Defined.

Lemma malformed_cell_warns_and_continues_witness :
  let r := Example.binRow "5-10" "oops" "(10,20]" 3 in
  let st := Example.loaded [] "7" "2" "15" in
  let cell := binText Example.noDigits r (js "s5_now_bin") (js "s5 now bin") in
  (nonEmpty cell = true /\ ~ intervalGrammar [45%N] (trim cell))
  /\ rowPredicate Example.noDigits (Fin 7) (Fin 2) (Fin 15) r
     = (Ok false,
        [ConsoleWarn (js "Invalid interval format encountered: " ++ cell)])
  /\ searchResult Example.noDigits (setData (r :: [Example.row1]) st)
     = searchResult Example.noDigits (setData [Example.row1] st).
Proof.
  intros r st cell.
  assert (H : ~ intervalGrammar [45%N] (trim cell)).
  { apply exec_regex_none. vm_compute. reflexivity. }
  split; [split; [reflexivity|exact H]|].
  exact (malformed_cell_warns_and_continues Example.noDigits
           (Fin 7) (Fin 2) (Fin 15) r [Example.row1] st eq_refl H).
Defined.

Lemma layout_independence_witness :
  (intervalWf Samples.low = true /\ intervalWf Samples.lowSpacedOut = true
   /\ openBracket Samples.low = openBracket Samples.lowSpacedOut
   /\ closeBracket Samples.low = closeBracket Samples.lowSpacedOut
   /\ (decimalValue (lowerBound Samples.low)
       == decimalValue (lowerBound Samples.lowSpacedOut))%Q
   /\ (decimalValue (upperBound Samples.low)
       == decimalValue (upperBound Samples.lowSpacedOut))%Q)
  /\ isValueInInterval (Fin (-47)) (VString (intervalText Samples.low))
     = isValueInInterval (Fin (-47))
         (VString (intervalText Samples.lowSpacedOut)).
Proof.
  assert (El : (decimalValue (lowerBound Samples.low)
                == decimalValue (lowerBound Samples.lowSpacedOut))%Q)
    by (vm_compute; reflexivity).
  assert (Eu : (decimalValue (upperBound Samples.low)
                == decimalValue (upperBound Samples.lowSpacedOut))%Q)
    by (vm_compute; reflexivity).
  split; [repeat split; try reflexivity; assumption|].
  exact (layout_independence (Fin (-47)) Samples.low Samples.lowSpacedOut
           eq_refl eq_refl eq_refl eq_refl El Eu).
Defined.

Lemma not_finite_never_inside_witness :
  (isFinite NegInfinity = false /\ finiteBounds (js "[0,10]") = true
   /\ exists log,
        isValueInInterval NegInfinity (VString (js "[0,10]")) = (Ok false, log))
  /\ (intervalWf Samples.unbounded = true
      /\ closeBracket Samples.unbounded = 93%N
      /\ boundValue (upperBound Samples.unbounded) = PosInfinity
      /\ isFinite (boundValue (lowerBound Samples.unbounded)) = true)
  /\ isValueInInterval PosInfinity (VString (intervalText Samples.unbounded))
     = (Ok true, []).
Proof.
  assert (Hf : finiteBounds (js "[0,10]") = true) by (vm_compute; reflexivity).
  assert (Hhi : boundValue (upperBound Samples.unbounded) = PosInfinity)
    by (vm_compute; reflexivity).
  assert (Hlo : isFinite (boundValue (lowerBound Samples.unbounded)) = true)
    by (vm_compute; reflexivity).
  split; [split; [reflexivity|split; [exact Hf|]]|split].
  - exact (proj1 (proj2 not_finite_never_inside) NegInfinity
             (VString (js "[0,10]")) eq_refl Hf).
  - repeat split; assumption || reflexivity.
  - exact (proj2 (proj2 not_finite_never_inside) Samples.unbounded
             eq_refl eq_refl Hhi Hlo).
Defined.

Lemma adjacent_bins_tile_witness :
  (intervalWf Samples.low = true /\ intervalWf Samples.midOpen = true
   /\ adjacent Samples.low Samples.midOpen
   /\ ((closeBracket Samples.low = 93%N /\ openBracket Samples.midOpen = 40%N)
       \/ (closeBracket Samples.low = 41%N
           /\ openBracket Samples.midOpen = 91%N)))
  /\ (forall v,
        inInterval v (intervalText Samples.low)
        && inInterval v (intervalText Samples.midOpen) = false)
  /\ (lowerTest (openBracket Samples.low) (Fin (-45))
        (boundValue (lowerBound Samples.low)) = true
      /\ upperTest (closeBracket Samples.midOpen) (Fin (-45))
           (boundValue (upperBound Samples.midOpen)) = true)
  /\ inInterval (Fin (-45)) (intervalText Samples.low)
     || inInterval (Fin (-45)) (intervalText Samples.midOpen) = true.
Proof.
  assert (Ha : adjacent Samples.low Samples.midOpen)
    by (vm_compute; reflexivity).
  assert (Hl : lowerTest (openBracket Samples.low) (Fin (-45))
                 (boundValue (lowerBound Samples.low)) = true)
    by (vm_compute; reflexivity).
  assert (Hu : upperTest (closeBracket Samples.midOpen) (Fin (-45))
                 (boundValue (upperBound Samples.midOpen)) = true)
    by (vm_compute; reflexivity).
  split; [repeat split; try reflexivity; try exact Ha;
          left; split; reflexivity|].
  split; [|split; [split; assumption|]].
  - exact (proj1 (adjacent_bins_tile Samples.low Samples.midOpen
                    eq_refl eq_refl Ha (or_introl (conj eq_refl eq_refl)))).
  - exact (proj2 (adjacent_bins_tile Samples.low Samples.midOpen
                    eq_refl eq_refl Ha (or_introl (conj eq_refl eq_refl)))
             (Fin (-45)) Hl Hu).
Defined.

Lemma shared_bound_witness :
  (intervalWf Samples.low = true /\ intervalWf Samples.midClosed = true
   /\ adjacent Samples.low Samples.midClosed
   /\ closeBracket Samples.low = 93%N /\ openBracket Samples.midClosed = 91%N)
  /\ inInterval (boundValue (upperBound Samples.low))
       (intervalText Samples.low) = true
  /\ inInterval (boundValue (upperBound Samples.low))
       (intervalText Samples.midClosed) = true.
Proof.
  assert (Ha : adjacent Samples.low Samples.midClosed)
    by (vm_compute; reflexivity).
  split; [repeat split; try reflexivity; exact Ha|].
  apply (proj1 (shared_bound Samples.low Samples.midClosed
                  eq_refl eq_refl Ha)); vm_compute; reflexivity.
Defined.

Lemma interval_convex_witness :
  (intervalWf Samples.low = true
   /\ inInterval (Fin (-49)) (intervalText Samples.low) = true
   /\ inInterval (Fin (-46)) (intervalText Samples.low) = true
   /\ (-49 <= -47)%Q /\ (-47 <= -46)%Q)
  /\ inInterval (Fin (-47)) (intervalText Samples.low) = true.
Proof.
  assert (H1 : (-49 <= -47)%Q) by (vm_compute; discriminate).
  assert (H2 : (-47 <= -46)%Q) by (vm_compute; discriminate).
  split; [repeat split; try reflexivity; assumption|].
  exact (interval_convex Samples.low (-49) (-47) (-46)
           eq_refl eq_refl eq_refl H1 H2).
Defined.

Lemma point_interval_witness :
  (intervalWf Samples.half = true
   /\ boundValue (lowerBound Samples.half)
      = boundValue (upperBound Samples.half))
  /\ (inInterval (Fin (1 # 2)) (intervalText Samples.half) = true
      <-> openBracket Samples.half = 91%N /\ closeBracket Samples.half = 93%N
          /\ sameNumber (Fin (1 # 2)) (boundValue (lowerBound Samples.half))).
Proof.
  assert (E : boundValue (lowerBound Samples.half)
              = boundValue (upperBound Samples.half))
    by (vm_compute; reflexivity).
  split; [split; [reflexivity|exact E]|].
  exact (point_interval (Fin (1 # 2)) Samples.half eq_refl E).
Defined.

Lemma foreign_character_rejected_witness :
  (In 101%N (trim (js "(1e3, 2e3)")) /\ patternChar 101 = false)
  /\ isValueInInterval (Fin 1500) (VString (js "(1e3, 2e3)"))
     = (Ok false,
        [ConsoleWarn
           (js "Invalid interval format encountered: " ++ js "(1e3, 2e3)")]).
Proof.
  assert (Hin : In 101%N (trim (js "(1e3, 2e3)")))
    by (vm_compute; right; right; left; reflexivity).
  split; [split; [exact Hin|reflexivity]|].
  exact (foreign_character_rejected (Fin 1500) (js "(1e3, 2e3)") 101
           Hin eq_refl).
Defined.

Lemma missing_column_never_matches_witness :
  let st := Example.loaded [Samples.noS20; Samples.noS20] "5" "5" "5" in
  (inputsEmpty (inputs st) = false /\ inputsNaN (inputs st) = false
   /\ forall r : ExcelRow, In r (data st) ->
        exists kk, In kk binKeys /\ r !! fst kk = None /\ r !! snd kk = None)
  /\ searchResult Example.noDigits st = Some notFoundResult.
Proof.
  intros st.
  assert (H : forall r : ExcelRow, In r (data st) ->
            exists kk, In kk binKeys /\ r !! fst kk = None
                       /\ r !! snd kk = None).
  { intros r [<-|[<-|[]]];
      (exists (js "s20_now_bin", js "s20 now bin");
       split; [right; right; left; reflexivity|split; reflexivity]). }
  split; [repeat split; try reflexivity; exact H|].
  exact (missing_column_never_matches Example.noDigits st eq_refl eq_refl H).
Defined.

Lemma inputs_count_by_value_witness :
  let st1 := Example.loaded [Example.row1; Example.row2] "-46abc" "2" "15" in
  let st2 := Example.searched [Example.row1; Example.row2]
               "  -46.0" "2.00" "1.5e1" in
  (data st1 = data st2
   /\ inputsEmpty (inputs st1) = false /\ inputsEmpty (inputs st2) = false
   /\ inputsNaN (inputs st1) = false
   /\ sameNumber (parseFloat (s5 (inputs st1))) (parseFloat (s5 (inputs st2)))
   /\ sameNumber (parseFloat (s10 (inputs st1)))
        (parseFloat (s10 (inputs st2)))
   /\ sameNumber (parseFloat (s20 (inputs st1)))
        (parseFloat (s20 (inputs st2))))
  /\ searchResult Example.noDigits st1 = searchResult Example.noDigits st2.
Proof.
  intros st1 st2.
  assert (H5 : sameNumber (parseFloat (s5 (inputs st1)))
                 (parseFloat (s5 (inputs st2)))) by (vm_compute; reflexivity).
  assert (H10 : sameNumber (parseFloat (s10 (inputs st1)))
                  (parseFloat (s10 (inputs st2))))
    by (vm_compute; reflexivity).
  assert (H20 : sameNumber (parseFloat (s20 (inputs st1)))
                  (parseFloat (s20 (inputs st2))))
    by (vm_compute; reflexivity).
  split; [repeat split; try reflexivity; assumption|].
  exact (inputs_count_by_value Example.noDigits st1 st2
           eq_refl eq_refl eq_refl eq_refl H5 H10 H20).
Defined.

Lemma infinite_input_not_found_witness :
  let st := Example.loaded [Example.row1; Example.row2] "Infinity" "2" "15" in
  (inputsEmpty (inputs st) = false /\ inputsNaN (inputs st) = false
   /\ isFinite (parseFloat (s5 (inputs st)))
      && isFinite (parseFloat (s10 (inputs st)))
      && isFinite (parseFloat (s20 (inputs st))) = false
   /\ forall (r : ExcelRow) kk, In r (data st) -> In kk binKeys ->
        finiteBounds (binText Example.noDigits r (fst kk) (snd kk)) = true)
  /\ searchResult Example.noDigits st
     = Some {| found := false; row := None; error := None |}.
Proof.
  intros st.
  assert (H : forall (r : ExcelRow) kk, In r (data st) -> In kk binKeys ->
            finiteBounds (binText Example.noDigits r (fst kk) (snd kk)) = true).
  { intros r kk [<-|[<-|[]]] [<-|[<-|[<-|[]]]]; vm_compute; reflexivity. }
  split; [repeat split; try reflexivity; exact H|].
  exact (infinite_input_not_found Example.noDigits st eq_refl eq_refl eq_refl H).
Defined.

Lemma displayed_result_is_current_witness :
  let st := fold_left (step Example.noDigits) Samples.session initial in
  matchResult st = Some (foundResult Example.row2)
  /\ inputsEmpty (inputs st) = false /\ inputsNaN (inputs st) = false
  /\ foundResult Example.row2 = resultFor (firstOk Example.noDigits st).
Proof.
  intros st.
  assert (H : matchResult st = Some (foundResult Example.row2))
    by (vm_compute; reflexivity).
  split; [exact H|].
  exact (displayed_result_is_current Example.noDigits Samples.session
           (foundResult Example.row2) H).
Defined.

Lemma keysOf_spec (r : ExcelRow) (k : jsstring) :
  In k (Samples.keysOf r) <-> is_Some (r !! k).
Proof.
  unfold Samples.keysOf. rewrite <- list_elem_of_In, list_elem_of_fmap. split.
  - intros ([k0 v] & -> & H). apply elem_of_map_to_list in H. eauto.
  - intros [v H]. exists (k, v). split; [reflexivity|].
    now apply elem_of_map_to_list.
Qed.

Lemma matched_card_cells_witness :
  (forall k, In k (Samples.keysOf Example.row1)
             <-> is_Some (Example.row1 !! k))
  /\ exists header statistics,
       ResultDisplay.ResultDisplay Samples.keysOf
         (Some (foundResult Example.row1))
       = Ok (ResultDisplay.MatchedResult header statistics)
       /\ header = [ (js "S5 NOW BIN", get Example.row1 (js "s5_now_bin"));
                     (js "S10 NOW BIN", get Example.row1 (js "s10_now_bin"));
                     (js "S20 NOW BIN", get Example.row1 (js "s20_now_bin")) ]
       /\ forall k v,
            In (k, v) statistics
            <-> Example.row1 !! k = Some v /\ ~ In k ResultDisplay.mainKeys.
Proof.
  split; [exact (keysOf_spec Example.row1)|].
  exact (matched_card_cells Samples.keysOf Example.row1
           (keysOf_spec Example.row1)).
Defined.

Lemma space_named_row_card_witness :
  ((forall k, In k (Samples.keysOf Samples.spaceNamed)
              <-> is_Some (Samples.spaceNamed !! k))
   /\ In (js "s5_now_bin", js "s5 now bin") binKeys
   /\ Samples.spaceNamed !! js "s5_now_bin" = None
   /\ Samples.spaceNamed !! js "s5 now bin" = Some (VString (js "[0,10]")))
  /\ exists header statistics,
       ResultDisplay.ResultDisplay Samples.keysOf
         (Some (foundResult Samples.spaceNamed))
       = Ok (ResultDisplay.MatchedResult header statistics)
       /\ In (ResultDisplay.label (js "s5_now_bin"), VUndefined) header
       /\ In (js "s5 now bin", VString (js "[0,10]")) statistics.
Proof.
  assert (Hin : In (js "s5_now_bin", js "s5 now bin") binKeys)
    by (left; reflexivity).
  split.
  - split; [exact (keysOf_spec Samples.spaceNamed)|].
    split; [exact Hin|]. split; reflexivity.
  - exact (space_named_row_card Samples.keysOf Samples.spaceNamed
             (js "s5_now_bin") (js "s5 now bin") (VString (js "[0,10]"))
             (keysOf_spec Samples.spaceNamed) Hin eq_refl eq_refl).
Defined.

Lemma upload_version_agrees_witness :
  let st := Example.loaded [Example.row1; Example.row2] "-44" "2" "15" in
  let empty := Example.loaded [] "-44" "2" "15" in
  (data st <> []
   /\ fst (UploadApp.findMatch Example.noDigits st)
      = fst (App.findMatch Example.noDigits st))
  /\ ((data empty = [] /\ inputsEmpty (inputs empty) = false)
      /\ UploadApp.findMatch Example.noDigits empty
         = (Ok empty, [PreventDefault; Alert UploadApp.uploadFirstMessage])).
Proof.
  intros st empty.
  assert (Hd : data st <> []) by discriminate.
  split; [split; [exact Hd|]|split; [split; reflexivity|]].
  - exact (proj1 (upload_version_agrees Example.noDigits st) Hd).
  - exact (proj1 (proj2 (upload_version_agrees Example.noDigits empty)
                    eq_refl eq_refl)).
Defined.

Lemma unsigned_buffer_rejected_witness :
  Loader.isZip Samples.htmlBytes || Loader.isOle Samples.htmlBytes = false
  /\ exists msg,
       nonEmpty msg = true
       /\ forall (sheet : Type)
                 (read : list N -> jsstring + Loader.workbook sheet)
                 (sheet_to_json : option sheet -> jsstring + list ExcelRow),
            Loader.parseExcelData sheet read sheet_to_json Samples.latin1
              Samples.htmlBytes (js "data.xlsx") false Samples.noLoad
            = (Loader.Returned false, Samples.noLoad,
               [Loader.ConsoleError (js "Error parsing excel") msg;
                Loader.Alert (Loader.parseFailed ++ msg)]).
Proof.
  split; [reflexivity|].
  exact (unsigned_buffer_rejected Samples.latin1 Samples.htmlBytes
           (js "data.xlsx") false Samples.noLoad eq_refl).
Defined.

Lemma hex_header_round_trip_witness :
  Forall (fun b => (b < 256)%N) [80; 75; 3; 4; 20; 0]%N
  /\ Loader.decodeHexHeader (Loader.getHexHeader [80; 75; 3; 4; 20; 0]%N 4)
     = take 4 [80; 75; 3; 4; 20; 0]%N
  /\ (Loader.getHexHeader [80; 75; 3; 4; 20; 0]%N 4 = js "50 4B 03 04"
      <-> Loader.isZip [80; 75; 3; 4; 20; 0]%N = true)
  /\ (Loader.getHexHeader [80; 75; 3; 4; 20; 0]%N 4 = js "D0 CF 11 E0"
      <-> Loader.isOle [80; 75; 3; 4; 20; 0]%N = true).
Proof.
  assert (H : Forall (fun b => (b < 256)%N) [80; 75; 3; 4; 20; 0]%N)
    by (repeat constructor).
  split; [exact H|].
  exact (hex_header_round_trip [80; 75; 3; 4; 20; 0]%N 4 H).
Defined.
